(** * Kytos [setup.py]: command orchestration and install modes

    A shallow embedding of the build/installation script [setup.py] of the
    Kytos SDN platform, and the properties of its commands.

    Layout:
    - [Py]: the Python [str], [os.path] and [pathlib] operations the script
      uses, on Rocq strings;
    - [Posix]: the file system the script acts on (a finite map from
      canonical locations to files, directories and symbolic links, with
      kernel-style path resolution) and the [os] / [shutil] entry points;
    - [Setup]: the script itself, command by command;
    - the theorems. *)

From stdpp Require Import gmap strings list fin_maps.
From Stdlib Require Import ZArith Ascii Lia.

Local Open Scope Z_scope.

(* ===================================================================== *)
(** * Python strings and path strings                                     *)
(* ===================================================================== *)

Module Py.

(** [s.endswith(suf)] *)
Fixpoint endswith (s suf : string) : bool :=
  if String.eqb s suf then true
  else match s with
       | EmptyString => false
       | String _ s' => endswith s' suf
       end.

(** [s[:-1]] *)
Fixpoint drop_last (s : string) : string :=
  match s with
  | EmptyString => EmptyString
  | String c s' =>
      match s' with
      | EmptyString => EmptyString
      | String _ _ => String c (drop_last s')
      end
  end.

(** [s.replace(old, new)] for a non-empty [old]: occurrences are replaced
    left to right and do not overlap.  [skip] counts the characters of an
    occurrence that is being dropped. *)
Fixpoint replace_from (old new : string) (skip : nat) (s : string) : string :=
  match s with
  | EmptyString => EmptyString
  | String c s' =>
      match skip with
      | S k => replace_from old new k s'
      | O =>
          if String.prefix old s
          then new +:+ replace_from old new (Nat.pred (String.length old)) s'
          else String c (replace_from old new O s')
      end
  end.

Definition replace (old new s : string) : string := replace_from old new O s.

(** [s.split('/')] *)
Fixpoint split (s : string) : list string :=
  match s with
  | EmptyString => [EmptyString]
  | String c s' =>
      if Ascii.eqb c "/" then EmptyString :: split s'
      else match split s' with
           | h :: t => String c h :: t
           | [] => [String c EmptyString]
           end
  end.

(** ['/'.join(l)] *)
Fixpoint join_sep (l : list string) : string :=
  match l with
  | [] => EmptyString
  | [x] => x
  | x :: l' => x +:+ "/" +:+ join_sep l'
  end.

(** The components the kernel walks: empty components (repeated or
    trailing separators) and ["."] name the directory already reached. *)
Definition trivial_comp (c : string) : bool :=
  String.eqb c "" || String.eqb c ".".

Definition comps (s : string) : list string :=
  List.filter (fun c => negb (trivial_comp c)) (split s).

(** [os.path.isabs] *)
Definition isabs (s : string) : bool :=
  match s with
  | String c _ => Ascii.eqb c "/"
  | EmptyString => false
  end.

(** [os.path.join(a, b)] (posixpath, two arguments) *)
Definition os_path_join (a b : string) : string :=
  if isabs b then b
  else if String.eqb a "" || endswith a "/" then a +:+ b
  else a +:+ "/" +:+ b.

(** [os.path.basename]: what follows the last separator. *)
Definition os_path_basename (s : string) : string :=
  List.last (split s) EmptyString.

(** [s.rstrip('/')] and [s.lstrip('/')] *)
Fixpoint lstrip_sep (s : string) : string :=
  match s with
  | String c s' => if Ascii.eqb c "/" then lstrip_sep s' else s
  | EmptyString => EmptyString
  end.

Fixpoint rstrip_sep (s : string) : string :=
  match s with
  | EmptyString => EmptyString
  | String c s' =>
      match rstrip_sep s' with
      | EmptyString => if Ascii.eqb c "/" then EmptyString else String c EmptyString
      | r => String c r
      end
  end.

(** [os.path.dirname]: everything up to and including the last separator,
    then trailing separators are stripped unless nothing else is left. *)
Definition os_path_dirname (s : string) : string :=
  let head := String.substring 0 (String.length s - String.length (os_path_basename s)) s in
  match rstrip_sep head with
  | EmptyString => head
  | r => r
  end.

(** The lexical part of [os.path.normpath]: [".."] cancels the component
    before it, and is dropped at the root of an absolute path. *)
Fixpoint collapse (rooted : bool) (acc : list string) (l : list string) : list string :=
  match l with
  | [] => acc
  | c :: l' =>
      if String.eqb c ".." then
        match List.rev acc with
        | [] => if rooted then collapse rooted acc l' else collapse rooted [c] l'
        | x :: _ =>
            if String.eqb x ".." then collapse rooted (acc ++ [c]) l'
            else collapse rooted (List.removelast acc) l'
        end
      else collapse rooted (acc ++ [c]) l'
  end.

(** The number of leading separators POSIX keeps: exactly two stay two. *)
Definition initial_slashes (s : string) : string :=
  if isabs s then
    if (String.length s - String.length (lstrip_sep s) =? 2)%nat then "//" else "/"
  else "".

(** [os.path.normpath] *)
Definition os_path_normpath (s : string) : string :=
  match s with
  | EmptyString => "."
  | _ =>
      let body := join_sep (collapse (isabs s) [] (comps s)) in
      match initial_slashes s +:+ body with
      | EmptyString => "."
      | r => r
      end
  end.

(** [os.path.abspath], for the working directory [getcwd]. *)
Definition os_path_abspath (getcwd s : string) : string :=
  os_path_normpath (if isabs s then s else os_path_join getcwd s).

(** ** [pathlib.PurePosixPath] *)

Record Path := mkPath { root : string; parts : list string }.

(** [Path(s)]: the root is the leading separators, the parts are the
    components that are neither empty nor ["."]. *)
Definition Path_of (s : string) : Path :=
  {| root := initial_slashes s; parts := comps s |}.

(** [str(p)] *)
Definition Path_str (p : Path) : string :=
  match root p +:+ join_sep (parts p) with
  | EmptyString => "."
  | r => r
  end.

(** [p / key]: an absolute [key] replaces [p]. *)
Definition Path_div (p : Path) (key : string) : Path :=
  if isabs key then Path_of key
  else {| root := root p; parts := parts p ++ comps key |}.

(** [p.parent] *)
Definition Path_parent (p : Path) : Path :=
  {| root := root p; parts := List.removelast (parts p) |}.

End Py.

(* ===================================================================== *)
(** * The file system                                                     *)
(* ===================================================================== *)

Module Posix.

(** A location is the list of names from the root; the map holds what is
    stored at each location.  Locations are canonical: no name in one is a
    symbolic link that has to be followed to get there. *)
Inductive node :=
  | File (mode : Z) (data : string)
  | Dir (mode : Z)
  | Link (target : string).

Abbreviation path := (list string).
Abbreviation FS := (gmap (list string) node).

#[global] Instance node_eq_dec : EqDecision node.
Proof. solve_decision. Defined.

Inductive errno := ENOENT | ENOTDIR | ELOOP.

(** The outcome of resolving a path string: the node found and where it
    is, or the free location the last name would take in an existing
    directory, or the error of the walk. *)
Inductive walk_res :=
  | WNode (p : path) (n : node)
  | WAbsent (p : path)
  | WErr (e : errno).

(** The kernel follows at most this many symbolic links in one walk. *)
Definition MAXSYMLINKS : nat := 40.

(** Path resolution.  [cur] is the directory reached so far and [todo] the
    names still to walk; [follow] says whether a symbolic link at the last
    name is followed ([stat], [open], [chmod]) or is itself the result
    ([lstat], [symlink], [mkdir]); [k] bounds the links followed. *)
Fixpoint walk (fs : FS) (follow : bool) (k : nat) {struct k}
  : path -> list string -> walk_res :=
  fix go (cur : path) (todo : list string) {struct todo} : walk_res :=
    match todo with
    | [] =>
        match fs !! cur with
        | Some n => WNode cur n
        | None => WErr ENOENT
        end
    | c :: rest =>
        if String.eqb c ".." then go (List.removelast cur) rest
        else
          let p := cur ++ [c] in
          match fs !! p with
          | None =>
              match rest with
              | [] => WAbsent p
              | _ :: _ => WErr ENOENT
              end
          | Some (Dir _) => go p rest
          | Some (File m d) =>
              match rest with
              | [] => WNode p (File m d)
              | _ :: _ => WErr ENOTDIR
              end
          | Some (Link t) =>
              match rest, follow with
              | [], false => WNode p (Link t)
              | _, _ =>
                  if String.eqb t "" then WErr ENOENT
                  else
                    match k with
                    | O => WErr ELOOP
                    | S k' =>
                        walk fs follow k'
                          (if Py.isabs t then [] else cur)
                          (Py.comps t ++ rest)
                    end
              end
          end
    end.

(** The Python exceptions the script can meet. *)
Inductive exn :=
  | AttributeError
  | FileNotFoundError
  | FileExistsError
  | NotADirectoryError
  | IsADirectoryError
  | OSError (e : errno)
  | SameFileError
  | ModuleNotFoundError
  | CalledProcessError (returncode : Z)
  | SystemExit (code : Z)
  | ExternalError (what : string).

Inductive Res (A : Type) :=
  | Ok (a : A)
  | Raise (e : exn).
Arguments Ok {A} a.
Arguments Raise {A} e.

Definition oserror (e : errno) : exn :=
  match e with
  | ENOENT => FileNotFoundError
  | ENOTDIR => NotADirectoryError
  | ELOOP => OSError ELOOP
  end.

(** [mkdir -p]: the walk of [os.makedirs].  Names missing on the way are
    created as directories of mode [dmode]; names that come from the target
    of a symbolic link are never created ([inlink] counts how many of the
    leading names of [todo] are of that kind).  [created] tells whether
    the directory reached last was made by this call: when the walk ends
    on one that was there before, that is an error unless [exist_ok] (and
    then it has to be a directory). *)
Fixpoint mkwalk (dmode : Z) (exist_ok : bool) (k : nat) {struct k}
  : FS -> nat -> bool -> path -> list string -> Res FS :=
  fix go (fs : FS) (inlink : nat) (created : bool)
         (cur : path) (todo : list string) {struct todo} : Res FS :=
    match todo with
    | [] =>
        match fs !! cur with
        | Some (Dir _) =>
            if created || exist_ok then Ok fs else Raise FileExistsError
        | Some _ => Raise FileExistsError
        | None => Raise FileNotFoundError
        end
    | c :: rest =>
        if String.eqb c ".." then go fs (Nat.pred inlink) false (List.removelast cur) rest
        else
          let p := cur ++ [c] in
          match fs !! p with
          | None =>
              match inlink with
              | O => go (<[p := Dir dmode]> fs) O true p rest
              | S _ =>
                  if (length rest <? inlink)%nat then Raise FileExistsError
                  else Raise FileNotFoundError
              end
          | Some (Dir _) => go fs (Nat.pred inlink) false p rest
          | Some (File _ _) =>
              match rest with
              | [] => Raise FileExistsError
              | _ :: _ => Raise NotADirectoryError
              end
          | Some (Link t) =>
              if String.eqb t "" then
                match rest with
                | [] => Raise FileExistsError
                | _ :: _ => Raise FileNotFoundError
                end
              else
                match k with
                | O =>
                    match rest with
                    | [] => Raise FileExistsError
                    | _ :: _ => Raise (OSError ELOOP)
                    end
                | S k' =>
                    mkwalk dmode exist_ok k' fs
                      (length (Py.comps t) + Nat.pred inlink)%nat false
                      (if Py.isabs t then [] else cur)
                      (Py.comps t ++ rest)
                end
          end
    end.

Definition set_mode (n : node) (m : Z) : node :=
  match n with
  | File _ d => File m d
  | Dir _ => Dir m
  | Link t => Link t
  end.

(** Nodes of the same kind: a file for a file, a directory for a
    directory, and for a link the same link. *)
Definition same_kind (n n' : node) : Prop :=
  match n, n' with
  | File _ _, File _ _ => True
  | Dir _, Dir _ => True
  | Link t, Link t' => t = t'
  | _, _ => False
  end.

(** [grows a b]: everything in [a] is still in [b], as the same kind of
    node.  Contents and modes may differ, and [b] may hold more. *)
Definition grows (a b : FS) : Prop :=
  forall p n, a !! p = Some n -> exists n', b !! p = Some n' /\ same_kind n n'.

(** [keeps a b]: every node of [a] is in [b] unchanged. *)
Definition keeps (a b : FS) : Prop :=
  forall p n, a !! p = Some n -> b !! p = Some n.

(** A chain of real directories: [names] leads from [cur] down through
    directories only, with no step back. *)
Fixpoint dir_chain (fs : FS) (cur : path) (names : list string) : bool :=
  match names with
  | [] => true
  | c :: rest =>
      negb (String.eqb c "..")
      && match fs !! (cur ++ [c]) with
         | Some (Dir _) => true
         | _ => false
         end
      && dir_chain fs (cur ++ [c]) rest
  end.

(** A regular file is stored at this very location. *)
Definition regular (fs : FS) (p : path) : bool :=
  match fs !! p with
  | Some (File _ _) => true
  | _ => false
  end.

Section Process.

  (** What the process brings: its working directory (canonical) and its
      file-mode creation mask. *)
Variable cwd : path.
Variable umask : Z.

Definition resolve (fs : FS) (follow : bool) (s : string) : walk_res :=
    if String.eqb s "" then WErr ENOENT
    else walk fs follow MAXSYMLINKS (if Py.isabs s then [] else cwd) (Py.comps s).

  (** [os.path.exists]: [os.stat] succeeds. *)
Definition os_path_exists (fs : FS) (s : string) : bool :=
    match resolve fs true s with
    | WNode _ _ => true
    | _ => false
    end.

  (** [os.path.isdir] *)
Definition os_path_isdir (fs : FS) (s : string) : bool :=
    match resolve fs true s with
    | WNode _ (Dir _) => true
    | _ => false
    end.

  (** [os.path.samefile], with the [OSError] of a failing [stat] read as
      "not the same" the way [shutil._samefile] does. *)
Definition samefile (fs : FS) (a b : string) : bool :=
    match resolve fs true a, resolve fs true b with
    | WNode p _, WNode q _ => bool_decide (p = q)
    | _, _ => false
    end.

  (** [open(s, 'r').read()] *)
Definition read_file (fs : FS) (s : string) : Res string :=
    match resolve fs true s with
    | WNode _ (File _ d) => Ok d
    | WNode _ (Dir _) => Raise IsADirectoryError
    | WNode _ (Link _) => Raise (OSError ELOOP)
    | WAbsent _ => Raise FileNotFoundError
    | WErr e => Raise (oserror e)
    end.

  (** [open(s, 'w').write(d)]: an existing file is truncated and keeps its
      mode, a missing one is created. *)
Definition write_file (fs : FS) (s : string) (d : string) : Res FS :=
    match resolve fs true s with
    | WNode p (File m _) => Ok (<[p := File m d]> fs)
    | WNode _ (Dir _) => Raise IsADirectoryError
    | WNode _ (Link _) => Raise (OSError ELOOP)
    | WAbsent p => Ok (<[p := File (Z.ldiff 438 umask) d]> fs)
    | WErr e => Raise (oserror e)
    end.

  (** [os.symlink(src, dst)]: [dst] itself must be free. *)
Definition os_symlink (fs : FS) (src dst : string) : Res FS :=
    match resolve fs false dst with
    | WNode _ _ => Raise FileExistsError
    | WAbsent p => Ok (<[p := Link src]> fs)
    | WErr e => Raise (oserror e)
    end.

  (** [os.chmod(s, m)] *)
Definition os_chmod (fs : FS) (s : string) (m : Z) : Res FS :=
    match resolve fs true s with
    | WNode p n => Ok (<[p := set_mode n m]> fs)
    | WAbsent _ => Raise FileNotFoundError
    | WErr e => Raise (oserror e)
    end.

  (** [os.makedirs(s, exist_ok=...)] *)
Definition os_makedirs (fs : FS) (s : string) (exist_ok : bool) : Res FS :=
    if String.eqb s "" then Raise FileNotFoundError
    else mkwalk (Z.ldiff 511 umask) exist_ok MAXSYMLINKS fs O false
           (if Py.isabs s then [] else cwd) (Py.comps s).

  (** [shutil.copy2(src, dst)]: the file written is inside [dst] when that
      is a directory; contents, then the permission bits ([copystat]). *)
Definition copy_target (fs : FS) (src dst : string) : string :=
    if os_path_isdir fs dst
    then Py.os_path_join dst (Py.os_path_basename src) else dst.

Definition shutil_copy2 (fs : FS) (src dst : string) : Res FS :=
    let dst := copy_target fs src dst in
    if samefile fs src dst then Raise SameFileError
    else
      match resolve fs true src with
      | WNode _ (File m d) =>
          match write_file fs dst d with
          | Ok fs' => os_chmod fs' dst m
          | Raise e => Raise e
          end
      | WNode _ (Dir _) => Raise IsADirectoryError
      | WNode _ (Link _) => Raise (OSError ELOOP)
      | WAbsent _ => Raise FileNotFoundError
      | WErr e => Raise (oserror e)
      end.

  (** The node a path string leads to, links followed. *)
Definition stat (fs : FS) (s : string) : option node :=
    match resolve fs true s with
    | WNode _ n => Some n
    | _ => None
    end.

  (** The canonical location a path string leads to. *)
Definition realpath (fs : FS) (s : string) : option path :=
    match resolve fs true s with
    | WNode p _ => Some p
    | _ => None
    end.

End Process.

End Posix.

(* ===================================================================== *)
(** * The script                                                          *)
(* ===================================================================== *)

Module Setup.
Import Py Posix.

(** ** State and exceptions

    A command runs on a state and either returns or raises; the state it
    has reached is kept when it raises, as in Python. *)
Definition M (S A : Type) : Type := S -> S * Res A.

Definition ret {S A} (a : A) : M S A := fun s => (s, Ok a).

Definition raise {S A} (e : exn) : M S A := fun s => (s, Raise e).

Definition bind {S A B} (c : M S A) (k : A -> M S B) : M S B :=
  fun s =>
    match c s with
    | (s', Ok a) => k a s'
    | (s', Raise e) => (s', Raise e)
    end.

Notation "'let*' x := c 'in' k" := (bind c (fun x => k))
  (at level 10, x binder, c at level 100, k at level 200).
Notation "c >> k" := (bind c (fun _ => k))
  (at level 100, k at level 200, right associativity).

(** [for x in l: body(x)] *)
Fixpoint for_each {S A} (l : list A) (body : A -> M S unit) : M S unit :=
  match l with
  | [] => ret tt
  | x :: l' => body x >> for_each l' body
  end.

(** [try: c  except <handles>: h] *)
Definition try_except {S A} (c : M S A) (handles : exn -> bool) (h : M S A) : M S A :=
  fun s =>
    match c s with
    | (s', Raise e) => if handles e then h s' else (s', Raise e)
    | r => r
    end.

(** A file-system call that returns nothing, and one that returns a value. *)
Definition update (f : FS -> Res FS) : M FS unit :=
  fun fs =>
    match f fs with
    | Ok fs' => (fs', Ok tt)
    | Raise e => (fs, Raise e)
    end.

Definition query {A} (f : FS -> A) : M FS A := fun fs => (fs, Ok (f fs)).

Definition attempt {S A} (r : Res A) : M S A := fun s => (s, r).

(** ** What the script meets outside itself *)

(** Values of the render context. *)
Inductive value :=
  | VStr (s : string)
  | VList (l : list string).

Abbreviation kwargs := (gmap string value).

(** A subprocess: a shell command line or an argument vector. *)
Inductive cmdline :=
  | Shell (cmd : string)
  | Argv (args : list string).

(** What a command lets the outside see, in order. *)
Inductive event :=
  | EvPrint (s : string)
  | EvExec (c : cmdline)
  | EvSassCompile (filename source_map_filename : string).

#[global] Instance cmdline_eq_dec : EqDecision cmdline.
Proof. solve_decision. Defined.
#[global] Instance event_eq_dec : EqDecision event.
Proof. solve_decision. Defined.

(** The steps of setuptools the commands delegate to. *)
Inductive step := EggInfoRun | InstallRun | DoEggInstall | DevelopRun.

(** The environment of one invocation.  The collaborators ([jinja2],
    subprocesses, [libsass], setuptools) are functions of the file system
    they see. *)
Record Platform := {
  environ : gmap string string;        (* os.environ *)
  dev_log : bool;                      (* Path('/dev/log').exists() at import *)
  argv : list string;                  (* sys.argv *)
  executable : string;                 (* sys.executable *)
  file__ : string;                     (* __file__ *)
  getcwd : string;                     (* os.getcwd() *)
  umask : Z;
  render : string -> kwargs -> Res string;     (* jinja2: render text with kw *)
  subprocess : cmdline -> FS -> Z * FS;        (* exit status, effect *)
  importable_sass : FS -> bool;                (* import sass succeeds *)
  sass_compile : string -> string -> FS -> Res (string * string);
  setuptools : step -> FS -> FS * Res unit;
}.

(** The same platform with another template engine. *)
Definition with_render (P : Platform) (r : string -> kwargs -> Res string) : Platform := {|
  environ := environ P;
  dev_log := dev_log P;
  argv := argv P;
  executable := executable P;
  file__ := file__ P;
  getcwd := getcwd P;
  umask := umask P;
  render := r;
  subprocess := subprocess P;
  importable_sass := importable_sass P;
  sass_compile := sass_compile P;
  setuptools := setuptools P
|}.

Record World := { fs : FS; out : list event }.

(** The subprocesses a trace shows, and the number of compiler runs. *)
Definition execs (l : list event) : list cmdline :=
  omap (fun e => match e with EvExec c => Some c | _ => None end) l.

Definition compiles (l : list event) : nat :=
  length (List.filter (fun e => match e with EvSassCompile _ _ => true | _ => false end) l).

(** What a command added to the trace. *)
Definition news (w w' : World) : list event := drop (length (out w)) (out w').

Definition on_fs {A} (c : M FS A) : M World A :=
  fun w =>
    match c (fs w) with
    | (fs', r) => ({| fs := fs'; out := out w |}, r)
    end.

Definition emit (e : event) : M World unit :=
  fun w => ({| fs := fs w; out := out w ++ [e] |}, Ok tt).

Definition print (s : string) : M World unit := emit (EvPrint s).

Section Script.

Variable P : Platform.

Definition cwd : path := comps (getcwd P).

  (** *** Module-level constants *)

  (** [os.environ.get('VIRTUAL_ENV', None) or '/'] *)
Definition BASE_ENV : string :=
    match environ P !! "VIRTUAL_ENV" with
    | Some v => if String.eqb v "" then "/" else v
    | None => "/"
    end.

Definition ETC_FILES : list string := ["etc/kytos/logging.ini"].

Definition TEMPLATE_FILES : list string :=
    ["etc/kytos/kytos.conf.template"; "etc/kytos/logging.ini.template"].

Definition SYSLOG_ARGS : list string :=
    if dev_log P then ["/dev/log"] else [].

  (** [Path(__file__).parent] *)
Definition here : Path := Path_parent (Path_of (file__ P)).

  (** *** File-system calls of this process *)

Definition exists_ (s : string) : M FS bool := query (fun fs => os_path_exists cwd fs s).
Definition open_read (s : string) : M FS string :=
    fun fs => (fs, read_file cwd fs s).
Definition open_write (s d : string) : M FS unit :=
    update (fun fs => write_file cwd (umask P) fs s d).
Definition makedirs (s : string) (exist_ok : bool) : M FS unit :=
    update (fun fs => os_makedirs cwd (umask P) fs s exist_ok).
Definition chmod (s : string) (m : Z) : M FS unit :=
    update (fun fs => os_chmod cwd fs s m).
Definition symlink (src dst : string) : M FS unit :=
    update (fun fs => os_symlink cwd fs src dst).
Definition copy2 (src dst : string) : M FS unit :=
    update (fun fs => shutil_copy2 cwd (umask P) fs src dst).

  (** [subprocess.check_call]: a non-zero exit status raises. *)
Definition check_call (c : cmdline) : M World unit :=
    fun w =>
      match subprocess P c (fs w) with
      | (code, fs') =>
          ({| fs := fs'; out := out w ++ [EvExec c] |},
           if code =? 0 then Ok tt else Raise (CalledProcessError code))
      end.

  (** [subprocess.call]: the exit status is returned, whatever it is. *)
Definition call (c : cmdline) : M World Z :=
    fun w =>
      match subprocess P c (fs w) with
      | (code, fs') => ({| fs := fs'; out := out w ++ [EvExec c] |}, Ok code)
      end.

  (** [import sass] *)
Definition import_sass : M World unit :=
    fun w =>
      (w, if importable_sass P (fs w) then Ok tt else Raise ModuleNotFoundError).

Definition is_ModuleNotFoundError (e : exn) : bool :=
    match e with ModuleNotFoundError => true | _ => false end.

Definition is_CalledProcessError (e : exn) : bool :=
    match e with CalledProcessError _ => true | _ => false end.

  (** *** class SASSBuild *)

Definition _cssdir : Path := Path_div here "kytos/web-ui/static/css".
Definition style_css : Path := Path_div _cssdir "style.css".

  (** [import sass] succeeds, at once or after the one bootstrap install. *)
Definition sass_ready (f : FS) : bool :=
    importable_sass P f ||
    (let r := subprocess P (Argv [executable P; "-m"; "pip"; "install"; "-r";
                                  "requirements/build.in"]) f in
     (r.1 =? 0) && importable_sass P r.2).

Definition SASSBuild_build : M World unit :=
    try_except import_sass is_ModuleNotFoundError
      (check_call (Argv [executable P; "-m"; "pip"; "install"; "-r";
                         "requirements/build.in"]) >>
       import_sass) >>
    let sassdir := Path_div here "web-ui-src/sass" in
    let main_scss := Path_div sassdir "main.scss" in
    let style_map := Path_div _cssdir "style.css.map" in
    let* compiled := (emit (EvSassCompile (Path_str main_scss) (Path_str style_map)) >>
                 fun w => (w, sass_compile P (Path_str main_scss) (Path_str style_map) (fs w))) in
    for_each (zip [compiled.1; compiled.2] [style_css; style_map])
      (fun cf => on_fs (open_write (Path_str cf.2) cf.1)).

Definition SASSBuild_run : M World unit := SASSBuild_build.

  (** *** class EggInfo *)

Definition _install_deps_wheels : M World unit :=
    print "Installing dependencies..." >>
    check_call (Argv [executable P; "-m"; "pip"; "install"; "-r";
                      "requirements/run.in"]).

Definition _check_sass : M World unit :=
    let* built := on_fs (exists_ (Path_str style_css)) in
    if built then print "CSS already built. Not overriding it."
    else SASSBuild_build.

Definition EggInfo_run : M World unit :=
    _install_deps_wheels >>
    _check_sass >>
    on_fs (setuptools P EggInfoRun).

  (** *** class Cleaner

      [clean_run] is the [run] of the distutils command it extends. *)

Definition Cleaner_cmds : list string :=
    ["rm -vrf ./build ./dist ./*.egg-info";
     "find . -name __pycache__ -type d | xargs rm -rf";
     "test -d docs && make -C docs/ clean"].

Definition Cleaner_run (clean_run : M FS unit) : M World unit :=
    on_fs clean_run >>
    (let* _ := call (Shell "rm -vrf ./build ./dist ./*.egg-info") in
     let* _ := call (Shell "find . -name __pycache__ -type d | xargs rm -rf") in
     let* _ := call (Shell "test -d docs && make -C docs/ clean") in
     ret tt).

  (** *** The test commands *)

Definition TestCoverage_cmd : string :=
    "coverage3 run --source=kytos setup.py test && coverage3 report".
Definition DocTest_cmd : string := "make -C docs/ default doctest".
Definition Linter_cmd : string := "yala setup.py kytos tests".

Definition TestCoverage_run : M World unit := check_call (Shell TestCoverage_cmd).

Definition DocTest_run : M World unit := check_call (Shell DocTest_cmd).

Definition Linter_run : M World unit :=
    print "Yala is running. It may take several seconds..." >>
    try_except
      (check_call (Shell Linter_cmd) >>
       print "No linter error found.")
      is_CalledProcessError
      (print "Linter check failed. Fix the error(s) above and try again." >>
       raise (SystemExit (-1))).

Definition CITest_run : M World unit :=
    for_each [TestCoverage_run; DocTest_run; Linter_run] (fun command => command).

  (** *** class CommonInstall *)

Definition create_paths : M FS unit :=
    let directories := [os_path_join BASE_ENV "etc/kytos"] in
    for_each directories (fun directory =>
      let* present := exists_ directory in
      if negb present then makedirs directory false else ret tt).

Definition pid_folder : string := os_path_join BASE_ENV "var/run/kytos".

Definition create_pid_folder : M FS unit :=
    makedirs pid_folder true >>
    if String.eqb BASE_ENV "/" then chmod pid_folder 1023 (* 0o1777 *)
    else ret tt.

  (** Lines 202-203: one trailing separator is cut from the prefix. *)
Definition normalize_prefix (kw : kwargs) : Res kwargs :=
    match kw !! "prefix" with
    | Some (VStr p) =>
        Ok (if endswith p "/" then <["prefix" := VStr (drop_last p)]> kw else kw)
    | _ => Raise AttributeError
    end.

  (** [Path(destination) / path.replace('.template', '')], as the string
      given to [open]. *)
Definition rendered_path (destination : Path) (path : string) : string :=
    Path_str (Path_div destination (replace ".template" "" path)).

  (** Lines 207-211: the body of the loop over the templates. *)
Definition render_one (destination : Path) (kw : kwargs) (path : string) : M FS unit :=
    let* text := open_read path in
    let* content := attempt (render P text kw) in
    let dst_path := rendered_path destination path in
    open_write dst_path content.

Definition generate_file_from_template
      (templates : list string) (destination : Path) (kw : kwargs) : M FS unit :=
    let* kw := attempt (normalize_prefix kw) in
    create_paths >>
    for_each templates (render_one destination kw).

Definition install_kwargs : kwargs :=
    <["prefix" := VStr BASE_ENV]> (<["syslog_args" := VList SYSLOG_ARGS]> ∅).

  (** *** class InstallMode *)

  (** [Path(BASE_ENV) / file], as the string given to [shutil.copy2]. *)
Definition install_dst (file : string) : string :=
    Path_str (Path_div (Path_of BASE_ENV) file).

Definition InstallMode_run : M FS unit :=
    (if bool_decide ("bdist_wheel" ∈ argv P)
     then setuptools P InstallRun
     else setuptools P DoEggInstall) >>
    generate_file_from_template TEMPLATE_FILES here install_kwargs >>
    for_each ETC_FILES (fun file => copy2 file (install_dst file)) >>
    create_pid_folder.

  (** *** class DevelopMode *)

  (** Lines 282-284: what a link points to, and where it is made. *)
Definition link_src (file_name : string) : string :=
    let current_directory := os_path_dirname (file__ P) in
    os_path_join (os_path_abspath (getcwd P) current_directory) file_name.

Definition link_dst (file_name : string) : string :=
    os_path_join BASE_ENV file_name.

Definition generate_file_link (file_name : string) : M FS unit :=
    let src := link_src file_name in
    let dst := link_dst file_name in
    let* present := exists_ dst in
    if negb present then symlink src dst else ret tt.

Definition DevelopMode_run : M FS unit :=
    setuptools P DevelopRun >>
    generate_file_from_template TEMPLATE_FILES here install_kwargs >>
    for_each ETC_FILES generate_file_link >>
    for_each TEMPLATE_FILES (fun file_name =>
      generate_file_link (replace ".template" "" file_name)) >>
    create_pid_folder.

  (** The two [pip] command lines and the compiler run, as a trace shows
      them. *)
Definition pip_build : cmdline :=
    Argv [executable P; "-m"; "pip"; "install"; "-r"; "requirements/build.in"].

Definition pip_run : cmdline :=
    Argv [executable P; "-m"; "pip"; "install"; "-r"; "requirements/run.in"].

Definition sass_event : event :=
    EvSassCompile
      (Path_str (Path_div (Path_div here "web-ui-src/sass") "main.scss"))
      (Path_str (Path_div _cssdir "style.css.map")).

  (** What [SASSBuild.build] shows when it starts on the file system [f]. *)
Definition build_trace_of (f : FS) : list event :=
    (if importable_sass P f then [] else [EvExec pip_build])
    ++ (if sass_ready f then [sass_event] else []).

  (** The script is run from the directory it lies in ([python3 setup.py
      ...]): [Path(__file__).parent] is ["."], and the absolute form of
      its directory is the working directory. *)
Definition invoked_in_place : bool :=
    String.eqb (root here) ""
    && match parts here with [] => true | _ :: _ => false end
    && String.eqb (os_path_abspath (getcwd P) (os_path_dirname (file__ P))) (getcwd P)
    && isabs (getcwd P).

  (** The names of the configuration files and of their templates. *)
Definition config_names : list string :=
    ["kytos.conf.template"; "logging.ini.template"; "kytos.conf"; "logging.ini"].

  (** No symbolic link stands in for the configuration: [etc/kytos] of the
      source tree and of the install target are reached through real
      directories, and the configuration files of the source tree and
      their templates are regular files. *)
Definition plain_config (fs : FS) : bool :=
    dir_chain fs [] (cwd ++ ["etc"; "kytos"])
    && forallb (fun name => regular fs (cwd ++ ["etc"; "kytos"; name])) config_names
    && dir_chain fs (if isabs BASE_ENV then [] else cwd)
         (comps BASE_ENV ++ ["etc"; "kytos"]).

  (** The status the process ends with when an exception reaches the top:
      [SystemExit(n)] gives [n] modulo 256, a traceback gives 1. *)
Definition exit_status {A} (r : Res A) : Z :=
    match r with
    | Ok _ => 0
    | Raise (SystemExit n) => n mod 256
    | Raise _ => 1
    end.

End Script.

End Setup.

(* ===================================================================== *)
(** * The metadata of the package                                         *)
(* ===================================================================== *)

(** Lines 297-298: [kytos/core/metadata.py] is read as text and searched
    with [re.findall(r"(__[a-z]+__)\s*=\s*'([^']+)'", text)]; the pairs
    found make the dictionary [METADATA].  The text is taken to be ASCII,
    as the file is: the characters below are all single bytes. *)
Module Metadata.

(** [[a-z]] *)
Definition is_lower (c : ascii) : bool :=
  (97 <=? nat_of_ascii c)%nat && (nat_of_ascii c <=? 122)%nat.

(** [\s], on ASCII: tab to carriage return, the four separators 28-31,
    and the space. *)
Definition is_space (c : ascii) : bool :=
  let n := nat_of_ascii c in
  ((9 <=? n)%nat && (n <=? 13)%nat) || ((28 <=? n)%nat && (n <=? 32)%nat).

(** [[^']] *)
Definition not_quote (c : ascii) : bool := negb (Ascii.eqb c "'").

(** The longest prefix of characters of a class, and what follows it: a
    starred or plussed class matches that prefix and no shorter one,
    since here what has to come next is never in the class. *)
Fixpoint span (p : ascii -> bool) (s : string) : string * string :=
  match s with
  | EmptyString => (EmptyString, EmptyString)
  | String c s' =>
      if p c then let r := span p s' in (String c r.1, r.2)
      else (EmptyString, s)
  end.

(** A match of the pattern at the start of [s]: the two groups and the
    text after the match. *)
Definition match_here (s : string) : option (string * string * string) :=
  match s with
  | String "_" (String "_" s1) =>
      let name := span is_lower s1 in
      match name.1, name.2 with
      | String _ _, String "_" (String "_" s3) =>
          match (span is_space s3).2 with
          | String "=" s5 =>
              match (span is_space s5).2 with
              | String "'" s7 =>
                  let value := span not_quote s7 in
                  match value.1, value.2 with
                  | String _ _, String "'" s9 =>
                      Some ("__" +:+ name.1 +:+ "__", value.1, s9)
                  | _, _ => None
                  end
              | _ => None
              end
          | _ => None
          end
      | _, _ => None
      end
  | _ => None
  end.

(** [re.findall]: the matches from left to right, without overlap.  After
    a match the search goes on behind it: [skip] counts the characters of
    the match still to pass. *)
Fixpoint findall_from (skip : nat) (s : string) : list (string * string) :=
  match s with
  | EmptyString => []
  | String c s' =>
      match skip with
      | S k => findall_from k s'
      | O =>
          match match_here s with
          | Some (key, value, rest) =>
              (key, value)
                :: findall_from (String.length s' - String.length rest)%nat s'
          | None => findall_from O s'
          end
      end
  end.

Definition findall (s : string) : list (string * string) := findall_from O s.

(** [dict(pairs)]: a later pair replaces an earlier one with its key. *)
Definition dict (pairs : list (string * string)) : gmap string string :=
  fold_left (fun m kv => <[kv.1 := kv.2]> m) pairs ∅.

Definition METADATA (META_FILE : string) : gmap string string :=
  dict (findall META_FILE).

(** One line of the file: [key = 'value'] and a newline. *)
Definition assignment (kv : string * string) : string :=
  kv.1 +:+ " = '" +:+ kv.2 +:+ "'" +:+ String (ascii_of_nat 10) "".

(** A key of the form the pattern asks for, and a value it can hold. *)
Definition dunder (key : string) : Prop :=
  exists name, key = "__" +:+ name +:+ "__" /\ name <> ""
               /\ (span is_lower name).2 = "".

Definition quotable (value : string) : Prop :=
  value <> "" /\ (span not_quote value).2 = "".

(** No single quote in the text. *)
Fixpoint quote_free (s : string) : bool :=
  match s with
  | EmptyString => true
  | String c s' => not_quote c && quote_free s'
  end.

(** The file written from a list of pairs, a line each. *)
Fixpoint metadata_file (pairs : list (string * string)) : string :=
  match pairs with
  | [] => EmptyString
  | kv :: rest => assignment kv +:+ metadata_file rest
  end.

End Metadata.

(* ===================================================================== *)
(** * Sample invocations                                                  *)
(* ===================================================================== *)

(** Concrete platforms and file systems on which the commands are run in
    the examples below. *)
Module Sample.
Import Py Posix Setup.

(** A stand-in for jinja2 that shows which prefix it was given. *)
Definition show_prefix (text : string) (kw : kwargs) : Res string :=
  match kw !! "prefix" with
  | Some (VStr p) => Ok (text +:+ "@" +:+ p)
  | _ => Raise (ExternalError "prefix is undefined")
  end.

(** [python3 setup.py <command>] in [/src], no virtual environment, every
    subprocess succeeding. *)
Definition system : Platform := {|
  environ := ∅;
  dev_log := false;
  argv := ["setup.py"; "install"];
  executable := "/usr/bin/python3";
  file__ := "setup.py";
  getcwd := "/src";
  umask := 18;
  render := show_prefix;
  subprocess := fun _ fs => (0, fs);
  importable_sass := fun _ => true;
  sass_compile := fun _ _ _ => Ok ("css", "map");
  setuptools := fun _ fs => (fs, Ok tt)
|}.

(** The same with a virtual environment in [/opt/venv]. *)
Definition venv : Platform := {|
  environ := <["VIRTUAL_ENV" := "/opt/venv"]> ∅;
  dev_log := false;
  argv := ["setup.py"; "develop"];
  executable := "/opt/venv/bin/python3";
  file__ := "setup.py";
  getcwd := "/src";
  umask := 18;
  render := show_prefix;
  subprocess := fun _ fs => (0, fs);
  importable_sass := fun _ => true;
  sass_compile := fun _ _ _ => Ok ("css", "map");
  setuptools := fun _ fs => (fs, Ok tt)
|}.

(** A machine without libsass on which [pip install] fails. *)
Definition offline : Platform := {|
  environ := ∅;
  dev_log := false;
  argv := ["setup.py"; "egg_info"];
  executable := "/usr/bin/python3";
  file__ := "setup.py";
  getcwd := "/src";
  umask := 18;
  render := show_prefix;
  subprocess := fun _ fs => (1, fs);
  importable_sass := fun _ => false;
  sass_compile := fun _ _ _ => Ok ("css", "map");
  setuptools := fun _ fs => (fs, Ok tt)
|}.

(** A source tree in [/src] with the two templates and a [logging.ini]
    left by an earlier run; [/var/run] is the usual link to [/run]. *)
Definition tree : FS := list_to_map [
  ([], Dir 493);
  (["etc"], Dir 493);
  (["opt"], Dir 493);
  (["run"], Dir 493);
  (["var"], Dir 493);
  (["var"; "run"], Link "/run");
  (["src"], Dir 493);
  (["src"; "etc"], Dir 493);
  (["src"; "etc"; "kytos"], Dir 493);
  (["src"; "etc"; "kytos"; "kytos.conf.template"], File 420 "K");
  (["src"; "etc"; "kytos"; "logging.ini.template"], File 420 "L");
  (["src"; "etc"; "kytos"; "logging.ini"], File 420 "old")
].

End Sample.

Import Py Posix Setup.

(* ===================================================================== *)
(** * Path resolution                                                     *)
(* ===================================================================== *)

Section WalkFacts.

Lemma same_kind_refl n : same_kind n n.
  Proof. by destruct n. Qed.

Lemma same_kind_trans n1 n2 n3 :
    same_kind n1 n2 -> same_kind n2 n3 -> same_kind n1 n3.
  Proof. destruct n1, n2, n3; simpl; congruence || tauto. Qed.

Lemma grows_refl a : grows a a.
  Proof. intros p n Hp. exists n. split; [done|apply same_kind_refl]. Qed.

Lemma grows_trans a b c : grows a b -> grows b c -> grows a c.
  Proof.
    intros Hab Hbc p n Hp.
    destruct (Hab p n Hp) as (n' & Hp' & Hk).
    destruct (Hbc p n' Hp') as (n'' & Hp'' & Hk').
    exists n''. split; [done|]. by eapply same_kind_trans.
  Qed.

Lemma keeps_grows a b : keeps a b -> grows a b.
  Proof. intros H p n Hp. exists n. split; [by apply H|apply same_kind_refl]. Qed.

Lemma keeps_refl a : keeps a a.
  Proof. by intros p n Hp. Qed.

Lemma keeps_trans a b c : keeps a b -> keeps b c -> keeps a c.
  Proof. intros Hab Hbc p n Hp. by apply Hbc, Hab. Qed.

Lemma keeps_insert_fresh (a : FS) p n : a !! p = None -> keeps a (<[p := n]> a).
  Proof.
    intros Hnone q x Hq. rewrite lookup_insert_ne; [done|]. congruence.
  Qed.

Lemma grows_insert_same_kind (a : FS) p n n' :
    a !! p = Some n -> same_kind n n' -> grows a (<[p := n']> a).
  Proof.
    intros Hp Hk q x Hq. destruct (decide (p = q)) as [<-|Hne].
    - rewrite lookup_insert_eq. exists n'. split; [done|]. congruence.
    - rewrite lookup_insert_ne by done. exists x. split; [done|apply same_kind_refl].
  Qed.

  (** The two equations of [walk]. *)
Lemma walk_nil fs fl k cur :
    walk fs fl k cur [] =
    match fs !! cur with
    | Some n => WNode cur n
    | None => WErr ENOENT
    end.
  Proof. by destruct k. Qed.

Lemma walk_cons fs fl k cur c rest :
    walk fs fl k cur (c :: rest) =
    if String.eqb c ".." then walk fs fl k (List.removelast cur) rest
    else
      match fs !! (cur ++ [c]) with
      | None =>
          match rest with
          | [] => WAbsent (cur ++ [c])
          | _ :: _ => WErr ENOENT
          end
      | Some (Dir _) => walk fs fl k (cur ++ [c]) rest
      | Some (File m d) =>
          match rest with
          | [] => WNode (cur ++ [c]) (File m d)
          | _ :: _ => WErr ENOTDIR
          end
      | Some (Link t) =>
          match rest, fl with
          | [], false => WNode (cur ++ [c]) (Link t)
          | _, _ =>
              if String.eqb t "" then WErr ENOENT
              else
                match k with
                | O => WErr ELOOP
                | S k' =>
                    walk fs fl k' (if isabs t then [] else cur) (comps t ++ rest)
                end
          end
      end.
  Proof. by destruct k. Qed.

  (** Induction on a walk: on the links left to follow, then on the names
      left to walk. *)
Lemma walk_induction (Q : nat -> path -> list string -> Prop) :
    (forall k cur todo,
        (forall k' cur' todo', (k' < k)%nat -> Q k' cur' todo') ->
        (forall cur' todo', (length todo' < length todo)%nat -> Q k cur' todo') ->
        Q k cur todo) ->
    forall k cur todo, Q k cur todo.
  Proof.
    intros Hstep k. induction k as [k IHk] using lt_wf_ind.
    intros cur todo. revert cur.
    induction todo as [todo IHt] using (induction_ltof1 _ (@length string)).
    intros cur. apply Hstep.
    - intros k' cur' todo' Hlt. by apply IHk.
    - intros cur' todo' Hlt. by apply IHt.
  Qed.

  (** A node found is the node stored where it was found. *)
Lemma walk_node_lookup fs fl k cur todo p n :
    walk fs fl k cur todo = WNode p n -> fs !! p = Some n.
  Proof.
    revert p n. pattern k, cur, todo. apply walk_induction.
    clear k cur todo. intros k cur todo IHk IHt p n.
    destruct todo as [|c rest].
    - rewrite walk_nil. destruct (fs !! cur) eqn:E; [|done]. by intros [= <- <-].
    - rewrite walk_cons.
      destruct (String.eqb c ".."); [apply IHt; simpl; lia|].
      destruct (fs !! (cur ++ [c])) as [[m d|m|t]|] eqn:E.
      + destruct rest; [|done]. by intros [= <- <-].
      + apply IHt. simpl. lia.
      + destruct rest as [|c' rest'], fl;
          try (destruct (String.eqb t ""); [done|];
               destruct k as [|k']; [done|]; apply IHk; lia).
        by intros [= <- <-].
      + by destruct rest.
  Qed.

  (** A free location found is free. *)
Lemma walk_absent_lookup fs fl k cur todo p :
    walk fs fl k cur todo = WAbsent p -> fs !! p = None.
  Proof.
    revert p. pattern k, cur, todo. apply walk_induction.
    clear k cur todo. intros k cur todo IHk IHt p.
    destruct todo as [|c rest].
    - rewrite walk_nil. by destruct (fs !! cur).
    - rewrite walk_cons.
      destruct (String.eqb c ".."); [apply IHt; simpl; lia|].
      destruct (fs !! (cur ++ [c])) as [[m d|m|t]|] eqn:E.
      + by destruct rest.
      + apply IHt. simpl. lia.
      + destruct rest as [|c' rest'], fl;
          try (destruct (String.eqb t ""); [done|];
               destruct k as [|k']; [done|]; apply IHk; lia).
        done.
      + destruct rest; [|done]. by intros [= <-].
  Qed.

  (** What resolves keeps resolving, to the same place, when the file
      system grows. *)
Lemma walk_grows a b fl k cur todo p n :
    grows a b ->
    walk a fl k cur todo = WNode p n ->
    exists n', walk b fl k cur todo = WNode p n' /\ b !! p = Some n' /\ same_kind n n'.
  Proof.
    intros Hab. revert p n. pattern k, cur, todo. apply walk_induction.
    clear k cur todo. intros k cur todo IHk IHt p n.
    destruct todo as [|c rest].
    - rewrite !walk_nil. destruct (a !! cur) as [x|] eqn:E; [|done].
      intros [= <- <-]. destruct (Hab _ _ E) as (n' & Eb & Hk). rewrite Eb. by exists n'.
    - rewrite !walk_cons.
      destruct (String.eqb c ".."); [apply IHt; simpl; lia|].
      destruct (a !! (cur ++ [c])) as [x|] eqn:E; [|by destruct rest].
      destruct (Hab _ _ E) as (x' & Eb & Hk). rewrite Eb.
      destruct x as [m d|m|t], x' as [m' d'|m'|t']; simpl in Hk; try done.
      + destruct rest; [|done]. intros [= <- <-]. by exists (File m' d').
      + apply IHt. simpl. lia.
      + subst t'.
        destruct rest as [|c' rest'], fl;
          try (destruct (String.eqb t ""); [done|];
               destruct k as [|k']; [done|]; apply IHk; lia).
        intros [= <- <-]. by exists (Link t).
  Qed.

  (** The walk that ends on a free location ends on the node put there:
      a file or a directory, or a link when links are not followed. *)
Lemma walk_fill (a : FS) fl k cur todo p n :
    walk a fl k cur todo = WAbsent p ->
    match n with Link _ => fl = false | _ => True end ->
    walk (<[p := n]> a) fl k cur todo = WNode p n.
  Proof.
    intros Hw Hn. assert (a !! p = None) as Hfree by by eapply walk_absent_lookup.
    revert Hw. pattern k, cur, todo. apply walk_induction.
    clear k cur todo. intros k cur todo IHk IHt.
    destruct todo as [|c rest].
    - rewrite !walk_nil. by destruct (a !! cur).
    - rewrite !walk_cons.
      destruct (String.eqb c ".."); [apply IHt; simpl; lia|].
      destruct (a !! (cur ++ [c])) as [x|] eqn:E.
      + assert (p <> cur ++ [c]) as Hne by congruence.
        rewrite lookup_insert_ne, E by done.
        destruct x as [m d|m|t].
        * by destruct rest.
        * apply IHt. simpl. lia.
        * destruct rest as [|c' rest'], fl;
            try (destruct (String.eqb t ""); [done|];
                 destruct k as [|k']; [done|]; apply IHk; lia).
          done.
      + destruct rest; [|done]. intros [= <-].
        rewrite lookup_insert_eq. destruct n as [m d|m|t].
        * done.
        * by rewrite walk_nil, lookup_insert_eq.
        * by subst fl.
  Qed.

  (** Through a chain of real directories the walk goes straight down. *)
Lemma walk_chain fs fl k cur names todo :
    dir_chain fs cur names = true ->
    walk fs fl k cur (names ++ todo) = walk fs fl k (cur ++ names) todo.
  Proof.
    revert cur. induction names as [|c names IH]; intros cur Hc; simpl.
    - by rewrite app_nil_r.
    - simpl in Hc. apply andb_true_iff in Hc as [Hc Hrest].
      apply andb_true_iff in Hc as [Hdd Hdir].
      rewrite walk_cons. apply negb_true_iff in Hdd. rewrite Hdd.
      destruct (fs !! (cur ++ [c])) as [[| |]|]; try done.
      rewrite IH by done. by rewrite <- app_assoc.
  Qed.

Lemma dir_chain_app fs cur l1 l2 :
    dir_chain fs cur (l1 ++ l2) = dir_chain fs cur l1 && dir_chain fs (cur ++ l1) l2.
  Proof.
    revert cur. induction l1 as [|c l1 IH]; intros cur; simpl.
    - by rewrite app_nil_r.
    - rewrite IH, <- app_assoc. simpl. by rewrite !andb_assoc.
  Qed.

Lemma dir_chain_grows a b cur names :
    grows a b -> dir_chain a cur names = true -> dir_chain b cur names = true.
  Proof.
    intros Hab. revert cur. induction names as [|c names IH]; intros cur; [done|].
    simpl. intros Hc. apply andb_true_iff in Hc as [Hc Hrest].
    apply andb_true_iff in Hc as [Hdd Hdir].
    rewrite Hdd, (IH _ Hrest). simpl.
    destruct (a !! (cur ++ [c])) as [[| |]|] eqn:E; try done.
    destruct (Hab _ _ E) as (n' & -> & Hk). by destruct n'.
  Qed.

End WalkFacts.

(* ===================================================================== *)
(** * Creating directories                                                *)
(* ===================================================================== *)

Section MkwalkFacts.

Variable dmode : Z.

Lemma mkwalk_nil eo k fs il cr cur :
    mkwalk dmode eo k fs il cr cur [] =
    match fs !! cur with
    | Some (Dir _) => if cr || eo then Ok fs else Raise FileExistsError
    | Some _ => Raise FileExistsError
    | None => Raise FileNotFoundError
    end.
  Proof. by destruct k. Qed.

Lemma mkwalk_cons eo k fs il cr cur c rest :
    mkwalk dmode eo k fs il cr cur (c :: rest) =
    if String.eqb c ".."
    then mkwalk dmode eo k fs (Nat.pred il) false (List.removelast cur) rest
    else
      match fs !! (cur ++ [c]) with
      | None =>
          match il with
          | O => mkwalk dmode eo k (<[cur ++ [c] := Dir dmode]> fs) O true (cur ++ [c]) rest
          | S _ =>
              if (length rest <? il)%nat then Raise FileExistsError
              else Raise FileNotFoundError
          end
      | Some (Dir _) => mkwalk dmode eo k fs (Nat.pred il) false (cur ++ [c]) rest
      | Some (File _ _) =>
          match rest with
          | [] => Raise FileExistsError
          | _ :: _ => Raise NotADirectoryError
          end
      | Some (Link t) =>
          if String.eqb t "" then
            match rest with
            | [] => Raise FileExistsError
            | _ :: _ => Raise FileNotFoundError
            end
          else
            match k with
            | O =>
                match rest with
                | [] => Raise FileExistsError
                | _ :: _ => Raise (OSError ELOOP)
                end
            | S k' =>
                mkwalk dmode eo k' fs (length (comps t) + Nat.pred il)%nat false
                  (if isabs t then [] else cur) (comps t ++ rest)
            end
      end.
  Proof. by destruct k. Qed.

  (** [os.makedirs] adds directories of the default mode where nothing
      was, and touches nothing else. *)
Lemma mkwalk_keeps eo k a il cr cur todo b :
    mkwalk dmode eo k a il cr cur todo = Ok b ->
    keeps a b /\ forall p n, b !! p = Some n -> a !! p = Some n \/ n = Dir dmode.
  Proof.
    revert a il cr b. pattern k, cur, todo. apply walk_induction.
    clear k cur todo. intros k cur todo IHk IHt a il cr b.
    destruct todo as [|c rest].
    - rewrite mkwalk_nil. destruct (a !! cur) as [[| |]|]; try done.
      destruct (cr || eo); [|done]. intros [= <-].
      split; [apply keeps_refl|]. intros p n Hp. by left.
    - rewrite mkwalk_cons.
      destruct (String.eqb c ".."); [apply IHt; simpl; lia|].
      destruct (a !! (cur ++ [c])) as [[m d|m|t]|] eqn:E.
      + by destruct rest.
      + apply IHt. simpl. lia.
      + destruct (String.eqb t ""); [by destruct rest|].
        destruct k as [|k']; [by destruct rest|]. apply IHk. lia.
      + destruct il as [|il']; [|by destruct (_ <? _)%nat].
        intros Hb. apply IHt in Hb as [Hk Hnew]; [|simpl; lia]. split.
        * eapply keeps_trans; [|exact Hk]. by apply keeps_insert_fresh.
        * intros p n Hp. destruct (Hnew p n Hp) as [Hin|Hd]; [|by right].
          destruct (decide (cur ++ [c] = p)) as [<-|Hne].
          -- rewrite lookup_insert_eq in Hin. right. congruence.
          -- rewrite lookup_insert_ne in Hin by done. by left.
  Qed.

  (** After [os.makedirs] the path leads to a directory. *)
Lemma mkwalk_isdir eo k a il cr cur todo b :
    mkwalk dmode eo k a il cr cur todo = Ok b ->
    exists q m, walk b true k cur todo = WNode q (Dir m).
  Proof.
    revert a il cr b. pattern k, cur, todo. apply walk_induction.
    clear k cur todo. intros k cur todo IHk IHt a il cr b.
    destruct todo as [|c rest].
    - rewrite mkwalk_nil, walk_nil. destruct (a !! cur) as [[|m|]|] eqn:E; try done.
      destruct (cr || eo); [|done]. intros [= <-]. rewrite E. by exists cur, m.
    - rewrite mkwalk_cons, walk_cons.
      destruct (String.eqb c ".."); [apply IHt; simpl; lia|].
      destruct (a !! (cur ++ [c])) as [[m d|m|t]|] eqn:E.
      + by destruct rest.
      + intros Hb. destruct (mkwalk_keeps _ _ _ _ _ _ _ _ Hb) as [Hk _].
        rewrite (Hk _ _ E). eapply IHt; [simpl; lia|exact Hb].
      + destruct (String.eqb t "") eqn:Et; [by destruct rest|].
        destruct k as [|k']; [by destruct rest|].
        intros Hb. destruct (mkwalk_keeps _ _ _ _ _ _ _ _ Hb) as [Hk _].
        rewrite (Hk _ _ E), Et.
        assert (exists q m, walk b true k' (if isabs t then [] else cur)
                              (comps t ++ rest) = WNode q (Dir m)) as Hgoal
          by (eapply IHk; [lia|exact Hb]).
        by destruct rest.
      + destruct il as [|il']; [|by destruct (_ <? _)%nat].
        intros Hb. destruct (mkwalk_keeps _ _ _ _ _ _ _ _ Hb) as [Hk _].
        rewrite (Hk (cur ++ [c]) (Dir dmode)) by apply lookup_insert_eq.
        eapply IHt; [simpl; lia|exact Hb].
  Qed.

  (** On a path that leads to a directory, [os.makedirs(exist_ok=True)]
      does nothing and succeeds. *)
Lemma mkwalk_existing k a il cr cur todo q m :
    walk a true k cur todo = WNode q (Dir m) ->
    mkwalk dmode true k a il cr cur todo = Ok a.
  Proof.
    revert il cr. pattern k, cur, todo. apply walk_induction.
    clear k cur todo. intros k cur todo IHk IHt il cr.
    destruct todo as [|c rest].
    - rewrite mkwalk_nil, walk_nil. destruct (a !! cur) as [[| |]|]; try done.
      by rewrite orb_true_r.
    - rewrite mkwalk_cons, walk_cons.
      destruct (String.eqb c ".."); [apply IHt; simpl; lia|].
      destruct (a !! (cur ++ [c])) as [[m' d|m'|t]|] eqn:E.
      + by destruct rest.
      + apply IHt. simpl. lia.
      + destruct (String.eqb t ""); [by destruct rest|].
        destruct k as [|k']; [by destruct rest|].
        intros Hw. apply IHk; [lia|]. by destruct rest.
      + by destruct rest.
  Qed.

End MkwalkFacts.

(* ===================================================================== *)
(** * The [os] and [shutil] calls                                         *)
(* ===================================================================== *)

Section OsFacts.

Variable cwd : path.
Variable umask : Z.

Lemma resolve_grows a b fl s p n :
    grows a b ->
    resolve cwd a fl s = WNode p n ->
    exists n', resolve cwd b fl s = WNode p n' /\ b !! p = Some n' /\ same_kind n n'.
  Proof.
    intros Hab. unfold resolve. destruct (String.eqb s ""); [done|].
    by apply walk_grows.
  Qed.

Lemma resolve_node_lookup a fl s p n :
    resolve cwd a fl s = WNode p n -> a !! p = Some n.
  Proof.
    unfold resolve. destruct (String.eqb s ""); [done|]. apply walk_node_lookup.
  Qed.

Lemma resolve_absent_lookup a fl s p :
    resolve cwd a fl s = WAbsent p -> a !! p = None.
  Proof.
    unfold resolve. destruct (String.eqb s ""); [done|]. apply walk_absent_lookup.
  Qed.

Lemma resolve_fill a fl s p n :
    resolve cwd a fl s = WAbsent p ->
    match n with Link _ => fl = false | _ => True end ->
    resolve cwd (<[p := n]> a) fl s = WNode p n.
  Proof.
    unfold resolve. destruct (String.eqb s ""); [done|]. apply walk_fill.
  Qed.

  (** A path that leads to a file of [a] leads to the file stored at the
      same place in any [b] that [a] grows into. *)
Lemma resolve_file_grows a b s p m d :
    grows a b ->
    resolve cwd a true s = WNode p (File m d) ->
    exists m' d', resolve cwd b true s = WNode p (File m' d')
                  /\ b !! p = Some (File m' d').
  Proof.
    intros Hab Hr. destruct (resolve_grows _ _ _ _ _ _ Hab Hr) as (n' & Hr' & Hp & Hk).
    destruct n' as [m' d'| |]; try done. by exists m', d'.
  Qed.

Lemma resolve_dir_grows a b s p m :
    grows a b ->
    resolve cwd a true s = WNode p (Dir m) ->
    exists m', resolve cwd b true s = WNode p (Dir m') /\ b !! p = Some (Dir m').
  Proof.
    intros Hab Hr. destruct (resolve_grows _ _ _ _ _ _ Hab Hr) as (n' & Hr' & Hp & Hk).
    destruct n' as [|m'|]; try done. by exists m'.
  Qed.

Lemma exists_grows a b s :
    grows a b -> os_path_exists cwd a s = true -> os_path_exists cwd b s = true.
  Proof.
    intros Hab. unfold os_path_exists.
    destruct (resolve cwd a true s) as [p n| |] eqn:E; try done.
    destruct (resolve_grows _ _ _ _ _ _ Hab E) as (n' & -> & _). done.
  Qed.

Lemma isdir_grows a b s :
    grows a b -> os_path_isdir cwd a s = true -> os_path_isdir cwd b s = true.
  Proof.
    intros Hab. unfold os_path_isdir.
    destruct (resolve cwd a true s) as [p [| m |]| |] eqn:E; try done.
    destruct (resolve_dir_grows _ _ _ _ _ Hab E) as (m' & -> & _). done.
  Qed.

  (** [open(s).read()] *)
Lemma read_file_ok a s d :
    read_file cwd a s = Ok d <-> exists p m, resolve cwd a true s = WNode p (File m d).
  Proof.
    unfold read_file. split.
    - destruct (resolve cwd a true s) as [p [m d'| |]| |]; try done.
      intros [= ->]. by exists p, m.
    - by intros (p & m & ->).
  Qed.

  (** [open(s, 'w').write(d)]: one location changes, it holds a file
      with the data written, and the path leads there. *)
Lemma write_file_ok a s d b :
    write_file cwd umask a s d = Ok b ->
    exists p m,
      b = <[p := File m d]> a
      /\ resolve cwd b true s = WNode p (File m d)
      /\ (a !! p = None \/ exists d0, a !! p = Some (File m d0))
      /\ (resolve cwd a true s = WAbsent p
          \/ exists d0, resolve cwd a true s = WNode p (File m d0)).
  Proof.
    unfold write_file.
    destruct (resolve cwd a true s) as [p [m d0| |]|p|e] eqn:E; try done.
    - intros [= <-]. exists p, m. split; [done|].
      pose proof (resolve_node_lookup _ _ _ _ _ E) as Hp.
      assert (grows a (<[p := File m d]> a)) as Hg
        by (eapply grows_insert_same_kind; [exact Hp|done]).
      destruct (resolve_grows _ _ _ _ _ _ Hg E) as (n' & Hr & Hl & _).
      rewrite lookup_insert_eq in Hl. injection Hl as <-. split; [done|].
      split; right; by exists d0.
    - intros [= <-]. exists p, (Z.ldiff 438 umask). split; [done|].
      split; [by apply resolve_fill|].
      split; left; [by eapply resolve_absent_lookup|done].
  Qed.

Lemma write_file_grows a s d b :
    write_file cwd umask a s d = Ok b -> grows a b.
  Proof.
    intros Hw. destruct (write_file_ok _ _ _ _ Hw) as (p & m & -> & _ & [Hn|[d0 Hp]] & _).
    - by apply keeps_grows, keeps_insert_fresh.
    - by eapply grows_insert_same_kind.
  Qed.

  (** Writing again what a file holds changes nothing. *)
Lemma write_file_same a s p m d :
    resolve cwd a true s = WNode p (File m d) ->
    write_file cwd umask a s d = Ok a.
  Proof.
    intros E. unfold write_file. rewrite E. f_equal. apply insert_id.
    by eapply resolve_node_lookup.
  Qed.

  (** [os.symlink] *)
Lemma os_symlink_ok a src dst b :
    os_symlink cwd a src dst = Ok b ->
    exists p, resolve cwd a false dst = WAbsent p
              /\ a !! p = None /\ b = <[p := Link src]> a.
  Proof.
    unfold os_symlink.
    destruct (resolve cwd a false dst) as [|p|] eqn:E; try done.
    intros [= <-]. exists p. split; [done|]. split; [|done].
    by eapply resolve_absent_lookup.
  Qed.

  (** [os.chmod] *)
Lemma os_chmod_ok a s m b :
    os_chmod cwd a s m = Ok b ->
    exists p n, resolve cwd a true s = WNode p n
                /\ a !! p = Some n /\ b = <[p := set_mode n m]> a.
  Proof.
    unfold os_chmod.
    destruct (resolve cwd a true s) as [p n|p|] eqn:E; try done.
    intros [= <-]. exists p, n. split; [done|]. split; [|done].
    by eapply resolve_node_lookup.
  Qed.

Lemma set_mode_same_kind n m : same_kind n (set_mode n m).
  Proof. by destruct n. Qed.

  (** [os.makedirs] *)
Lemma os_makedirs_ok a s eo b :
    os_makedirs cwd umask a s eo = Ok b ->
    keeps a b
    /\ (forall p n, b !! p = Some n -> a !! p = Some n \/ n = Dir (Z.ldiff 511 umask))
    /\ exists q m, resolve cwd b true s = WNode q (Dir m).
  Proof.
    unfold os_makedirs, resolve. destruct (String.eqb s ""); [done|].
    intros Hb. destruct (mkwalk_keeps _ _ _ _ _ _ _ _ _ Hb) as [Hk Hnew].
    split; [done|]. split; [done|]. by eapply mkwalk_isdir.
  Qed.

Lemma os_makedirs_existing a s q m :
    resolve cwd a true s = WNode q (Dir m) ->
    os_makedirs cwd umask a s true = Ok a.
  Proof.
    unfold os_makedirs, resolve. destruct (String.eqb s ""); [done|].
    apply mkwalk_existing.
  Qed.

End OsFacts.



(* ===================================================================== *)
(** * Strings                                                             *)
(* ===================================================================== *)

Section StringFacts.

Lemma endswith_snoc_sep (p : string) : endswith (p +:+ "/") "/" = true.
  Proof.
    induction p as [|c p IH]; [reflexivity|].
    change (endswith (String c p +:+ "/") "/")
      with (if String.eqb (String c (p +:+ "/")) "/" then true
            else endswith (p +:+ "/") "/").
    rewrite IH. by destruct (String.eqb _ _).
  Qed.

Lemma drop_last_snoc_sep (p : string) : drop_last (p +:+ "/") = p.
  Proof.
    induction p as [|c p IH]; [reflexivity|].
    simpl. destruct p as [|c' p']; [reflexivity|].
    simpl in *. by rewrite IH.
  Qed.

End StringFacts.

(* ===================================================================== *)
(** * The render context                                                  *)
(* ===================================================================== *)

Section RenderContext.

Variable P : Platform.

Lemma normalize_prefix_plain (kw : kwargs) (p : string) :
    endswith p "/" = false ->
    normalize_prefix (<["prefix" := VStr p]> kw) = Ok (<["prefix" := VStr p]> kw).
  Proof.
    intros Hp. unfold normalize_prefix. by rewrite lookup_insert_eq, Hp.
  Qed.

Lemma normalize_prefix_sep (kw : kwargs) (p : string) :
    normalize_prefix (<["prefix" := VStr (p +:+ "/")]> kw)
    = Ok (<["prefix" := VStr p]> kw).
  Proof.
    unfold normalize_prefix.
    by rewrite lookup_insert_eq, endswith_snoc_sep, drop_last_snoc_sep, insert_insert_eq.
  Qed.

  (** C1.  A prefix with exactly one trailing separator renders as the
      prefix without it: the two calls of [generate_file_from_template]
      leave the same file system and the same result, whatever the
      templates, the destination, the rest of the context and the file
      system they start from. *)
Theorem render_prefix_trailing_separator
      (templates : list string) (destination : Path) (kw : kwargs)
      (p : string) (fs0 : FS) :
    endswith p "/" = false ->
    generate_file_from_template P templates destination
      (<["prefix" := VStr (p +:+ "/")]> kw) fs0
    = generate_file_from_template P templates destination
      (<["prefix" := VStr p]> kw) fs0.
  Proof.
    intros Hp. unfold generate_file_from_template, bind, attempt.
    by rewrite normalize_prefix_sep, (normalize_prefix_plain _ _ Hp).
  Qed.

  (** C10.  Without a ['prefix'] key the call raises ([None] has no
      [endswith]) before anything else happens: the file system it returns
      is the one it was given. *)
Theorem render_without_prefix_fails
      (templates : list string) (destination : Path) (kw : kwargs) (fs0 : FS) :
    kw !! "prefix" = None ->
    generate_file_from_template P templates destination kw fs0
    = (fs0, Raise AttributeError).
  Proof.
    intros Hkw. unfold generate_file_from_template, bind, attempt, normalize_prefix.
    by rewrite Hkw.
  Qed.

End RenderContext.

Lemma render_prefix_trailing_separator_witness :
  endswith "/opt/app" "/" = false /\
  generate_file_from_template Sample.system TEMPLATE_FILES (here Sample.system)
    (<["prefix" := VStr "/opt/app/"]> (install_kwargs Sample.system)) Sample.tree
  = generate_file_from_template Sample.system TEMPLATE_FILES (here Sample.system)
    (<["prefix" := VStr "/opt/app"]> (install_kwargs Sample.system)) Sample.tree.
Proof.
  split; [reflexivity|].
  apply (render_prefix_trailing_separator Sample.system TEMPLATE_FILES
           (here Sample.system) (install_kwargs Sample.system) "/opt/app" Sample.tree).
  reflexivity.
Defined.

Lemma render_without_prefix_fails_witness :
  (<["syslog_args" := VList []]> ∅ : kwargs) !! "prefix" = None /\
  generate_file_from_template Sample.system TEMPLATE_FILES (here Sample.system)
    (<["syslog_args" := VList []]> ∅) Sample.tree
  = (Sample.tree, Raise AttributeError).
Proof.
  split; [reflexivity|].
  apply (render_without_prefix_fails Sample.system TEMPLATE_FILES
           (here Sample.system) (<["syslog_args" := VList []]> ∅) Sample.tree).
  reflexivity.
Defined.

(* ===================================================================== *)
(** * The prefix of a system install                                      *)
(* ===================================================================== *)

Section SystemPrefix.

  (** A run whose result is known, with the state it reached. *)
Lemma returned {S A} (c : M S A) (s : S) (x : A) :
    (c s).2 = Ok x -> c s = ((c s).1, Ok x).
  Proof. destruct (c s) as [s' r]. simpl. by intros ->. Qed.

Lemma bind_ext {S A B} (c c' : M S A) (k k' : A -> M S B) (s : S) :
    c s = c' s ->
    (forall a s', c' s = (s', Ok a) -> k a s' = k' a s') ->
    bind c k s = bind c' k' s.
  Proof.
    intros Hc Hk. unfold bind. rewrite Hc.
    destruct (c' s) as [s' [a|e]]; [by apply Hk|reflexivity].
  Qed.

Lemma for_each_ext {S A} (l : list A) (f g : A -> M S unit) :
    (forall x s, f x s = g x s) -> forall s, for_each l f s = for_each l g s.
  Proof.
    intros Hfg. induction l as [|x l IH]; intros s; [reflexivity|].
    simpl. apply bind_ext; [apply Hfg|]. intros _ s' _. apply IH.
  Qed.

  (** The templates are rendered with the normalized context and with no
      other: an engine that agrees with the platform's on that context
      gives the same run. *)
Lemma generate_file_from_template_render
      (P : Platform) (r' : string -> kwargs -> Res string)
      (templates : list string) (destination : Path) (kw kw' : kwargs) :
    normalize_prefix kw = Ok kw' ->
    (forall text, r' text kw' = render P text kw') ->
    forall fs0,
      generate_file_from_template (with_render P r') templates destination kw fs0
      = generate_file_from_template P templates destination kw fs0.
  Proof.
    intros Hkw Hr fs0. unfold generate_file_from_template.
    apply bind_ext; [reflexivity|]. intros kw0 s0 Hkw0.
    unfold attempt in Hkw0. rewrite Hkw in Hkw0. injection Hkw0 as <- <-.
    apply bind_ext; [reflexivity|]. intros _ s1 _.
    apply for_each_ext. intros path s2. unfold render_one.
    apply bind_ext; [reflexivity|]. intros text s3 _.
    apply bind_ext; [|reflexivity].
    unfold attempt. simpl. by rewrite Hr.
  Qed.

  (** C9.  With no virtual environment the install target is ["/"], the
      normalization turns the prefix ["/"] into the empty string, and the
      empty string is what the templates of a system install are rendered
      with: the run depends on the template engine only through what it
      does with the context whose prefix is [""]. *)
Theorem system_install_prefix_empty (P : Platform) :
    environ P !! "VIRTUAL_ENV" = None ->
    BASE_ENV P = "/"
    /\ normalize_prefix (install_kwargs P)
       = Ok (<["prefix" := VStr ""]> (install_kwargs P))
    /\ forall r' : string -> kwargs -> Res string,
         (forall text,
            r' text (<["prefix" := VStr ""]> (install_kwargs P))
            = render P text (<["prefix" := VStr ""]> (install_kwargs P))) ->
         forall fs0,
           InstallMode_run (with_render P r') fs0 = InstallMode_run P fs0.
  Proof.
    intros Henv.
    assert (BASE_ENV P = "/") as Hbase by (unfold BASE_ENV; by rewrite Henv).
    assert (normalize_prefix (install_kwargs P)
            = Ok (<["prefix" := VStr ""]> (install_kwargs P))) as Hnorm.
    { unfold normalize_prefix, install_kwargs. rewrite lookup_insert_eq, Hbase.
      reflexivity. }
    split; [exact Hbase|]. split; [exact Hnorm|].
    intros r' Hr fs0. unfold InstallMode_run.
    apply bind_ext; [reflexivity|]. intros _ fs1 _.
    apply bind_ext; [|reflexivity].
    change (here (with_render P r')) with (here P).
    change (install_kwargs (with_render P r')) with (install_kwargs P).
    apply (generate_file_from_template_render P r' _ _ _ _ Hnorm Hr).
  Qed.

End SystemPrefix.

Lemma system_install_prefix_empty_witness :
  environ Sample.system !! "VIRTUAL_ENV" = None
  /\ BASE_ENV Sample.system = "/"
  /\ normalize_prefix (install_kwargs Sample.system)
     = Ok (<["prefix" := VStr ""]> (install_kwargs Sample.system)).
Proof.
  split; [reflexivity|].
  destruct (system_install_prefix_empty Sample.system eq_refl) as (Hb & Hn & _).
  exact (conj Hb Hn).
Defined.

(* ===================================================================== *)
(** * The test commands and the asset build                               *)
(* ===================================================================== *)

Section Commands.

Variable P : Platform.

Lemma news_app (w : World) (f : FS) (l : list event) :
    news w {| fs := f; out := out w ++ l |} = l.
  Proof. unfold news. simpl. apply drop_app_length. Qed.

  (** What each test command does, by the exit status of its subprocess. *)
Lemma TestCoverage_run_spec (w : World) :
    TestCoverage_run P w =
    let r := subprocess P (Shell TestCoverage_cmd) (fs w) in
    ({| fs := r.2; out := out w ++ [EvExec (Shell TestCoverage_cmd)] |},
     if r.1 =? 0 then Ok tt else Raise (CalledProcessError r.1)).
  Proof. unfold TestCoverage_run, check_call. by destruct (subprocess _ _ _). Qed.

Lemma DocTest_run_spec (w : World) :
    DocTest_run P w =
    let r := subprocess P (Shell DocTest_cmd) (fs w) in
    ({| fs := r.2; out := out w ++ [EvExec (Shell DocTest_cmd)] |},
     if r.1 =? 0 then Ok tt else Raise (CalledProcessError r.1)).
  Proof. unfold DocTest_run, check_call. by destruct (subprocess _ _ _). Qed.

Lemma Linter_run_spec (w : World) :
    Linter_run P w =
    let r := subprocess P (Shell Linter_cmd) (fs w) in
    let seen := out w ++ [EvPrint "Yala is running. It may take several seconds..."]
                      ++ [EvExec (Shell Linter_cmd)] in
    if r.1 =? 0
    then ({| fs := r.2; out := seen ++ [EvPrint "No linter error found."] |}, Ok tt)
    else ({| fs := r.2;
             out := seen ++ [EvPrint "Linter check failed. Fix the error(s) above and try again."] |},
          Raise (SystemExit (-1))).
  Proof.
    unfold Linter_run, bind, try_except, print, emit, check_call, raise. simpl.
    destruct (subprocess _ _ _) as [code f]. simpl.
    destruct (code =? 0); simpl; by rewrite <- !app_assoc.
  Qed.

  (** C7.  When the linter exits with a non-zero status, [Linter.run] does
      not let [CalledProcessError] through: it raises [SystemExit(-1)], and
      the process ends with status 255, which is neither success nor the
      status 1 of an uncaught exception.  When the linter exits with 0,
      [Linter.run] returns normally. *)
Theorem Linter_run_exit (w : World) :
    let code := (subprocess P (Shell Linter_cmd) (fs w)).1 in
    let r := (Linter_run P w).2 in
    if code =? 0 then r = Ok tt
    else r = Raise (SystemExit (-1)) /\ is_CalledProcessError (SystemExit (-1)) = false
         /\ exit_status r = 255.
  Proof.
    intros code r. subst code r. rewrite Linter_run_spec. simpl.
    by destruct (_ =? 0).
  Qed.

  (** C2.  [CITest.run] runs TestCoverage, DocTest and Linter in that
      order.  A sub-command that raises ends the run: the state and the
      exception of [CITest.run] are those of that sub-command, so nothing
      later has run and the exception is not handled.  The subprocesses
      started are, in order, a prefix of the three command lines: all three
      when the run returns, and up to the failing one when it raises. *)
Theorem CITest_run_sequence (w : World) :
    let r1 := TestCoverage_run P w in
    let r2 := DocTest_run P r1.1 in
    let r3 := Linter_run P r2.1 in
    let all := [Shell TestCoverage_cmd; Shell DocTest_cmd; Shell Linter_cmd] in
    match r1.2, r2.2, r3.2 with
    | Raise e, _, _ =>
        CITest_run P w = (r1.1, Raise e) /\ execs (news w r1.1) = take 1 all
    | Ok _, Raise e, _ =>
        CITest_run P w = (r2.1, Raise e) /\ execs (news w r2.1) = take 2 all
    | Ok _, Ok _, Raise e =>
        CITest_run P w = (r3.1, Raise e) /\ execs (news w r3.1) = all
    | Ok _, Ok _, Ok _ =>
        CITest_run P w = (r3.1, Ok tt) /\ execs (news w r3.1) = all
    end.
  Proof.
    cbv zeta.
    assert (forall w0, CITest_run P w0 =
            match TestCoverage_run P w0 with
            | (w1, Raise e) => (w1, Raise e)
            | (w1, Ok _) =>
                match DocTest_run P w1 with
                | (w2, Raise e) => (w2, Raise e)
                | (w2, Ok _) =>
                    match Linter_run P w2 with
                    | (w3, Ok _) => (w3, Ok tt)
                    | (w3, Raise e) => (w3, Raise e)
                    end
                end
            end) as Hrun.
    { intros w0. unfold CITest_run, for_each, bind, ret.
      destruct (TestCoverage_run P w0) as [w1 [[]|e1]]; [|done].
      destruct (DocTest_run P w1) as [w2 [[]|e2]]; [|done].
      by destruct (Linter_run P w2) as [w3 [[]|e3]]. }
    rewrite Hrun. clear Hrun.
    rewrite TestCoverage_run_spec. simpl.
    destruct (subprocess P (Shell TestCoverage_cmd) (fs w)) as [c1 f1]. simpl.
    destruct (c1 =? 0); simpl; [|by rewrite news_app].
    rewrite DocTest_run_spec. simpl.
    destruct (subprocess P (Shell DocTest_cmd) f1) as [c2 f2]. simpl.
    destruct (c2 =? 0); simpl; [|by rewrite <- app_assoc, news_app].
    rewrite Linter_run_spec. simpl.
    destruct (subprocess P (Shell Linter_cmd) f2) as [c3 f3]. simpl.
    destruct (c3 =? 0); simpl; by rewrite <- !app_assoc, news_app.
  Qed.

  (** Writing files leaves the trace alone. *)
Lemma for_each_on_fs_out {A} (l : list A) (body : A -> M FS unit) (w : World) :
    out (for_each l (fun x => on_fs (body x)) w).1 = out w.
  Proof.
    revert w. induction l as [|x l IH]; intros w; [reflexivity|].
    simpl. unfold bind, on_fs at 1.
    destruct (body x (fs w)) as [f [[]|e]]; simpl; [|reflexivity].
    by rewrite IH.
  Qed.

Lemma SASSBuild_build_compiles (w : World) :
    compiles (news w (SASSBuild_build P w).1) = if sass_ready P (fs w) then 1%nat else 0%nat.
  Proof.
    assert (forall (w0 : World) (pre : list event) (css map : string) (a b : Path),
              compiles pre = 0%nat ->
              compiles (news w
                ((on_fs (open_write P (Path_str a) css) >>
                  on_fs (open_write P (Path_str b) map) >> ret tt)
                   {| fs := fs w0;
                      out := out w ++ pre ++ [EvSassCompile
                        (Path_str (Path_div (Path_div (here P) "web-ui-src/sass") "main.scss"))
                        (Path_str (Path_div (_cssdir P) "style.css.map"))] |}).1) = 1%nat)
      as Hwrite.
    { intros w0 pre css map a b Hpre. unfold bind, on_fs, ret. simpl.
      destruct (open_write P (Path_str a) css (fs w0)) as [f1 [[]|e1]]; simpl.
      - destruct (open_write P (Path_str b) map f1) as [f2 [[]|e2]]; simpl;
          rewrite news_app; unfold compiles in *;
          rewrite List.filter_app, length_app, Hpre; reflexivity.
      - rewrite news_app. unfold compiles in *.
        rewrite List.filter_app, length_app, Hpre. reflexivity. }
    unfold SASSBuild_build, sass_ready.
    unfold bind at 1. unfold try_except, import_sass at 1.
    destruct (importable_sass P (fs w)) eqn:Himp; simpl.
    - unfold bind at 1. unfold bind at 1, emit at 1. simpl.
      match goal with
      | |- context [sass_compile P ?a ?b ?f] =>
          destruct (sass_compile P a b f) as [[css map]|e]
      end; simpl.
      + apply (Hwrite w [] css map). reflexivity.
      + by rewrite news_app.
    - unfold bind at 1, check_call at 1, import_sass.
      destruct (subprocess P _ (fs w)) as [code f1]. simpl.
      destruct (code =? 0); simpl; [|by rewrite news_app].
      destruct (importable_sass P f1); simpl; [|by rewrite news_app].
      unfold bind at 1. unfold bind at 1, emit at 1. simpl.
      match goal with
      | |- context [sass_compile P ?a ?b ?f] =>
          destruct (sass_compile P a b f) as [[css map]|e]
      end; simpl.
      + rewrite <- app_assoc.
        apply (Hwrite {| fs := f1; out := [] |} [EvExec _] css map). reflexivity.
      + by rewrite <- app_assoc, news_app.
  Qed.

  (** C4, as the code has it.  When [style.css] exists, [_check_sass] only
      prints its message and the compiler is not run.  When it does not
      exist, the compiler is run once if [import sass] succeeds (at once or
      after the bootstrap install) and not at all if it does not: the
      failure of the bootstrap ends the build before the compiler. *)
Theorem check_sass_compiler_runs (w : World) :
    let w' := (_check_sass P w).1 in
    if os_path_exists (cwd P) (fs w) (Path_str (style_css P))
    then _check_sass P w =
           ({| fs := fs w;
               out := out w ++ [EvPrint "CSS already built. Not overriding it."] |},
            Ok tt)
         /\ compiles (news w w') = 0%nat
    else compiles (news w w') = if sass_ready P (fs w) then 1%nat else 0%nat.
  Proof.
    cbv zeta. unfold _check_sass, bind, on_fs, exists_, query. simpl.
    destruct (os_path_exists _ _ _); simpl.
    - by rewrite news_app.
    - destruct w as [f o]. apply SASSBuild_build_compiles.
  Qed.

End Commands.

(** C4, as the claim has it, fails: on a machine where libsass is missing
    and cannot be installed, [style.css] is absent and the compiler is
    never run. *)
Lemma check_sass_absent_not_compiled :
  ~ (forall (P : Platform) (w : World),
       os_path_exists (cwd P) (fs w) (Path_str (style_css P)) = false ->
       compiles (news w (_check_sass P w).1) = 1%nat).
Proof.
  intros H.
  specialize (H Sample.offline {| fs := Sample.tree; out := [] |} eq_refl).
  vm_compute in H. discriminate H.
Qed.

(* ===================================================================== *)
(** * The runtime directory                                               *)
(* ===================================================================== *)

Section PidFolder.

Variable P : Platform.

Lemma create_pid_folder_eq a :
    create_pid_folder P a =
    match os_makedirs (cwd P) (umask P) a (pid_folder P) true with
    | Ok a1 =>
        if String.eqb (BASE_ENV P) "/" then
          match os_chmod (cwd P) a1 (pid_folder P) 1023 with
          | Ok b => (b, Ok tt)
          | Raise e => (a1, Raise e)
          end
        else (a1, Ok tt)
    | Raise e => (a, Raise e)
    end.
  Proof.
    unfold create_pid_folder, bind, makedirs, chmod, update, ret.
    destruct (os_makedirs _ _ _ _ _); [|done].
    by destruct (String.eqb _ _).
  Qed.

  (** What a successful call leaves, whatever the install target. *)
Lemma create_pid_folder_ok a b :
    create_pid_folder P a = (b, Ok tt) ->
    exists a1 q m,
      os_makedirs (cwd P) (umask P) a (pid_folder P) true = Ok a1
      /\ resolve (cwd P) a1 true (pid_folder P) = WNode q (Dir m)
      /\ b = (if String.eqb (BASE_ENV P) "/" then <[q := Dir 1023]> a1 else a1).
  Proof.
    rewrite create_pid_folder_eq.
    destruct (os_makedirs _ _ _ _ _) as [a1|] eqn:Hmk; [|done].
    destruct (os_makedirs_ok _ _ _ _ _ _ Hmk) as (_ & _ & q & m & Hq).
    intros Hb. exists a1, q, m. split; [done|]. split; [done|].
    destruct (String.eqb _ _); [|congruence].
    unfold os_chmod in Hb. rewrite Hq in Hb. simpl in Hb. congruence.
  Qed.

Lemma create_pid_folder_grows a b :
    create_pid_folder P a = (b, Ok tt) -> grows a b.
  Proof.
    intros Hb. destruct (create_pid_folder_ok _ _ Hb) as (a1 & q & m & Hmk & Hq & ->).
    destruct (os_makedirs_ok _ _ _ _ _ _ Hmk) as (Hk & _).
    apply (grows_trans _ a1); [by apply keeps_grows|].
    destruct (String.eqb _ _); [|apply grows_refl].
    eapply grows_insert_same_kind; [by eapply resolve_node_lookup|done].
  Qed.

  (** An existing directory is success. *)
Lemma create_pid_folder_existing a :
    os_path_isdir (cwd P) a (pid_folder P) = true ->
    exists b, create_pid_folder P a = (b, Ok tt).
  Proof.
    unfold os_path_isdir.
    destruct (resolve (cwd P) a true (pid_folder P)) as [q [|m|]| |] eqn:Hq; try done.
    intros _. rewrite create_pid_folder_eq, (os_makedirs_existing _ _ _ _ _ _ Hq).
    destruct (String.eqb _ _); [|by eexists].
    unfold os_chmod. rewrite Hq. by eexists.
  Qed.

  (** A second call finds the directory and changes nothing. *)
Lemma create_pid_folder_again a b :
  create_pid_folder P a = (b, Ok tt) -> create_pid_folder P b = (b, Ok tt).
Proof.
  intros Hb. destruct (create_pid_folder_ok _ _ Hb) as (a1 & q & m & Hmk & Hq & ->).
  rewrite create_pid_folder_eq.
  destruct (String.eqb (BASE_ENV P) "/").
  - assert (grows a1 (<[q := Dir 1023]> a1)) as Hg.
    { eapply grows_insert_same_kind; [by eapply resolve_node_lookup|done]. }
    destruct (resolve_dir_grows _ _ _ _ _ _ Hg Hq) as (m' & Hq' & Hl).
    rewrite lookup_insert_eq in Hl. injection Hl as <-.
    rewrite (os_makedirs_existing _ _ _ _ _ _ Hq').
    unfold os_chmod. rewrite Hq'. simpl. by rewrite insert_insert_eq.
  - by rewrite (os_makedirs_existing _ _ _ _ _ _ Hq).
Qed.

(** C6.  After [create_pid_folder] has returned: on a system install
    (target ["/"]) the runtime directory has mode [0o1777]; with any
    other target no mode is forced: what was there is unchanged and what
    was created is a directory of the default mode ([0o777] less the
    umask); and a second call succeeds and changes nothing. *)
Theorem create_pid_folder_modes a b :
  create_pid_folder P a = (b, Ok tt) ->
  (if String.eqb (BASE_ENV P) "/"
   then stat (cwd P) b (pid_folder P) = Some (Dir 1023)
   else (exists m, stat (cwd P) b (pid_folder P) = Some (Dir m))
        /\ keeps a b
        /\ forall p n, b !! p = Some n ->
                       a !! p = Some n \/ n = Dir (Z.ldiff 511 (umask P)))
  /\ create_pid_folder P b = (b, Ok tt).
Proof.
  intros Hb. split; [|by apply (create_pid_folder_again a)].
  destruct (create_pid_folder_ok _ _ Hb) as (a1 & q & m & Hmk & Hq & ->).
  destruct (os_makedirs_ok _ _ _ _ _ _ Hmk) as (Hk & Hnew & _).
  destruct (String.eqb (BASE_ENV P) "/").
  - assert (grows a1 (<[q := Dir 1023]> a1)) as Hg.
    { eapply grows_insert_same_kind; [by eapply resolve_node_lookup|done]. }
    destruct (resolve_dir_grows _ _ _ _ _ _ Hg Hq) as (m' & Hq' & Hl).
    rewrite lookup_insert_eq in Hl. injection Hl as <-.
    unfold stat. by rewrite Hq'.
  - unfold stat. rewrite Hq. by eauto.
Qed.

End PidFolder.

Lemma create_pid_folder_modes_witness :
  create_pid_folder Sample.system Sample.tree
  = ((create_pid_folder Sample.system Sample.tree).1, Ok tt)
  /\ stat (cwd Sample.system) (create_pid_folder Sample.system Sample.tree).1
       "/var/run/kytos" = Some (Dir 1023).
Proof.
  assert (create_pid_folder Sample.system Sample.tree
          = ((create_pid_folder Sample.system Sample.tree).1, Ok tt)) as Hrun
    by (apply returned; vm_compute; reflexivity).
  split; [exact Hrun|].
  exact (proj1 (create_pid_folder_modes Sample.system _ _ Hrun)).
Defined.

(* ===================================================================== *)
(** * Rendering templates                                                 *)
(* ===================================================================== *)

Section Rendering.

Variable P : Platform.

  (** One template: its text is read, rendered, and written over whatever
      the destination held. *)
Lemma render_one_ok destination kw path a b :
    render_one P destination kw path a = (b, Ok tt) ->
    exists ps ms text content pd md,
      resolve (cwd P) a true path = WNode ps (File ms text)
      /\ render P text kw = Ok content
      /\ b = <[pd := File md content]> a
      /\ resolve (cwd P) b true (rendered_path destination path)
         = WNode pd (File md content)
      /\ (a !! pd = None \/ exists d0, a !! pd = Some (File md d0)).
  Proof.
    unfold render_one, bind, open_read, attempt, open_write, update.
    destruct (read_file (cwd P) a path) as [text|] eqn:Hread; [|done].
    apply read_file_ok in Hread as (ps & ms & Hps).
    destruct (render P text kw) as [content|] eqn:Hrender; [|done].
    destruct (write_file _ _ a _ content) as [b'|] eqn:Hwrite; [|done].
    intros [= <-].
    destruct (write_file_ok _ _ _ _ _ _ Hwrite) as (pd & md & Hb & Hpd & Hold & _).
    by exists ps, ms, text, content, pd, md.
  Qed.

Lemma render_one_grows destination kw path a b :
    render_one P destination kw path a = (b, Ok tt) -> grows a b.
  Proof.
    intros Hb.
    destruct (render_one_ok _ _ _ _ _ Hb)
      as (ps & ms & text & content & pd & md & _ & _ & -> & _ & [Hn|[d0 Hp]]).
    - by apply keeps_grows, keeps_insert_fresh.
    - by eapply grows_insert_same_kind.
  Qed.

Lemma for_each_cons_ok {A} (x : A) (l : list A) (body : A -> M FS unit) a b :
    for_each (x :: l) body a = (b, Ok tt) ->
    exists a1, body x a = (a1, Ok tt) /\ for_each l body a1 = (b, Ok tt).
  Proof.
    simpl. unfold bind. destruct (body x a) as [a1 [[]|e]]; [|done].
    intros Hb. by exists a1.
  Qed.

Lemma render_all_grows destination kw l a b :
    for_each l (render_one P destination kw) a = (b, Ok tt) -> grows a b.
  Proof.
    revert a. induction l as [|x l IH]; intros a.
    - intros [= <-]. apply grows_refl.
    - intros Hb. apply for_each_cons_ok in Hb as (a1 & Hx & Hl).
      eapply grows_trans; [by eapply render_one_grows|by apply IH].
  Qed.

  (** The loop changes only the files the templates are rendered into. *)
Lemma render_all_frame destination kw l a b q :
    for_each l (render_one P destination kw) a = (b, Ok tt) ->
    (forall j path', l !! j = Some path' ->
       realpath (cwd P) b (rendered_path destination path') <> Some q) ->
    b !! q = a !! q.
  Proof.
    revert a. induction l as [|x l IH]; intros a.
    - by intros [= <-].
    - intros Hb Hq. apply for_each_cons_ok in Hb as (a1 & Hx & Hl).
      rewrite (IH a1 Hl) by (intros j path' Hj; by apply (Hq (S j))).
      destruct (render_one_ok _ _ _ _ _ Hx)
        as (ps & ms & text & content & pd & md & _ & _ & -> & Hpd & _).
      apply lookup_insert_ne. intros ->.
      destruct (resolve_file_grows _ _ _ _ _ _ _ (render_all_grows _ _ _ _ _ Hl) Hpd)
        as (m' & d' & Hpd' & _).
      apply (Hq O x eq_refl). unfold realpath. by rewrite Hpd'.
  Qed.

  (** Each template whose destination and source are the destination of
      no other template ends up rendered: the destination holds the
      rendering of the text its source holds. *)
Lemma render_all_content destination kw l a b i path :
    for_each l (render_one P destination kw) a = (b, Ok tt) ->
    l !! i = Some path ->
    (forall j path', l !! j = Some path' -> j <> i ->
       realpath (cwd P) b (rendered_path destination path')
       <> realpath (cwd P) b (rendered_path destination path)) ->
    (forall j path', l !! j = Some path' ->
       realpath (cwd P) b (rendered_path destination path')
       <> realpath (cwd P) b path) ->
    exists text content,
      read_file (cwd P) b path = Ok text
      /\ render P text kw = Ok content
      /\ read_file (cwd P) b (rendered_path destination path) = Ok content.
  Proof.
    revert a i. induction l as [|x l IH]; intros a i; [done|].
    intros Hb Hi Hdst Hsrc. apply for_each_cons_ok in Hb as (a1 & Hx & Hl).
    destruct i as [|i]; simpl in Hi.
    - injection Hi as ->.
      destruct (render_one_ok _ _ _ _ _ Hx)
        as (ps & ms & text & content & pd & md & Hps & Hrender & Ha1 & Hpd & _).
      pose proof (render_all_grows _ _ _ _ _ Hl) as Hg.
      destruct (resolve_file_grows _ _ _ _ _ _ _ Hg Hpd) as (m' & d' & Hpd' & Hlpd).
      assert (grows a b) as Hgab
        by (eapply grows_trans; [by eapply render_one_grows|done]).
      destruct (resolve_file_grows _ _ _ _ _ _ _ Hgab Hps) as (m'' & d'' & Hps' & Hlps).
      assert (realpath (cwd P) b (rendered_path destination path) = Some pd) as Rd
        by (unfold realpath; by rewrite Hpd').
      assert (realpath (cwd P) b path = Some ps) as Rs
        by (unfold realpath; by rewrite Hps').
      (* the destination is not written again *)
      assert (b !! pd = a1 !! pd) as Hkeep_d.
      { eapply render_all_frame; [exact Hl|]. intros j path' Hj.
        rewrite <- Rd. apply (Hdst (S j)); [done|lia]. }
      (* the source is never written *)
      assert (b !! ps = a !! ps) as Hkeep_s.
      { assert (ps <> pd) as Hne.
        { intros ->. apply (Hsrc O path eq_refl). by rewrite Rd, Rs. }
        transitivity (a1 !! ps).
        - eapply render_all_frame; [exact Hl|]. intros j path' Hj.
          rewrite <- Rs. by apply (Hsrc (S j)).
        - rewrite Ha1. by apply lookup_insert_ne. }
      rewrite Ha1, lookup_insert_eq in Hkeep_d.
      rewrite (resolve_node_lookup _ _ _ _ _ _ Hps) in Hkeep_s.
      exists text, content. split; [|split; [done|]].
      + apply read_file_ok. exists ps, m''. congruence.
      + apply read_file_ok. exists pd, m'. congruence.
    - eapply (IH a1 i); [done|done| |].
      + intros j path' Hj Hne. apply (Hdst (S j)); [done|lia].
      + intros j path' Hj. by apply (Hsrc (S j)).
  Qed.

  (** [create_paths] *)
Lemma create_paths_ok a b :
    create_paths P a = (b, Ok tt) ->
    keeps a b
    /\ os_path_exists (cwd P) b (os_path_join (BASE_ENV P) "etc/kytos") = true.
  Proof.
    unfold create_paths, for_each, bind, exists_, query, makedirs, update, ret.
    destruct (os_path_exists _ a _) eqn:Hex; simpl.
    - intros [= <-]. split; [apply keeps_refl|done].
    - destruct (os_makedirs _ _ a _ false) as [a1|] eqn:Hmk; [|done].
      intros [= <-].
      destruct (os_makedirs_ok _ _ _ _ _ _ Hmk) as (Hk & _ & q & m & Hq).
      split; [done|]. unfold os_path_exists. by rewrite Hq.
  Qed.

Lemma generate_file_from_template_ok templates destination kw a b :
    generate_file_from_template P templates destination kw a = (b, Ok tt) ->
    exists kw' a1,
      normalize_prefix kw = Ok kw'
      /\ create_paths P a = (a1, Ok tt)
      /\ for_each templates (render_one P destination kw') a1 = (b, Ok tt).
  Proof.
    unfold generate_file_from_template, bind at 1, attempt.
    destruct (normalize_prefix kw) as [kw'|]; [|done].
    unfold bind. destruct (create_paths P a) as [a1 [[]|]] eqn:Hcp; [|done].
    intros Hl. by exists kw', a1.
  Qed.

  (** [generate_file_link] *)
Lemma generate_file_link_skip file_name a :
    os_path_exists (cwd P) a (link_dst P file_name) = true ->
    generate_file_link P file_name a = (a, Ok tt).
  Proof.
    intros Hex. unfold generate_file_link, bind, exists_, query.
    by rewrite Hex.
  Qed.

Lemma generate_file_link_ok file_name a b :
    generate_file_link P file_name a = (b, Ok tt) ->
    (os_path_exists (cwd P) a (link_dst P file_name) = true /\ b = a)
    \/ (os_path_exists (cwd P) a (link_dst P file_name) = false
        /\ exists p, resolve (cwd P) a false (link_dst P file_name) = WAbsent p
                     /\ a !! p = None
                     /\ b = <[p := Link (link_src P file_name)]> a).
  Proof.
    unfold generate_file_link, bind, exists_, query, symlink, update, ret.
    destruct (os_path_exists _ a _) eqn:Hex; simpl.
    - intros [= <-]. by left.
    - destruct (os_symlink _ a _ _) as [b'|] eqn:Hln; [|done].
      intros [= <-]. right. split; [done|]. by apply os_symlink_ok in Hln.
  Qed.

  (** C8.  Rendering overwrites.  After [generate_file_from_template]
      has returned, take any template of the list whose destination file is
      the destination of no other template of the list, and whose source
      file is the destination of none: its destination holds the
      rendering, with the normalized context, of the text of its source,
      whatever the destination held before (nothing is assumed about it).
      Linking is the opposite: [generate_file_link] leaves a destination
      that exists as it is. *)
Theorem render_overwrites_link_skips templates destination kw a b :
    generate_file_from_template P templates destination kw a = (b, Ok tt) ->
    (forall i path,
       templates !! i = Some path ->
       (forall j path', templates !! j = Some path' -> j <> i ->
          realpath (cwd P) b (rendered_path destination path')
          <> realpath (cwd P) b (rendered_path destination path)) ->
       (forall j path', templates !! j = Some path' ->
          realpath (cwd P) b (rendered_path destination path')
          <> realpath (cwd P) b path) ->
       exists kw' text content,
         normalize_prefix kw = Ok kw'
         /\ read_file (cwd P) b path = Ok text
         /\ render P text kw' = Ok content
         /\ read_file (cwd P) b (rendered_path destination path) = Ok content)
    /\ (forall file_name fs0,
          os_path_exists (cwd P) fs0 (os_path_join (BASE_ENV P) file_name) = true ->
          generate_file_link P file_name fs0 = (fs0, Ok tt)).
  Proof.
    intros Hb. split; [|apply generate_file_link_skip].
    intros i path Hi Hdst Hsrc.
    destruct (generate_file_from_template_ok _ _ _ _ _ Hb) as (kw' & a1 & Hkw & _ & Hl).
    destruct (render_all_content _ _ _ _ _ _ _ Hl Hi Hdst Hsrc)
      as (text & content & Hr & Hc & Hw).
    by exists kw', text, content.
  Qed.

End Rendering.

Lemma render_overwrites_link_skips_witness :
  let P := Sample.system in
  let b := (generate_file_from_template P TEMPLATE_FILES (here P)
              (install_kwargs P) Sample.tree).1 in
  read_file (cwd P) Sample.tree "etc/kytos/logging.ini" = Ok "old"
  /\ exists kw' text content,
       normalize_prefix (install_kwargs P) = Ok kw'
       /\ read_file (cwd P) b "etc/kytos/logging.ini.template" = Ok text
       /\ render P text kw' = Ok content
       /\ read_file (cwd P) b
            (rendered_path (here P) "etc/kytos/logging.ini.template") = Ok content.
Proof.
  intros P b. split; [vm_compute; reflexivity|].
  assert (generate_file_from_template P TEMPLATE_FILES (here P)
            (install_kwargs P) Sample.tree = (b, Ok tt)) as Hrun
    by (apply returned; vm_compute; reflexivity).
  destruct (render_overwrites_link_skips P TEMPLATE_FILES (here P)
              (install_kwargs P) Sample.tree b Hrun) as [Hrender _].
  apply (Hrender 1%nat "etc/kytos/logging.ini.template" eq_refl).
  - intros j path' Hj Hne. destruct j as [|[|j]].
    + injection Hj as <-. vm_compute. discriminate.
    + exfalso. apply Hne. reflexivity.
    + discriminate Hj.
  - intros j path' Hj. destruct j as [|[|j]]; [| |discriminate Hj];
      injection Hj as <-; vm_compute; discriminate.
Defined.

(* ===================================================================== *)
(** * System install                                                      *)
(* ===================================================================== *)

Section Copying.

Variable cwd : path.
Variable umask : Z.

  (** After [shutil.copy2] the source is what it was and the target is a
      file with the same data and mode, at another place. *)
Lemma shutil_copy2_ok a src dst b :
    shutil_copy2 cwd umask a src dst = Ok b ->
    exists ps pd m d,
      resolve cwd b true src = WNode ps (File m d)
      /\ resolve cwd b true (copy_target cwd a src dst) = WNode pd (File m d)
      /\ ps <> pd
      /\ grows a b.
  Proof.
    unfold shutil_copy2.
    set (tgt := copy_target cwd a src dst).
    destruct (samefile cwd a src tgt) eqn:Hsame; [done|].
    destruct (resolve cwd a true src) as [ps [m d| |]| |] eqn:Hsrc; try done.
    destruct (write_file cwd umask a tgt d) as [a1|] eqn:Hw; [|done].
    intros Hch.
    destruct (write_file_ok _ _ _ _ _ _ Hw) as (pd & m1 & Ha1 & Hpd & Hold & Hwas).
    destruct (os_chmod_ok _ _ _ _ _ Hch) as (pd' & n & Hpd' & Hl & Hb).
    rewrite Hpd in Hpd'. injection Hpd' as <- <-. simpl in Hb.
    assert (ps <> pd) as Hne.
    { unfold samefile in Hsame. rewrite Hsrc in Hsame.
      destruct Hwas as [Habs|[d0 Hnode]].
      - pose proof (resolve_absent_lookup _ _ _ _ _ Habs).
        pose proof (resolve_node_lookup _ _ _ _ _ _ Hsrc). congruence.
      - rewrite Hnode in Hsame. by apply bool_decide_eq_false in Hsame. }
    assert (grows a a1) as Hg1 by by eapply write_file_grows.
    assert (grows a1 b) as Hg2.
    { rewrite Hb. eapply grows_insert_same_kind; [exact Hl|done]. }
    exists ps, pd, m, d.
    destruct (resolve_file_grows _ _ _ _ _ _ _ (grows_trans _ _ _ Hg1 Hg2) Hsrc)
      as (m' & d' & Hsrc' & Hls).
    destruct (resolve_file_grows _ _ _ _ _ _ _ Hg2 Hpd) as (m'' & d'' & Htgt' & Hlt).
    rewrite Hb, lookup_insert_eq in Hlt. injection Hlt as <- <-.
    rewrite Hb, lookup_insert_ne, Ha1, lookup_insert_ne in Hls by done.
    rewrite (resolve_node_lookup _ _ _ _ _ _ Hsrc) in Hls. injection Hls as <- <-.
    split; [done|]. split; [done|]. split; [done|].
    by eapply grows_trans.
  Qed.

End Copying.

Lemma bind_ok {S A B} (c : M S A) (k : A -> M S B) (a b : S) (r : B) :
  bind c k a = (b, Ok r) ->
  exists x a1, c a = (a1, Ok x) /\ k x a1 = (b, Ok r).
Proof.
  unfold bind. destruct (c a) as [a1 [x|e]]; [|done]. intros Hk. by exists x, a1.
Qed.

(** Splits a hypothesis on a sequence that returned into its two parts. *)
Tactic Notation "bind_inv" hyp(H) "as" simple_intropattern(pat) :=
  match type of H with
  | bind ?c ?k ?a = (?b, Ok ?r) =>
      apply (bind_ok c k a b r) in H; destruct H as pat
  end.

Section SystemInstall.

Variable P : Platform.

  (** [create_pid_folder] leaves files and links as they are. *)
Lemma create_pid_folder_files a b p n :
    create_pid_folder P a = (b, Ok tt) ->
    a !! p = Some n ->
    match n with Dir _ => True | _ => b !! p = Some n end.
  Proof.
    intros Hb Hp. destruct (create_pid_folder_ok _ _ _ Hb) as (a1 & q & m & Hmk & Hq & ->).
    destruct (os_makedirs_ok _ _ _ _ _ _ Hmk) as (Hk & _).
    destruct n as [m0 d| |t]; [|done|].
    - destruct (String.eqb _ _); [|by apply Hk].
      rewrite lookup_insert_ne; [by apply Hk|].
      intros ->. apply Hk in Hp.
      rewrite (resolve_node_lookup _ _ _ _ _ _ Hq) in Hp. done.
    - destruct (String.eqb _ _); [|by apply Hk].
      rewrite lookup_insert_ne; [by apply Hk|].
      intros ->. apply Hk in Hp.
      rewrite (resolve_node_lookup _ _ _ _ _ _ Hq) in Hp. done.
  Qed.

Lemma copy2_ok src dst a b :
    copy2 P src dst a = (b, Ok tt) ->
    shutil_copy2 (cwd P) (umask P) a src dst = Ok b.
  Proof.
    unfold copy2, update. destruct (shutil_copy2 _ _ a _ _); [|done].
    by intros [= <-].
  Qed.

  (** C5, as the code has it.  After [InstallMode.run] has returned, every
      file of [ETC_FILES] has been copied into the install target: the file
      [shutil.copy2] wrote for it (inside the destination when that is a
      directory) holds the data the source file holds.  That is the source
      as [InstallMode.run] left it, not as it found it: the templates are
      rendered into the source tree first, and [etc/kytos/logging.ini] is
      one of the files rendered. *)
Theorem install_copies_etc_files a b :
    InstallMode_run P a = (b, Ok tt) ->
    forall file, file ∈ ETC_FILES ->
      exists d,
        read_file (cwd P) b file = Ok d
        /\ read_file (cwd P) b (copy_target (cwd P) b file (install_dst P file)) = Ok d.
  Proof.
    unfold InstallMode_run. intros Hrun file Hfile.
    bind_inv Hrun as ([] & a0 & _ & Hrun).
    bind_inv Hrun as ([] & a1 & _ & Hrun).
    bind_inv Hrun as ([] & a2 & Hcopy & Hpid).
    unfold ETC_FILES in Hfile, Hcopy. apply list_elem_of_singleton in Hfile as ->.
    apply for_each_cons_ok in Hcopy as (a2' & Hcopy & Hnil).
    injection Hnil as <-.
    apply copy2_ok in Hcopy as Hcp.
    destruct (shutil_copy2_ok _ _ _ _ _ _ Hcp) as (ps & pd & m & d & Hs & Ht & Hne & Hg).
    pose proof (create_pid_folder_grows _ _ _ Hpid) as Hgp.
    destruct (resolve_file_grows _ _ _ _ _ _ _ Hgp Hs) as (ms & ds & Hs' & Hls).
    destruct (resolve_file_grows _ _ _ _ _ _ _ Hgp Ht) as (mt & dt & Ht' & Hlt).
    pose proof (create_pid_folder_files _ _ _ _ Hpid (resolve_node_lookup _ _ _ _ _ _ Hs)) as Hks.
    pose proof (create_pid_folder_files _ _ _ _ Hpid (resolve_node_lookup _ _ _ _ _ _ Ht)) as Hkt.
    simpl in Hks, Hkt. rewrite Hks in Hls. rewrite Hkt in Hlt.
    injection Hls as <- <-. injection Hlt as <- <-.
    exists d. split; [apply read_file_ok; by exists ps, m|].
    assert (copy_target (cwd P) b "etc/kytos/logging.ini" (install_dst P "etc/kytos/logging.ini")
            = copy_target (cwd P) a1 "etc/kytos/logging.ini" (install_dst P "etc/kytos/logging.ini"))
      as ->.
    { unfold copy_target in *.
      destruct (os_path_isdir (cwd P) a1 _) eqn:Hdir.
      - by rewrite (isdir_grows _ _ _ _ (grows_trans _ _ _ Hg Hgp) Hdir).
      - unfold os_path_isdir. by rewrite Ht'. }
    apply read_file_ok. by exists pd, m.
  Qed.

End SystemInstall.

(** C5, as the claim has it, fails: a [logging.ini] that an earlier run
    left in the source tree is rendered again before it is copied, and what
    reaches the install target is the new rendering, not the content the
    source file had when the command was invoked. *)
Lemma install_copy_not_invocation_content :
  ~ (forall (P : Platform) (a b : FS),
       InstallMode_run P a = (b, Ok tt) ->
       forall file, file ∈ ETC_FILES ->
         exists d,
           read_file (cwd P) a file = Ok d
           /\ read_file (cwd P) b (install_dst P file) = Ok d).
Proof.
  intros H.
  destruct (H Sample.system Sample.tree (InstallMode_run Sample.system Sample.tree).1
              ltac:(apply returned; vm_compute; reflexivity) "etc/kytos/logging.ini"
              ltac:(apply list_elem_of_here))
    as (d & Hsrc & Hdst).
  vm_compute in Hsrc, Hdst. congruence.
Qed.

Lemma install_copies_etc_files_witness :
  read_file (cwd Sample.system) (InstallMode_run Sample.system Sample.tree).1
    "/etc/kytos/logging.ini" = Ok "L@".
Proof.
  destruct (install_copies_etc_files Sample.system Sample.tree
              (InstallMode_run Sample.system Sample.tree).1
              ltac:(apply returned; vm_compute; reflexivity) "etc/kytos/logging.ini"
              ltac:(apply list_elem_of_here))
    as (d & Hsrc & Hdst).
  vm_compute in Hsrc. injection Hsrc as <-. exact Hdst.
Defined.

(* ===================================================================== *)
(** * Joining path strings                                                *)
(* ===================================================================== *)

Section JoinFacts.

Lemma split_cons_inv (s : string) : exists h t, split s = h :: t.
Proof.
  induction s as [|c s (h & t & IH)]; [by exists "", []|].
  simpl. destruct (Ascii.eqb c "/"); [by eexists _, _|].
  rewrite IH. by eexists _, _.
Qed.

Lemma split_app_sep (a b : string) :
  split (a +:+ String "/" b) = split a ++ split b.
Proof.
  induction a as [|c a IH]; [reflexivity|].
  simpl. destruct (Ascii.eqb c "/"); [by rewrite IH|].
  rewrite IH. by destruct (split_cons_inv a) as (h & t & ->).
Qed.

Lemma comps_app_sep (a b : string) :
  comps (a +:+ String "/" b) = comps a ++ comps b.
Proof. unfold comps. by rewrite split_app_sep, List.filter_app. Qed.

Lemma endswith_sep_inv (a : string) :
  endswith a "/" = true -> exists a', a = a' +:+ "/".
Proof.
  induction a as [|c a IH]; [done|].
  change (endswith (String c a) "/")
    with (if String.eqb (String c a) "/" then true else endswith a "/").
  destruct (String.eqb (String c a) "/") eqn:E.
  - apply String.eqb_eq in E. intros _. exists "". by rewrite E.
  - intros Ha. destruct (IH Ha) as (a' & ->). by exists (String c a').
Qed.

Lemma append_assoc_sep (a b : string) : (a +:+ "/") +:+ b = a +:+ String "/" b.
Proof.
  induction a as [|c a IH]; [reflexivity|].
  change (String c ((a +:+ "/") +:+ b) = String c (a +:+ String "/" b)).
  f_equal. exact IH.
Qed.

(** Joining a relative path: the names of the one, then of the other. *)
Lemma comps_join (a b : string) :
  isabs b = false -> comps (os_path_join a b) = comps a ++ comps b.
Proof.
  intros Hb. unfold os_path_join. rewrite Hb.
  destruct (String.eqb a "") eqn:Ea; simpl.
  - apply String.eqb_eq in Ea. by subst a.
  - destruct (endswith a "/") eqn:Es.
    + destruct (endswith_sep_inv _ Es) as (a' & ->).
      rewrite append_assoc_sep, !comps_app_sep. simpl.
      change (comps "") with (@nil string). by rewrite app_nil_r.
    + apply comps_app_sep.
Qed.

Lemma isabs_append (a b : string) :
  String.eqb a "" = false -> isabs (a +:+ b) = isabs a.
Proof. by destruct a. Qed.

Lemma isabs_join (a b : string) :
  String.eqb a "" = false -> isabs b = false ->
  isabs (os_path_join a b) = isabs a.
Proof.
  intros Ha Hb. unfold os_path_join. rewrite Hb, Ha. simpl.
  destruct (endswith a "/"); by apply isabs_append.
Qed.

Lemma join_nonempty (a b : string) :
  String.eqb b "" = false -> String.eqb (os_path_join a b) "" = false.
Proof.
  intros Hb. unfold os_path_join.
  destruct (isabs b); [done|].
  destruct (String.eqb a "" || endswith a "/").
  - destruct a; [done|reflexivity].
  - by destruct a.
Qed.

Lemma BASE_ENV_nonempty (P : Platform) : String.eqb (BASE_ENV P) "" = false.
Proof.
  unfold BASE_ENV. destruct (environ P !! "VIRTUAL_ENV") as [v|]; [|done].
  by destruct (String.eqb v "") eqn:E.
Qed.

End JoinFacts.

(* ===================================================================== *)
(** * Develop install, twice                                              *)
(* ===================================================================== *)

Lemma bind_intro {S A B} (c : M S A) (k : A -> M S B) (s s1 : S) (x : A) r :
  c s = (s1, Ok x) -> k x s1 = r -> bind c k s = r.
Proof. intros Hc Hk. unfold bind. by rewrite Hc. Qed.

Lemma for_each_one {S A} (body : A -> M S unit) (x : A) (s s' : S) :
  for_each [x] body s = (s', Ok tt) -> body x s = (s', Ok tt).
Proof.
  simpl. unfold bind, ret. destruct (body x s) as [s1 [[]|e]]; [|done].
  by intros [= <-].
Qed.

Lemma for_each_two {S A} (body : A -> M S unit) (x y : A) (s s' : S) :
  for_each [x; y] body s = (s', Ok tt) ->
  exists s1, body x s = (s1, Ok tt) /\ body y s1 = (s', Ok tt).
Proof.
  simpl. unfold bind, ret. destruct (body x s) as [s1 [[]|e]]; [|done].
  destruct (body y s1) as [s2 [[]|e]] eqn:Hy; [|done].
  intros [= <-]. by exists s1.
Qed.

Lemma for_each_fixed {S A} (body : A -> M S unit) (l : list A) (s : S) :
  (forall x, In x l -> body x s = (s, Ok tt)) -> for_each l body s = (s, Ok tt).
Proof.
  induction l as [|x l IH]; intros Hl; [reflexivity|].
  simpl. eapply bind_intro; [apply Hl; by left|].
  apply IH. intros y Hy. apply Hl. by right.
Qed.

Lemma generate_file_link_keeps (P : Platform) f e e' :
  generate_file_link P f e = (e', Ok tt) -> keeps e e'.
Proof.
  intros H. destruct (generate_file_link_ok P f e e' H)
    as [[_ ->]|(_ & pl & _ & Hfree & ->)].
  - apply keeps_refl.
  - by apply keeps_insert_fresh.
Qed.

Section DevelopTwice.

Variable P : Platform.
Variable b : FS.

Hypothesis Hplace : invoked_in_place P = true.
Hypothesis Hplain : plain_config P b = true.

Lemma place_here : here P = mkPath "" [].
Proof.
  unfold invoked_in_place in Hplace.
  apply andb_true_iff in Hplace as [H _]. apply andb_true_iff in H as [H _].
  apply andb_true_iff in H as [Hr Hp]. apply String.eqb_eq in Hr.
  destruct (here P) as [r p]. simpl in *. subst r. by destruct p.
Qed.

Lemma place_abspath :
  os_path_abspath (getcwd P) (os_path_dirname (file__ P)) = getcwd P.
Proof.
  unfold invoked_in_place in Hplace.
  apply andb_true_iff in Hplace as [H _]. apply andb_true_iff in H as [_ H].
  by apply String.eqb_eq in H.
Qed.

Lemma place_isabs : isabs (getcwd P) = true.
Proof.
  unfold invoked_in_place in Hplace. by apply andb_true_iff in Hplace as [_ H].
Qed.

Lemma plain_src_chain : dir_chain b [] (cwd P ++ ["etc"; "kytos"]) = true.
Proof.
  unfold plain_config in Hplain.
  apply andb_true_iff in Hplain as [H _]. by apply andb_true_iff in H as [H _].
Qed.

Lemma plain_tgt_chain :
  dir_chain b (if isabs (BASE_ENV P) then [] else cwd P)
    (comps (BASE_ENV P) ++ ["etc"; "kytos"]) = true.
Proof. unfold plain_config in Hplain. by apply andb_true_iff in Hplain as [_ H]. Qed.

Lemma plain_regular name :
  In name config_names ->
  exists m d, b !! (cwd P ++ ["etc"; "kytos"; name]) = Some (File m d).
Proof.
  unfold plain_config in Hplain.
  apply andb_true_iff in Hplain as [H _]. apply andb_true_iff in H as [_ H].
  rewrite forallb_forall in H. intros Hin. specialize (H name Hin).
  unfold regular in H.
  destruct (b !! (cwd P ++ ["etc"; "kytos"; name])) as [[m d| |]|]; try done.
  by exists m, d.
Qed.

(** A name of [etc/kytos] in the source tree, walked from the working
    directory or from the root, with any number of links left. *)
Lemma walk_src_rel fl k name m d :
  String.eqb name ".." = false ->
  b !! (cwd P ++ ["etc"; "kytos"; name]) = Some (File m d) ->
  walk b fl k (cwd P) ["etc"; "kytos"; name]
  = WNode (cwd P ++ ["etc"; "kytos"; name]) (File m d).
Proof.
  intros Hname Hfile.
  pose proof plain_src_chain as Hc. rewrite dir_chain_app in Hc.
  apply andb_true_iff in Hc as [_ Hc]. simpl app in Hc.
  change (walk b fl k (cwd P) ["etc"; "kytos"; name])
    with (walk b fl k (cwd P) (["etc"; "kytos"] ++ [name])).
  rewrite (walk_chain b fl k (cwd P) ["etc"; "kytos"] [name] Hc).
  rewrite walk_cons, Hname, <- app_assoc. simpl app. by rewrite Hfile.
Qed.

Lemma walk_src_abs fl k name m d :
  String.eqb name ".." = false ->
  b !! (cwd P ++ ["etc"; "kytos"; name]) = Some (File m d) ->
  walk b fl k [] (cwd P ++ ["etc"; "kytos"; name])
  = WNode (cwd P ++ ["etc"; "kytos"; name]) (File m d).
Proof.
  intros Hname Hfile.
  change (cwd P ++ ["etc"; "kytos"; name])
    with (cwd P ++ ["etc"; "kytos"] ++ [name]) at 1.
  rewrite app_assoc.
  rewrite (walk_chain b fl k [] _ [name] plain_src_chain). simpl app.
  rewrite walk_cons, Hname, <- app_assoc. simpl app. by rewrite Hfile.
Qed.

(** A relative path string that names a file of [etc/kytos]. *)
Lemma resolve_src s name m d :
  String.eqb s "" = false -> isabs s = false ->
  comps s = ["etc"; "kytos"; name] ->
  String.eqb name ".." = false ->
  b !! (cwd P ++ ["etc"; "kytos"; name]) = Some (File m d) ->
  resolve (cwd P) b true s = WNode (cwd P ++ ["etc"; "kytos"; name]) (File m d).
Proof.
  intros Hs Ha Hc Hname Hfile. unfold resolve. rewrite Hs, Ha, Hc.
  by apply walk_src_rel.
Qed.

Lemma getcwd_nonempty : String.eqb (getcwd P) "" = false.
Proof. pose proof place_isabs as H. by destruct (getcwd P). Qed.

(** After a link step of the first run, the destination leads somewhere
    in the final state: it did before the step, or it is the link just
    made, and that link points at a file the rendering has written. *)
Lemma tracked_dst_exists f name e e' :
  String.eqb f "" = false -> isabs f = false ->
  comps f = ["etc"; "kytos"; name] ->
  String.eqb name ".." = false ->
  In name config_names ->
  generate_file_link P f e = (e', Ok tt) ->
  grows e' b ->
  os_path_exists (cwd P) b (link_dst P f) = true.
Proof.
  intros Hf Hrel Hc Hname Hin Hlink Hg.
  destruct (plain_regular name Hin) as (m & d & Hfile).
  destruct (generate_file_link_ok P f e e' Hlink)
    as [[Hex ->]|(Hex & pl & Habsent & Hfree & ->)].
  - by eapply exists_grows.
  - assert (resolve (cwd P) (<[pl := Link (link_src P f)]> e) false (link_dst P f)
            = WNode pl (Link (link_src P f))) as Hfill
      by by apply resolve_fill.
    destruct (resolve_grows _ _ _ _ _ _ _ Hg Hfill) as (n' & Hr & _ & Hk).
    destruct n' as [| |t]; simpl in Hk; try done. subst t.
    assert (link_src P f = os_path_join (getcwd P) f) as Hsrc
      by (unfold link_src; by rewrite place_abspath).
    assert (String.eqb (link_src P f) "" = false) as Hs1
      by (rewrite Hsrc; by apply join_nonempty).
    assert (isabs (link_src P f) = true) as Hs2.
    { rewrite Hsrc, isabs_join; [apply place_isabs|apply getcwd_nonempty|done]. }
    assert (comps (link_src P f) = cwd P ++ ["etc"; "kytos"; name]) as Hs3
      by (rewrite Hsrc, comps_join, Hc; done).
    unfold os_path_exists. unfold resolve in Hr |- *. unfold link_dst in Hr |- *.
    rewrite join_nonempty in Hr |- * by done.
    rewrite isabs_join in Hr |- * by (done || apply BASE_ENV_nonempty).
    rewrite comps_join, Hc in Hr |- * by done.
    change (comps (BASE_ENV P) ++ ["etc"; "kytos"; name])
      with (comps (BASE_ENV P) ++ ["etc"; "kytos"] ++ [name]) in Hr |- *.
    rewrite app_assoc in Hr |- *.
    rewrite (walk_chain b false _ _ _ _ plain_tgt_chain) in Hr.
    rewrite (walk_chain b true _ _ _ _ plain_tgt_chain).
    rewrite walk_cons, Hname in Hr. rewrite walk_cons, Hname.
    destruct (b !! _) as [[m0 d0|m0|t]|] eqn:X in Hr |- *.
    + done.
    + rewrite walk_nil, X in Hr. done.
    + injection Hr as _ ->. rewrite Hs1, Hs2.
      change MAXSYMLINKS with (S 39). cbv iota. rewrite Hs3, app_nil_r.
      by rewrite (walk_src_abs true 39 name m d Hname Hfile).
    + done.
Qed.

(** A template whose text and rendering are in place is rendered again
    without a change. *)
Lemma render_one_again destination kw path ps ms text content pd md :
  resolve (cwd P) b true path = WNode ps (File ms text) ->
  render P text kw = Ok content ->
  resolve (cwd P) b true (rendered_path destination path) = WNode pd (File md content) ->
  render_one P destination kw path b = (b, Ok tt).
Proof.
  intros Hs Hr Hd. unfold render_one, bind, open_read, read_file, attempt,
    open_write, update.
  by rewrite Hs, Hr, (write_file_same _ _ _ _ _ _ _ Hd).
Qed.

Lemma create_paths_again :
  os_path_exists (cwd P) b (os_path_join (BASE_ENV P) "etc/kytos") = true ->
  create_paths P b = (b, Ok tt).
Proof.
  intros Hex. unfold create_paths, for_each, bind, exists_, query, ret.
  by rewrite Hex.
Qed.

Lemma rendered_here path :
  rendered_path (here P) path = rendered_path (mkPath "" []) path.
Proof. by rewrite place_here. Qed.

Lemma src_path_inj name1 name2 :
  cwd P ++ ["etc"; "kytos"; name1] = cwd P ++ ["etc"; "kytos"; name2] ->
  name1 = name2.
Proof. intros H. apply app_inv_head in H. by injection H. Qed.

Variable a : FS.
Hypothesis Hrun : DevelopMode_run P a = (b, Ok tt).
Hypothesis Hext : setuptools P DevelopRun b = (b, Ok tt).

(** The second run, step by step, leaves the file system of the first. *)
Lemma develop_second_run : DevelopMode_run P b = (b, Ok tt).
Proof.
  pose proof Hrun as H. unfold DevelopMode_run in H.
  bind_inv H as ([] & e0 & Hs & H).
  bind_inv H as ([] & e3 & Hgen & H).
  bind_inv H as ([] & e4 & Hl1 & H).
  bind_inv H as ([] & e6 & Hl2 & Hpid).
  apply (for_each_one (generate_file_link P) "etc/kytos/logging.ini") in Hl1.
  apply (for_each_two
           (fun file_name => generate_file_link P (replace ".template" "" file_name))
           "etc/kytos/kytos.conf.template" "etc/kytos/logging.ini.template") in Hl2.
  destruct Hl2 as (e5 & Hl2 & Hl3).
  destruct (generate_file_from_template_ok _ _ _ _ _ _ Hgen) as (kw' & e1 & Hkw & Hcp & Hloop).
  apply (for_each_two (render_one P (here P) kw')
           "etc/kytos/kytos.conf.template" "etc/kytos/logging.ini.template") in Hloop.
  destruct Hloop as (e2 & Hr1 & Hr2).
  (* the file system only grows from [e1] on *)
  pose proof (render_one_grows _ _ _ _ _ _ Hr1) as G12.
  pose proof (render_one_grows _ _ _ _ _ _ Hr2) as G23.
  pose proof (generate_file_link_keeps _ _ _ _ Hl1) as K34.
  pose proof (generate_file_link_keeps _ _ _ _ Hl2) as K45.
  pose proof (generate_file_link_keeps _ _ _ _ Hl3) as K56.
  pose proof (create_pid_folder_grows _ _ _ Hpid) as G6b.
  assert (grows e6 b) as G6 by done.
  assert (grows e5 b) as G5 by (eapply grows_trans; [by apply keeps_grows|done]).
  assert (grows e4 b) as G4 by (eapply grows_trans; [by apply keeps_grows|done]).
  assert (grows e3 b) as G3 by (eapply grows_trans; [by apply keeps_grows|done]).
  assert (grows e2 b) as G2 by (eapply grows_trans; done).
  assert (grows e1 b) as G1 by (eapply grows_trans; done).
  (* files of [e3] are in [b] as they are *)
  assert (forall p m d, e3 !! p = Some (File m d) -> b !! p = Some (File m d)) as Kfile.
  { intros p m d Hp. apply K34, K45, K56 in Hp.
    apply (create_pid_folder_files _ _ _ _ _ Hpid Hp). }
  (* the two templates and their renderings *)
  destruct (render_one_ok _ _ _ _ _ _ Hr1)
    as (ps1 & ms1 & T1 & O1 & pd1 & md1 & Hps1 & Hrender1 & He2 & Hpd1 & _).
  destruct (render_one_ok _ _ _ _ _ _ Hr2)
    as (ps2 & ms2 & T2 & O2 & pd2 & md2 & Hps2 & Hrender2 & He3 & Hpd2 & _).
  rewrite rendered_here in Hpd1, Hpd2.
  destruct (plain_regular "kytos.conf.template") as (m1 & d1 & F1); [simpl; tauto|].
  destruct (plain_regular "logging.ini.template") as (m2 & d2 & F2); [simpl; tauto|].
  destruct (plain_regular "kytos.conf") as (m3 & d3 & F3); [simpl; tauto|].
  destruct (plain_regular "logging.ini") as (m4 & d4 & F4); [simpl; tauto|].
  pose proof (resolve_src "etc/kytos/kytos.conf.template" _ _ _
                eq_refl eq_refl eq_refl eq_refl F1) as R1.
  pose proof (resolve_src "etc/kytos/logging.ini.template" _ _ _
                eq_refl eq_refl eq_refl eq_refl F2) as R2.
  pose proof (resolve_src (rendered_path (mkPath "" []) "etc/kytos/kytos.conf.template")
                _ _ _ eq_refl eq_refl eq_refl eq_refl F3) as R3.
  pose proof (resolve_src (rendered_path (mkPath "" []) "etc/kytos/logging.ini.template")
                _ _ _ eq_refl eq_refl eq_refl eq_refl F4) as R4.
  destruct (resolve_file_grows _ _ _ _ _ _ _ G1 Hps1) as (? & ? & Q1 & _).
  destruct (resolve_file_grows _ _ _ _ _ _ _ G2 Hps2) as (? & ? & Q2 & _).
  destruct (resolve_file_grows _ _ _ _ _ _ _ G2 Hpd1) as (? & ? & Q3 & _).
  destruct (resolve_file_grows _ _ _ _ _ _ _ G3 Hpd2) as (? & ? & Q4 & _).
  rewrite R1 in Q1. rewrite R2 in Q2. rewrite R3 in Q3. rewrite R4 in Q4.
  injection Q1 as <- _ _. injection Q2 as <- _ _.
  injection Q3 as <- _ _. injection Q4 as <- _ _.
  (* what the four files hold in [b] *)
  pose proof (resolve_node_lookup _ _ _ _ _ _ Hps1) as L1.
  pose proof (resolve_node_lookup _ _ _ _ _ _ Hps2) as L2.
  pose proof (resolve_node_lookup _ _ _ _ _ _ Hpd1) as L3.
  pose proof (resolve_node_lookup _ _ _ _ _ _ Hpd2) as L4.
  assert (e3 !! (cwd P ++ ["etc"; "kytos"; "kytos.conf.template"]) = Some (File ms1 T1)) as B1.
  { rewrite He3, lookup_insert_ne by (intros E; by apply src_path_inj in E).
    rewrite He2, lookup_insert_ne by (intros E; by apply src_path_inj in E). done. }
  assert (e3 !! (cwd P ++ ["etc"; "kytos"; "logging.ini.template"]) = Some (File ms2 T2)) as B2.
  { rewrite He3, lookup_insert_ne by (intros E; by apply src_path_inj in E). done. }
  assert (e3 !! (cwd P ++ ["etc"; "kytos"; "kytos.conf"]) = Some (File md1 O1)) as B3.
  { rewrite He3, lookup_insert_ne by (intros E; by apply src_path_inj in E). done. }
  apply Kfile in B1, B2, B3, L4.
  rewrite F1 in B1. rewrite F2 in B2. rewrite F3 in B3. rewrite F4 in L4.
  injection B1 as -> ->. injection B2 as -> ->.
  injection B3 as -> ->. injection L4 as -> ->.
  (* the second run *)
  unfold DevelopMode_run.
  eapply bind_intro; [exact Hext|].
  eapply bind_intro.
  { unfold generate_file_from_template.
    eapply bind_intro; [unfold attempt; by rewrite Hkw|].
    eapply bind_intro.
    - apply create_paths_again.
      destruct (create_paths_ok _ _ _ Hcp) as [_ Hex]. by eapply exists_grows.
    - apply for_each_fixed. intros path [<-|[<-|[]]].
      + eapply render_one_again; [exact R1|exact Hrender1|].
        rewrite rendered_here. exact R3.
      + eapply render_one_again; [exact R2|exact Hrender2|].
        rewrite rendered_here. exact R4. }
  eapply bind_intro.
  { apply for_each_fixed. intros f [<-|[]].
    apply generate_file_link_skip.
    eapply (tracked_dst_exists "etc/kytos/logging.ini" "logging.ini");
      [reflexivity|reflexivity|reflexivity|reflexivity|simpl; tauto|exact Hl1|exact G4]. }
  eapply bind_intro.
  { apply for_each_fixed. intros f [<-|[<-|[]]].
    - apply generate_file_link_skip.
      eapply (tracked_dst_exists _ "kytos.conf");
        [reflexivity|reflexivity|reflexivity|reflexivity|simpl; tauto|exact Hl2|exact G5].
    - apply generate_file_link_skip.
      eapply (tracked_dst_exists _ "logging.ini");
        [reflexivity|reflexivity|reflexivity|reflexivity|simpl; tauto|exact Hl3|exact G6]. }
  exact (create_pid_folder_again _ _ _ Hpid).
Qed.

End DevelopTwice.

(** C3.  Linking is idempotent.  [generate_file_link] makes a link only
    where nothing exists at the destination, and leaves a destination that
    exists as it is.  And Develop Install can be run twice in a row: when
    a first run has returned, a second run returns too and leaves the file
    system exactly as the first left it, so every link the first run made
    and every file it found is untouched.  This is for the script run in
    place ([python3 setup.py develop] in the source directory), with no
    symbolic link standing in for the configuration directories or files,
    and with a setuptools [develop] step that, repeated, changes nothing. *)
Theorem develop_install_idempotent (P : Platform) (a b : FS) :
  DevelopMode_run P a = (b, Ok tt) ->
  setuptools P DevelopRun b = (b, Ok tt) ->
  invoked_in_place P = true ->
  plain_config P b = true ->
  DevelopMode_run P b = (b, Ok tt)
  /\ forall file_name e e',
       generate_file_link P file_name e = (e', Ok tt) ->
       (os_path_exists (cwd P) e (link_dst P file_name) = true /\ e' = e)
       \/ (os_path_exists (cwd P) e (link_dst P file_name) = false
           /\ exists p, e !! p = None
                        /\ e' = <[p := Link (link_src P file_name)]> e).
Proof.
  intros Hrun Hext Hplace Hplain. split.
  - by apply (develop_second_run P b Hplace Hplain a).
  - intros file_name e e' Hlink.
    destruct (generate_file_link_ok P file_name e e' Hlink)
      as [H|(Hex & p & _ & Hfree & He')]; [by left|].
    right. split; [done|]. by exists p.
Qed.

Lemma develop_install_idempotent_witness :
  let b := (DevelopMode_run Sample.venv Sample.tree).1 in
  DevelopMode_run Sample.venv Sample.tree = (b, Ok tt)
  /\ DevelopMode_run Sample.venv b = (b, Ok tt).
Proof.
  intros b.
  assert (DevelopMode_run Sample.venv Sample.tree = (b, Ok tt)) as Hrun
    by (apply returned; vm_compute; reflexivity).
  split; [exact Hrun|].
  apply (develop_install_idempotent Sample.venv Sample.tree b Hrun).
  - reflexivity.
  - vm_compute. reflexivity.
  - vm_compute. reflexivity.
Defined.

(* ===================================================================== *)
(** * Further properties: the install target and the render context       *)
(* ===================================================================== *)

Section TargetPaths.

Variable P : Platform.

(** The runtime directory, and every destination of a link for a relative
    file name, lie under the install target: their names are the names of
    the target followed by their own, and they are absolute exactly when
    the target is.  The target is never the empty string (an empty
    [VIRTUAL_ENV] counts as unset), so none of them falls back to a path
    relative to the working directory on its own. *)
Theorem install_paths_under_target :
  String.eqb (BASE_ENV P) "" = false
  /\ comps (pid_folder P) = comps (BASE_ENV P) ++ ["var"; "run"; "kytos"]
  /\ isabs (pid_folder P) = isabs (BASE_ENV P)
  /\ forall file_name,
       isabs file_name = false ->
       comps (link_dst P file_name) = comps (BASE_ENV P) ++ comps file_name
       /\ isabs (link_dst P file_name) = isabs (BASE_ENV P).
Proof.
  split; [apply BASE_ENV_nonempty|].
  split; [unfold pid_folder; by rewrite comps_join|].
  split; [unfold pid_folder; apply isabs_join; [apply BASE_ENV_nonempty|done]|].
  intros file_name Hrel. unfold link_dst. split.
  - by apply comps_join.
  - apply isabs_join; [apply BASE_ENV_nonempty|done].
Qed.

(** An empty [VIRTUAL_ENV] is read as no virtual environment: the target
    is ["/"]; a non-empty one is the target. *)
Theorem BASE_ENV_of_VIRTUAL_ENV (v : string) :
  environ P !! "VIRTUAL_ENV" = Some v ->
  BASE_ENV P = (if String.eqb v "" then "/" else v)
  /\ (String.eqb v "" = true -> pid_folder P = "/var/run/kytos").
Proof.
  intros Hv. unfold pid_folder, BASE_ENV. rewrite Hv. split; [done|].
  by intros ->.
Qed.

End TargetPaths.

Lemma install_paths_under_target_witness :
  comps (link_dst Sample.venv "etc/kytos/logging.ini")
  = ["opt"; "venv"; "etc"; "kytos"; "logging.ini"]
  /\ isabs (link_dst Sample.venv "etc/kytos/logging.ini") = true.
Proof.
  destruct (install_paths_under_target Sample.venv) as (_ & _ & _ & H).
  exact (H "etc/kytos/logging.ini" eq_refl).
Defined.

Lemma BASE_ENV_of_VIRTUAL_ENV_witness :
  BASE_ENV Sample.venv = "/opt/venv".
Proof.
  exact (proj1 (BASE_ENV_of_VIRTUAL_ENV Sample.venv "/opt/venv" eq_refl)).
Defined.

Section ContextFacts.

Variable P : Platform.

(** Normalizing the context touches the prefix and nothing else, and cuts
    at most one character from it: a trailing separator. *)
Theorem normalize_prefix_only_prefix (kw kw' : kwargs) :
  normalize_prefix kw = Ok kw' ->
  (forall key, key <> "prefix" -> kw' !! key = kw !! key)
  /\ exists p,
       kw !! "prefix" = Some (VStr p)
       /\ kw' !! "prefix" = Some (VStr (if endswith p "/" then drop_last p else p)).
Proof.
  unfold normalize_prefix.
  destruct (kw !! "prefix") as [[p|l]|] eqn:Hp; try done.
  intros [= <-]. split.
  - intros key Hkey. destruct (endswith p "/"); [|done].
    by rewrite lookup_insert_ne.
  - exists p. split; [done|]. destruct (endswith p "/"); [|done].
    by rewrite lookup_insert_eq.
Qed.

(** Only one separator is cut: a prefix that ends in two keeps one, so it
    is rendered as the same prefix with one trailing separator would be
    if that were not normalized. *)
Theorem normalize_prefix_two_separators (kw : kwargs) (p : string) :
  normalize_prefix (<["prefix" := VStr (p +:+ "//")]> kw)
  = Ok (<["prefix" := VStr (p +:+ "/")]> kw).
Proof.
  assert (p +:+ "//" = (p +:+ "/") +:+ "/") as ->.
  { induction p as [|c p IH]; [reflexivity|].
    change (String c (p +:+ "//") = String c ((p +:+ "/") +:+ "/")).
    by rewrite IH. }
  apply normalize_prefix_sep.
Qed.

(** A prefix that is not a string has no [endswith]: the call raises
    before anything is created, read or written. *)
Theorem render_with_list_prefix_fails
    (templates : list string) (destination : Path) (kw : kwargs)
    (l : list string) (fs0 : FS) :
  kw !! "prefix" = Some (VList l) ->
  generate_file_from_template P templates destination kw fs0
  = (fs0, Raise AttributeError).
Proof.
  intros Hkw. unfold generate_file_from_template, bind, attempt, normalize_prefix.
  by rewrite Hkw.
Qed.

End ContextFacts.

Lemma normalize_prefix_only_prefix_witness :
  (<["prefix" := VStr ""]> (install_kwargs Sample.system) : kwargs) !! "syslog_args"
  = Some (VList []).
Proof.
  destruct (normalize_prefix_only_prefix (install_kwargs Sample.system)
              (<["prefix" := VStr ""]> (install_kwargs Sample.system)) eq_refl)
    as [H _].
  rewrite (H "syslog_args") by discriminate. reflexivity.
Defined.

Lemma render_with_list_prefix_fails_witness :
  generate_file_from_template Sample.system TEMPLATE_FILES (here Sample.system)
    (<["prefix" := VList ["/"]]> ∅) Sample.tree
  = (Sample.tree, Raise AttributeError).
Proof.
  apply (render_with_list_prefix_fails Sample.system TEMPLATE_FILES
           (here Sample.system) (<["prefix" := VList ["/"]]> ∅) ["/"] Sample.tree).
  reflexivity.
Defined.

(* ===================================================================== *)
(** * Further properties: the rendering loop                              *)
(* ===================================================================== *)

Lemma for_each_app {S A} (l1 l2 : list A) (body : A -> M S unit) (s : S) :
  for_each (l1 ++ l2) body s = (for_each l1 body >> for_each l2 body) s.
Proof.
  revert s. induction l1 as [|x l1 IH]; intros s; [reflexivity|].
  simpl. unfold bind. destruct (body x s) as [s1 [[]|e]]; [|reflexivity].
  rewrite IH. reflexivity.
Qed.

Section RenderingMore.

Variable P : Platform.

Lemma update_raise (f : FS -> Res FS) (a b : FS) (e : exn) :
  update f a = (b, Raise e) -> b = a.
Proof. unfold update. destruct (f a); [done|]. by intros [= <-]. Qed.

(** A template that fails writes nothing. *)
Lemma render_one_raise destination kw path a b e :
  render_one P destination kw path a = (b, Raise e) -> b = a.
Proof.
  unfold render_one, bind, open_read, attempt, open_write.
  destruct (read_file (cwd P) a path) as [text|]; [|by intros [= <-]].
  destruct (render P text kw) as [content|]; [|by intros [= <-]].
  apply update_raise.
Qed.

(** No rollback and no going on: when the templates before it have been
    rendered and a template fails, the call raises the error of that
    template, the files rendered before it stay as rendered, and neither
    it nor any later template is written. *)
Theorem render_stops_without_rollback
    (before : list string) (path : string) (rest : list string)
    (destination : Path) (kw kw' : kwargs) (a a2 : FS) (e : exn) :
  normalize_prefix kw = Ok kw' ->
  generate_file_from_template P before destination kw a = (a2, Ok tt) ->
  (render_one P destination kw' path a2).2 = Raise e ->
  generate_file_from_template P (before ++ path :: rest) destination kw a
  = (a2, Raise e).
Proof.
  intros Hkw Hbefore Hfail.
  destruct (generate_file_from_template_ok _ _ _ _ _ _ Hbefore)
    as (kw0 & a1 & Hkw0 & Hcp & Hloop).
  rewrite Hkw in Hkw0. injection Hkw0 as <-.
  unfold generate_file_from_template.
  eapply bind_intro; [unfold attempt; by rewrite Hkw|].
  eapply bind_intro; [exact Hcp|].
  rewrite for_each_app. eapply bind_intro; [exact Hloop|].
  simpl. unfold bind.
  destruct (render_one P destination kw' path a2) as [b [[]|e']] eqn:Hone;
    simpl in Hfail; [done|].
  injection Hfail as ->. by rewrite (render_one_raise _ _ _ _ _ _ Hone).
Qed.

Lemma for_each_grows_any {A} (body : A -> M FS unit) (l : list A) :
  (forall x a, grows a (body x a).1) -> forall a, grows a (for_each l body a).1.
Proof.
  intros Hbody. induction l as [|x l IH]; intros a; [apply grows_refl|].
  simpl. unfold bind. pose proof (Hbody x a) as Hx.
  destruct (body x a) as [a1 [[]|e]]; simpl in *; [|done].
  eapply grows_trans; [exact Hx|apply IH].
Qed.

Lemma render_one_grows_any destination kw path a :
  grows a (render_one P destination kw path a).1.
Proof.
  destruct (render_one P destination kw path a) as [b [[]|e]] eqn:H; simpl.
  - by eapply render_one_grows.
  - rewrite (render_one_raise _ _ _ _ _ _ H). apply grows_refl.
Qed.

Lemma create_paths_grows_any a : grows a (create_paths P a).1.
Proof.
  destruct (create_paths P a) as [b [[]|e]] eqn:H; simpl.
  - apply keeps_grows. by destruct (create_paths_ok _ _ _ H).
  - unfold create_paths, for_each, bind, exists_, query, makedirs, ret in H.
    destruct (os_path_exists _ a _); simpl in H; [done|].
    unfold update in H. destruct (os_makedirs _ _ a _ _); [done|].
    injection H as <- _. apply grows_refl.
Qed.

(** Rendering never removes anything and never changes what a thing is:
    whether the call returns or raises, every file of before is still a
    file, every directory a directory, every link the same link. *)
Theorem generate_file_from_template_grows
    (templates : list string) (destination : Path) (kw : kwargs) (a : FS) :
  grows a (generate_file_from_template P templates destination kw a).1.
Proof.
  unfold generate_file_from_template, bind at 1, attempt.
  destruct (normalize_prefix kw) as [kw'|]; [|apply grows_refl].
  unfold bind. pose proof (create_paths_grows_any a) as H1.
  destruct (create_paths P a) as [a1 [[]|e]]; simpl in *; [|done].
  eapply grows_trans; [exact H1|].
  apply for_each_grows_any. intros x a0. apply render_one_grows_any.
Qed.

(** A destination that exists keeps its permission bits when it is
    rendered again; a new one gets [0o666] less the umask. *)
Theorem render_one_mode destination kw path a b :
  render_one P destination kw path a = (b, Ok tt) ->
  exists content,
    stat (cwd P) b (rendered_path destination path)
    = Some (File (match stat (cwd P) a (rendered_path destination path) with
                  | Some (File m _) => m
                  | _ => Z.ldiff 438 (umask P)
                  end) content).
Proof.
  unfold render_one, bind, open_read, attempt, open_write, update.
  destruct (read_file (cwd P) a path) as [text|]; [|done].
  destruct (render P text kw) as [content|]; [|done].
  destruct (write_file _ _ a _ content) as [b'|] eqn:Hw; [|done].
  intros [= <-]. exists content.
  destruct (write_file_ok _ _ _ _ _ _ Hw) as (p & m & _ & Hp & _ & Hwas).
  unfold stat. rewrite Hp.
  destruct Hwas as [Habs|[d0 Hnode]].
  - rewrite Habs. unfold write_file in Hw. rewrite Habs in Hw.
    unfold resolve in Hp.
    assert (b' !! p = Some (File m content)) as Hl by by eapply resolve_node_lookup.
    injection Hw as <-. rewrite lookup_insert_eq in Hl. by injection Hl as <-.
  - by rewrite Hnode.
Qed.

End RenderingMore.

Lemma render_stops_without_rollback_witness :
  let P := Sample.system in
  let a2 := (generate_file_from_template P ["etc/kytos/kytos.conf.template"]
               (here P) (install_kwargs P) Sample.tree).1 in
  generate_file_from_template P
    (["etc/kytos/kytos.conf.template"] ++ "etc/kytos/missing.template"
       :: ["etc/kytos/logging.ini.template"])
    (here P) (install_kwargs P) Sample.tree
  = (a2, Raise FileNotFoundError).
Proof.
  intros P a2.
  apply (render_stops_without_rollback P ["etc/kytos/kytos.conf.template"]
           "etc/kytos/missing.template" ["etc/kytos/logging.ini.template"]
           (here P) (install_kwargs P)
           (<["prefix" := VStr ""]> (install_kwargs P)) Sample.tree a2).
  - reflexivity.
  - apply returned. vm_compute. reflexivity.
  - vm_compute. reflexivity.
Defined.

Lemma render_one_mode_witness :
  let P := Sample.system in
  let kw := <["prefix" := VStr ""]> (install_kwargs P) in
  exists content,
    stat (cwd P) (render_one P (here P) kw "etc/kytos/logging.ini.template" Sample.tree).1
      (rendered_path (here P) "etc/kytos/logging.ini.template")
    = Some (File 420 content).
Proof.
  intros P kw.
  destruct (render_one_mode P (here P) kw "etc/kytos/logging.ini.template" Sample.tree
              (render_one P (here P) kw "etc/kytos/logging.ini.template" Sample.tree).1)
    as (content & H).
  - apply returned. vm_compute. reflexivity.
  - exists content. exact H.
Defined.

(* ===================================================================== *)
(** * Further properties: directories and links                           *)
(* ===================================================================== *)

Section MkwalkMore.

Variable dmode : Z.

(** On a path that leads to a regular file, [os.makedirs] raises
    [FileExistsError], with or without [exist_ok]. *)
Lemma mkwalk_on_file eo k a il cr cur todo q m d :
  walk a true k cur todo = WNode q (File m d) ->
  mkwalk dmode eo k a il cr cur todo = Raise FileExistsError.
Proof.
  revert il cr. pattern k, cur, todo. apply walk_induction.
  clear k cur todo. intros k cur todo IHk IHt il cr.
  destruct todo as [|c rest].
  - rewrite mkwalk_nil, walk_nil. destruct (a !! cur) as [[| |]|]; try done.
  - rewrite mkwalk_cons, walk_cons.
    destruct (String.eqb c ".."); [apply IHt; simpl; lia|].
    destruct (a !! (cur ++ [c])) as [[m' d'|m'|t]|] eqn:E.
    + by destruct rest.
    + apply IHt. simpl. lia.
    + destruct (String.eqb t ""); [by destruct rest|].
      destruct k as [|k']; [by destruct rest|].
      intros Hw. apply IHk; [lia|]. by destruct rest.
    + by destruct rest.
Qed.

End MkwalkMore.

Section DirectoriesMore.

Variable P : Platform.

(** [create_paths] is idempotent: when it has returned, the configuration
    directory of the install target exists, everything that was there is
    unchanged, what was added is directories of the default mode, and a
    second call changes nothing. *)
Theorem create_paths_idempotent a b :
  create_paths P a = (b, Ok tt) ->
  os_path_exists (cwd P) b (os_path_join (BASE_ENV P) "etc/kytos") = true
  /\ keeps a b
  /\ (forall p n, b !! p = Some n ->
                  a !! p = Some n \/ n = Dir (Z.ldiff 511 (umask P)))
  /\ create_paths P b = (b, Ok tt).
Proof.
  intros Hb. destruct (create_paths_ok _ _ _ Hb) as [Hk Hex].
  split; [done|]. split; [done|]. split.
  - unfold create_paths, for_each, bind, exists_, query, makedirs, update, ret in Hb.
    destruct (os_path_exists _ a _); simpl in Hb.
    + injection Hb as <-. intros p n Hp. by left.
    + destruct (os_makedirs _ _ a _ false) as [a1|] eqn:Hmk; [|done].
      injection Hb as <-. by destruct (os_makedirs_ok _ _ _ _ _ _ Hmk) as (_ & Hnew & _).
  - unfold create_paths, for_each, bind, exists_, query, ret. by rewrite Hex.
Qed.

(** [create_pid_folder] on a path that is taken.  Where the path leads to
    a directory the call succeeds and changes at most the mode of that
    directory (on a system install); where it leads to a regular file the
    call raises [FileExistsError] and changes nothing. *)
Theorem create_pid_folder_on_existing a :
  match resolve (cwd P) a true (pid_folder P) with
  | WNode q (Dir _) =>
      create_pid_folder P a
      = (if String.eqb (BASE_ENV P) "/" then <[q := Dir 1023]> a else a, Ok tt)
  | WNode _ (File _ _) =>
      create_pid_folder P a = (a, Raise FileExistsError)
  | _ => True
  end.
Proof.
  destruct (resolve (cwd P) a true (pid_folder P)) as [q [m d|m|t]| |] eqn:Hq; try done.
  - rewrite create_pid_folder_eq. unfold os_makedirs.
    unfold resolve in Hq. destruct (String.eqb (pid_folder P) ""); [done|].
    by rewrite (mkwalk_on_file _ _ _ _ _ _ _ _ _ _ _ Hq).
  - rewrite create_pid_folder_eq, (os_makedirs_existing _ _ _ _ _ _ Hq).
    destruct (String.eqb (BASE_ENV P) "/"); [|done].
    unfold os_chmod. by rewrite Hq.
Qed.

(** [os.path.exists] follows links and [os.symlink] does not: on a
    destination that is a dangling link, [generate_file_link] raises
    [FileExistsError] and changes nothing. *)
Theorem generate_file_link_dangling file_name a p t :
  resolve (cwd P) a false (link_dst P file_name) = WNode p (Link t) ->
  os_path_exists (cwd P) a (link_dst P file_name) = false ->
  generate_file_link P file_name a = (a, Raise FileExistsError).
Proof.
  intros Hl Hex. unfold generate_file_link, bind, exists_, query, symlink, update.
  rewrite Hex. simpl. unfold os_symlink. by rewrite Hl.
Qed.

(** So on its own [generate_file_link] is not idempotent: when the link
    it has made dangles (the file it points to is not there), a second
    call raises. *)
Theorem generate_file_link_twice_dangling file_name a b :
  generate_file_link P file_name a = (b, Ok tt) ->
  os_path_exists (cwd P) b (link_dst P file_name) = false ->
  generate_file_link P file_name b = (b, Raise FileExistsError).
Proof.
  intros Hb Hex.
  destruct (generate_file_link_ok P file_name a b Hb)
    as [[Hex' ->]|(_ & pl & Habsent & _ & ->)]; [congruence|].
  eapply generate_file_link_dangling; [|exact Hex].
  by apply resolve_fill.
Qed.

Lemma isabs_normpath s : isabs s = true -> isabs (os_path_normpath s) = true.
Proof.
  intros Hs. unfold os_path_normpath, initial_slashes. rewrite Hs.
  destruct s as [|c s]; [done|].
  by destruct (_ =? 2)%nat.
Qed.

Lemma isabs_abspath cwd0 s : isabs cwd0 = true -> isabs (os_path_abspath cwd0 s) = true.
Proof.
  intros Hc. unfold os_path_abspath. apply isabs_normpath.
  destruct (isabs s) eqn:Hs; [done|].
  rewrite isabs_join; [done| |done]. by destruct cwd0.
Qed.

(** The link that is made is found at the destination, links not
    followed, and its target is an absolute path: it does not depend on
    the directory it is read from. *)
Theorem generate_file_link_absolute file_name a b :
  isabs (getcwd P) = true ->
  isabs file_name = false ->
  os_path_exists (cwd P) a (link_dst P file_name) = false ->
  generate_file_link P file_name a = (b, Ok tt) ->
  isabs (link_src P file_name) = true
  /\ exists p, resolve (cwd P) b false (link_dst P file_name)
               = WNode p (Link (link_src P file_name)).
Proof.
  intros Hcwd Hrel Hex Hb. split.
  - unfold link_src. rewrite isabs_join; [by apply isabs_abspath| |done].
    pose proof (isabs_abspath (getcwd P) (os_path_dirname (file__ P)) Hcwd) as H.
    by destruct (os_path_abspath _ _).
  - destruct (generate_file_link_ok P file_name a b Hb)
      as [[Hex' _]|(_ & pl & Habsent & _ & ->)]; [congruence|].
    exists pl. by apply resolve_fill.
Qed.

End DirectoriesMore.

Lemma create_paths_idempotent_witness :
  let b := (create_paths Sample.venv Sample.tree).1 in
  os_path_exists (cwd Sample.venv) b "/opt/venv/etc/kytos" = true
  /\ create_paths Sample.venv b = (b, Ok tt).
Proof.
  intros b.
  destruct (create_paths_idempotent Sample.venv Sample.tree b) as (H1 & _ & _ & H2).
  - apply returned. vm_compute. reflexivity.
  - split; [exact H1|exact H2].
Defined.

Lemma generate_file_link_twice_dangling_witness :
  let a := (create_paths Sample.venv Sample.tree).1 in
  let b := (generate_file_link Sample.venv "etc/kytos/kytos.conf" a).1 in
  generate_file_link Sample.venv "etc/kytos/kytos.conf" a = (b, Ok tt)
  /\ generate_file_link Sample.venv "etc/kytos/kytos.conf" b
     = (b, Raise FileExistsError).
Proof.
  intros a b.
  assert (generate_file_link Sample.venv "etc/kytos/kytos.conf" a = (b, Ok tt)) as H
    by (apply returned; vm_compute; reflexivity).
  split; [exact H|].
  apply (generate_file_link_twice_dangling Sample.venv _ a b H).
  vm_compute. reflexivity.
Defined.

Lemma generate_file_link_dangling_witness :
  let a := (create_paths Sample.venv Sample.tree).1 in
  let b := (generate_file_link Sample.venv "etc/kytos/kytos.conf" a).1 in
  generate_file_link Sample.venv "etc/kytos/kytos.conf" b
  = (b, Raise FileExistsError).
Proof.
  intros a b.
  apply (generate_file_link_dangling Sample.venv "etc/kytos/kytos.conf" b
           ["opt"; "venv"; "etc"; "kytos"; "kytos.conf"] "/src/etc/kytos/kytos.conf").
  - vm_compute. reflexivity.
  - vm_compute. reflexivity.
Defined.

Lemma generate_file_link_absolute_witness :
  let a := (create_paths Sample.venv Sample.tree).1 in
  link_src Sample.venv "etc/kytos/kytos.conf" = "/src/etc/kytos/kytos.conf"
  /\ isabs (link_src Sample.venv "etc/kytos/kytos.conf") = true.
Proof.
  intros a. split; [vm_compute; reflexivity|].
  apply (generate_file_link_absolute Sample.venv "etc/kytos/kytos.conf" a
           (generate_file_link Sample.venv "etc/kytos/kytos.conf" a).1).
  - reflexivity.
  - reflexivity.
  - vm_compute. reflexivity.
  - apply returned. vm_compute. reflexivity.
Defined.

(* ===================================================================== *)
(** * Further properties: what an install leaves                          *)
(* ===================================================================== *)

Section InstallMore.

Variable P : Platform.

Lemma render_all_exist destination kw l a b :
  for_each l (render_one P destination kw) a = (b, Ok tt) ->
  forall path, In path l ->
    os_path_exists (cwd P) b (rendered_path destination path) = true.
Proof.
  revert a. induction l as [|x l IH]; intros a Hb path Hin; [done|].
  apply for_each_cons_ok in Hb as (a1 & Hx & Hl).
  destruct Hin as [<-|Hin]; [|by eapply IH].
  destruct (render_one_ok _ _ _ _ _ _ Hx)
    as (ps & ms & text & content & pd & md & _ & _ & _ & Hpd & _).
  eapply exists_grows; [by eapply render_all_grows|].
  unfold os_path_exists. by rewrite Hpd.
Qed.

Lemma generate_file_from_template_leaves templates destination kw a b :
  generate_file_from_template P templates destination kw a = (b, Ok tt) ->
  grows a b
  /\ os_path_exists (cwd P) b (os_path_join (BASE_ENV P) "etc/kytos") = true
  /\ forall path, In path templates ->
       os_path_exists (cwd P) b (rendered_path destination path) = true.
Proof.
  intros Hb.
  destruct (generate_file_from_template_ok _ _ _ _ _ _ Hb) as (kw' & a1 & _ & Hcp & Hl).
  destruct (create_paths_ok _ _ _ Hcp) as [Hk Hex].
  pose proof (render_all_grows _ _ _ _ _ _ Hl) as Hg.
  split; [eapply grows_trans; [by apply keeps_grows|done]|].
  split; [by eapply exists_grows|].
  by eapply render_all_exist.
Qed.

Lemma create_pid_folder_isdir a b :
  create_pid_folder P a = (b, Ok tt) ->
  os_path_isdir (cwd P) b (pid_folder P) = true.
Proof.
  intros Hb. destruct (create_pid_folder_ok _ _ _ Hb) as (a1 & q & m & Hmk & Hq & ->).
  destruct (String.eqb (BASE_ENV P) "/").
  - assert (grows a1 (<[q := Dir 1023]> a1)) as Hg.
    { eapply grows_insert_same_kind; [by eapply resolve_node_lookup|done]. }
    destruct (resolve_dir_grows _ _ _ _ _ _ Hg Hq) as (m' & Hq' & _).
    unfold os_path_isdir. by rewrite Hq'.
  - unfold os_path_isdir. by rewrite Hq.
Qed.

(** What System Install leaves when it returns.  From the state the
    setuptools step left, nothing has been removed and nothing has changed
    its kind; the configuration directory of the target exists, the
    runtime directory is a directory, and every template has its rendered
    file. *)
Theorem install_leaves a b :
  InstallMode_run P a = (b, Ok tt) ->
  (exists e0,
     (if bool_decide ("bdist_wheel" ∈ argv P)
      then setuptools P InstallRun else setuptools P DoEggInstall) a = (e0, Ok tt)
     /\ grows e0 b)
  /\ os_path_exists (cwd P) b (os_path_join (BASE_ENV P) "etc/kytos") = true
  /\ os_path_isdir (cwd P) b (pid_folder P) = true
  /\ forall path, In path TEMPLATE_FILES ->
       os_path_exists (cwd P) b (rendered_path (here P) path) = true.
Proof.
  unfold InstallMode_run. intros Hrun.
  bind_inv Hrun as ([] & e0 & Hs & Hrun).
  bind_inv Hrun as ([] & e1 & Hgen & Hrun).
  bind_inv Hrun as ([] & e2 & Hcopy & Hpid).
  apply (for_each_one (fun file => copy2 P file (install_dst P file))
           "etc/kytos/logging.ini") in Hcopy.
  apply copy2_ok in Hcopy.
  destruct (shutil_copy2_ok _ _ _ _ _ _ Hcopy) as (ps & pd & m & d & _ & _ & _ & G12).
  destruct (generate_file_from_template_leaves _ _ _ _ _ Hgen) as (G01 & Hconf & Hfiles).
  pose proof (create_pid_folder_grows _ _ _ Hpid) as G2b.
  assert (grows e1 b) as G1b by (eapply grows_trans; done).
  split; [exists e0; split; [done|by eapply grows_trans]|].
  split; [by eapply exists_grows|].
  split; [by eapply create_pid_folder_isdir|].
  intros path Hin. eapply exists_grows; [exact G1b|by apply Hfiles].
Qed.

(** [shutil.copy2] copies the permission bits with the content: after
    System Install the copy of a plain configuration file is a regular
    file with the mode and the data of its source. *)
Theorem install_copy_keeps_mode a b :
  InstallMode_run P a = (b, Ok tt) ->
  exists m d,
    stat (cwd P) b "etc/kytos/logging.ini" = Some (File m d)
    /\ stat (cwd P) b
         (copy_target (cwd P) b "etc/kytos/logging.ini"
            (install_dst P "etc/kytos/logging.ini")) = Some (File m d).
Proof.
  unfold InstallMode_run. intros Hrun.
  bind_inv Hrun as ([] & e0 & Hs & Hrun).
  bind_inv Hrun as ([] & e1 & Hgen & Hrun).
  bind_inv Hrun as ([] & e2 & Hcopy & Hpid).
  apply (for_each_one (fun file => copy2 P file (install_dst P file))
           "etc/kytos/logging.ini") in Hcopy.
  apply copy2_ok in Hcopy.
  destruct (shutil_copy2_ok _ _ _ _ _ _ Hcopy) as (ps & pd & m & d & Hs' & Ht & Hne & Hg).
  pose proof (create_pid_folder_grows _ _ _ Hpid) as Hgp.
  destruct (resolve_file_grows _ _ _ _ _ _ _ Hgp Hs') as (ms & ds & Hsb & Hls).
  destruct (resolve_file_grows _ _ _ _ _ _ _ Hgp Ht) as (mt & dt & Htb & Hlt).
  pose proof (create_pid_folder_files _ _ _ _ _ Hpid (resolve_node_lookup _ _ _ _ _ _ Hs')) as Hks.
  pose proof (create_pid_folder_files _ _ _ _ _ Hpid (resolve_node_lookup _ _ _ _ _ _ Ht)) as Hkt.
  simpl in Hks, Hkt. rewrite Hks in Hls. rewrite Hkt in Hlt.
  injection Hls as <- <-. injection Hlt as <- <-.
  exists m, d. unfold stat. rewrite Hsb. split; [done|].
  assert (copy_target (cwd P) b "etc/kytos/logging.ini" (install_dst P "etc/kytos/logging.ini")
          = copy_target (cwd P) e1 "etc/kytos/logging.ini" (install_dst P "etc/kytos/logging.ini"))
    as ->.
  { unfold copy_target in *.
    destruct (os_path_isdir (cwd P) e1 _) eqn:Hdir.
    - by rewrite (isdir_grows _ _ _ _ (grows_trans _ _ _ Hg Hgp) Hdir).
    - unfold os_path_isdir. by rewrite Htb. }
  by rewrite Htb.
Qed.

(** What Develop Install leaves when it returns: as for System Install,
    nothing removed and nothing changed in kind since the setuptools
    step, the configuration directory, the runtime directory, the
    rendered files. *)
Theorem develop_leaves a b :
  DevelopMode_run P a = (b, Ok tt) ->
  (exists e0, setuptools P DevelopRun a = (e0, Ok tt) /\ grows e0 b)
  /\ os_path_exists (cwd P) b (os_path_join (BASE_ENV P) "etc/kytos") = true
  /\ os_path_isdir (cwd P) b (pid_folder P) = true
  /\ forall path, In path TEMPLATE_FILES ->
       os_path_exists (cwd P) b (rendered_path (here P) path) = true.
Proof.
  unfold DevelopMode_run. intros H.
  bind_inv H as ([] & e0 & Hs & H).
  bind_inv H as ([] & e3 & Hgen & H).
  bind_inv H as ([] & e4 & Hl1 & H).
  bind_inv H as ([] & e6 & Hl2 & Hpid).
  apply (for_each_one (generate_file_link P) "etc/kytos/logging.ini") in Hl1.
  apply (for_each_two
           (fun file_name => generate_file_link P (replace ".template" "" file_name))
           "etc/kytos/kytos.conf.template" "etc/kytos/logging.ini.template") in Hl2.
  destruct Hl2 as (e5 & Hl2 & Hl3).
  destruct (generate_file_from_template_leaves _ _ _ _ _ Hgen) as (G03 & Hconf & Hfiles).
  pose proof (generate_file_link_keeps _ _ _ _ Hl1) as K34.
  pose proof (generate_file_link_keeps _ _ _ _ Hl2) as K45.
  pose proof (generate_file_link_keeps _ _ _ _ Hl3) as K56.
  pose proof (create_pid_folder_grows _ _ _ Hpid) as G6b.
  assert (grows e3 b) as G3b.
  { eapply grows_trans; [apply keeps_grows; exact K34|].
    eapply grows_trans; [apply keeps_grows; exact K45|].
    eapply grows_trans; [apply keeps_grows; exact K56|done]. }
  split; [exists e0; split; [done|by eapply grows_trans]|].
  split; [by eapply exists_grows|].
  split; [by eapply create_pid_folder_isdir|].
  intros path Hin. eapply exists_grows; [exact G3b|by apply Hfiles].
Qed.

(** After Develop Install, run in place on a configuration without
    symbolic links standing in for it, both configuration files are
    reachable under the install target: no link of the run dangles. *)
Theorem develop_destinations_exist a b :
  DevelopMode_run P a = (b, Ok tt) ->
  invoked_in_place P = true ->
  plain_config P b = true ->
  os_path_exists (cwd P) b (link_dst P "etc/kytos/logging.ini") = true
  /\ os_path_exists (cwd P) b (link_dst P "etc/kytos/kytos.conf") = true.
Proof.
  unfold DevelopMode_run. intros H Hplace Hplain.
  bind_inv H as ([] & e0 & Hs & H).
  bind_inv H as ([] & e3 & Hgen & H).
  bind_inv H as ([] & e4 & Hl1 & H).
  bind_inv H as ([] & e6 & Hl2 & Hpid).
  apply (for_each_one (generate_file_link P) "etc/kytos/logging.ini") in Hl1.
  apply (for_each_two
           (fun file_name => generate_file_link P (replace ".template" "" file_name))
           "etc/kytos/kytos.conf.template" "etc/kytos/logging.ini.template") in Hl2.
  destruct Hl2 as (e5 & Hl2 & Hl3).
  pose proof (generate_file_link_keeps _ _ _ _ Hl2) as K45.
  pose proof (generate_file_link_keeps _ _ _ _ Hl3) as K56.
  pose proof (create_pid_folder_grows _ _ _ Hpid) as G6b.
  assert (grows e5 b) as G5 by (eapply grows_trans; [by apply keeps_grows|done]).
  assert (grows e4 b) as G4 by (eapply grows_trans; [by apply keeps_grows|done]).
  split.
  - eapply (tracked_dst_exists P b Hplace Hplain "etc/kytos/logging.ini" "logging.ini");
      [reflexivity|reflexivity|reflexivity|reflexivity|simpl; tauto|exact Hl1|exact G4].
  - change "etc/kytos/kytos.conf"
      with (replace ".template" "" "etc/kytos/kytos.conf.template").
    eapply (tracked_dst_exists P b Hplace Hplain _ "kytos.conf");
      [reflexivity|reflexivity|reflexivity|reflexivity|simpl; tauto|exact Hl2|exact G5].
Qed.

End InstallMore.

Lemma install_leaves_witness :
  os_path_isdir (cwd Sample.system) (InstallMode_run Sample.system Sample.tree).1
    "/var/run/kytos" = true.
Proof.
  destruct (install_leaves Sample.system Sample.tree
              (InstallMode_run Sample.system Sample.tree).1) as (_ & _ & H & _).
  - apply returned. vm_compute. reflexivity.
  - exact H.
Defined.

Lemma install_copy_keeps_mode_witness :
  exists m d,
    stat (cwd Sample.system) (InstallMode_run Sample.system Sample.tree).1
      "etc/kytos/logging.ini" = Some (File m d)
    /\ stat (cwd Sample.system) (InstallMode_run Sample.system Sample.tree).1
         "/etc/kytos/logging.ini" = Some (File m d).
Proof.
  destruct (install_copy_keeps_mode Sample.system Sample.tree
              (InstallMode_run Sample.system Sample.tree).1) as (m & d & H1 & H2).
  - apply returned. vm_compute. reflexivity.
  - exists m, d. split; [exact H1|exact H2].
Defined.

Lemma develop_leaves_witness :
  os_path_isdir (cwd Sample.venv) (DevelopMode_run Sample.venv Sample.tree).1
    "/opt/venv/var/run/kytos" = true.
Proof.
  destruct (develop_leaves Sample.venv Sample.tree
              (DevelopMode_run Sample.venv Sample.tree).1) as (_ & _ & H & _).
  - apply returned. vm_compute. reflexivity.
  - exact H.
Defined.

Lemma develop_destinations_exist_witness :
  os_path_exists (cwd Sample.venv) (DevelopMode_run Sample.venv Sample.tree).1
    "/opt/venv/etc/kytos/kytos.conf" = true.
Proof.
  destruct (develop_destinations_exist Sample.venv Sample.tree
              (DevelopMode_run Sample.venv Sample.tree).1) as (_ & H).
  - apply returned. vm_compute. reflexivity.
  - vm_compute. reflexivity.
  - vm_compute. reflexivity.
  - exact H.
Defined.

(* ===================================================================== *)
(** * Further properties: the commands                                    *)
(* ===================================================================== *)

Section CommandsMore.

Variable P : Platform.

(** [CITest] passes exactly when the three tools exit with 0, each run
    on the file system the one before it left; and the status the process
    ends with tells the stage apart: 1 (an uncaught [CalledProcessError])
    when coverage or the doc tests fail, 255 when the linter does. *)
Theorem CITest_run_status (w : World) :
  let r1 := subprocess P (Shell TestCoverage_cmd) (fs w) in
  let r2 := subprocess P (Shell DocTest_cmd) r1.2 in
  let r3 := subprocess P (Shell Linter_cmd) r2.2 in
  let r := (CITest_run P w).2 in
  (r = Ok tt <-> r1.1 = 0 /\ r2.1 = 0 /\ r3.1 = 0)
  /\ exit_status r
     = (if r1.1 =? 0 then if r2.1 =? 0 then if r3.1 =? 0 then 0 else 255 else 1 else 1).
Proof.
  cbv zeta. unfold CITest_run, for_each, bind, ret.
  rewrite TestCoverage_run_spec. simpl.
  destruct (subprocess P (Shell TestCoverage_cmd) (fs w)) as [c1 f1]. simpl.
  destruct (c1 =? 0) eqn:E1; simpl.
  2:{ apply Z.eqb_neq in E1. split; [|done]. split; [done|]. by intros [? _]. }
  apply Z.eqb_eq in E1. rewrite DocTest_run_spec. simpl.
  destruct (subprocess P (Shell DocTest_cmd) f1) as [c2 f2]. simpl.
  destruct (c2 =? 0) eqn:E2; simpl.
  2:{ apply Z.eqb_neq in E2. split; [|done]. split; [done|]. by intros (_ & ? & _). }
  apply Z.eqb_eq in E2. rewrite Linter_run_spec. simpl.
  destruct (subprocess P (Shell Linter_cmd) f2) as [c3 f3]. simpl.
  destruct (c3 =? 0) eqn:E3; simpl.
  - apply Z.eqb_eq in E3. by split.
  - apply Z.eqb_neq in E3. split; [|done]. split; [done|]. by intros (_ & _ & ?).
Qed.

(** [Cleaner.run] is best effort: once the underlying [clean] has
    returned, the three shell commands are run in order whatever their
    exit statuses, and the command returns.  Only the underlying [clean]
    can make it raise, and then no shell command is run. *)
Theorem Cleaner_run_best_effort (clean_run : M FS unit) (w : World) :
  match clean_run (fs w) with
  | (f0, Ok _) =>
      (Cleaner_run P clean_run w).2 = Ok tt
      /\ news w (Cleaner_run P clean_run w).1 = map (fun c => EvExec (Shell c)) Cleaner_cmds
  | (f0, Raise e) =>
      Cleaner_run P clean_run w = ({| fs := f0; out := out w |}, Raise e)
  end.
Proof.
  unfold Cleaner_run, bind, on_fs, call, ret.
  destruct (clean_run (fs w)) as [f0 [[]|e]]; [|done]. simpl.
  destruct (subprocess P _ f0) as [c1 f1]. simpl.
  destruct (subprocess P _ f1) as [c2 f2]. simpl.
  destruct (subprocess P _ f2) as [c3 f3]. simpl.
  split; [done|]. rewrite <- !app_assoc. apply news_app.
Qed.

End CommandsMore.

Section AssetsMore.

Variable P : Platform.

Lemma execs_app (l1 l2 : list event) : execs (l1 ++ l2) = execs l1 ++ execs l2.
Proof. unfold execs. apply omap_app. Qed.

Lemma compiles_app (l1 l2 : list event) :
  compiles (l1 ++ l2) = (compiles l1 + compiles l2)%nat.
Proof. unfold compiles. by rewrite List.filter_app, length_app. Qed.

Lemma on_fs_out {A} (c : M FS A) (w : World) : out (on_fs c w).1 = out w.
Proof. unfold on_fs. by destruct (c (fs w)). Qed.

Lemma SASSBuild_build_out (w : World) :
  out (SASSBuild_build P w).1 = out w ++ build_trace_of P (fs w).
Proof.
  assert (forall (f : FS) (o : list event) (css map : string) (x y : Path),
            out ((on_fs (open_write P (Path_str x) css) >>
                  on_fs (open_write P (Path_str y) map) >> ret tt)
                   {| fs := f; out := o |}).1 = o) as Hwrite.
  { intros f o css map x y. unfold bind, on_fs, ret. simpl.
    destruct (open_write P (Path_str x) css f) as [f1 [[]|e1]]; simpl; [|done].
    by destruct (open_write P (Path_str y) map f1) as [f2 [[]|e2]]. }
  unfold build_trace_of, SASSBuild_build, sass_ready. fold (pip_build P).
  unfold bind at 1. unfold try_except, import_sass at 1.
  destruct (importable_sass P (fs w)) eqn:Himp; simpl.
  - unfold bind at 1. unfold bind at 1, emit at 1. simpl. fold (sass_event P).
    match goal with
    | |- context [sass_compile P ?a ?b ?f] =>
        destruct (sass_compile P a b f) as [[css map]|e]
    end; simpl; [apply Hwrite|done].
  - unfold bind at 1, check_call at 1, import_sass.
    destruct (subprocess P (pip_build P) (fs w)) as [code f1]. simpl.
    destruct (code =? 0); simpl; [|done].
    destruct (importable_sass P f1); simpl; [|done].
    unfold bind at 1. unfold bind at 1, emit at 1. simpl. fold (sass_event P).
    match goal with
    | |- context [sass_compile P ?a ?b ?f] =>
        destruct (sass_compile P a b f) as [[css map]|e]
    end; simpl.
    + rewrite Hwrite. by rewrite <- app_assoc.
    + by rewrite <- app_assoc.
Qed.

(** The whole trace of [SASSBuild.build].  [pip] is run only when [sass]
    cannot be imported, and once; the compiler is run once when the import
    succeeds, at once or after that install, and not otherwise.  Nothing
    else is shown, and whether [style.css] exists plays no part: this is
    the forced rebuild. *)
Theorem SASSBuild_build_trace (w : World) :
  out (SASSBuild_build P w).1
  = out w
    ++ (if importable_sass P (fs w) then [] else [EvExec (pip_build P)])
    ++ (if sass_ready P (fs w) then [(sass_event P)] else []).
Proof. apply SASSBuild_build_out. Qed.

Lemma check_sass_trace_shape (w1 : World) :
  let (w2, _) := _check_sass P w1 in
  exists l, out w2 = out w1 ++ l
            /\ (compiles l <= 1)%nat
            /\ (execs l = [] \/ execs l = [(pip_build P)]).
Proof.
  destruct (_check_sass P w1) as [w2 r2] eqn:Hcs.
  unfold _check_sass, bind, on_fs, exists_, query in Hcs. simpl in Hcs.
  destruct (os_path_exists _ _ _).
  - unfold print, emit in Hcs. injection Hcs as <- _.
    eexists. split; [reflexivity|]. unfold compiles, execs. simpl. split; [lia|by left].
  - pose proof (SASSBuild_build_out {| fs := fs w1; out := out w1 |}) as Ho.
    rewrite Hcs in Ho. simpl in Ho.
    eexists. split; [exact Ho|]. unfold build_trace_of.
    unfold sass_event, compiles, execs.
    destruct (importable_sass P (fs w1)), (sass_ready P (fs w1)); simpl;
      (split; [lia|tauto]).
Qed.

Lemma install_deps_wheels_spec (w : World) :
  _install_deps_wheels P w =
  let r := subprocess P (pip_run P) (fs w) in
  ({| fs := r.2;
      out := out w ++ [EvPrint "Installing dependencies..."; EvExec (pip_run P)] |},
   if r.1 =? 0 then Ok tt else Raise (CalledProcessError r.1)).
Proof.
  unfold _install_deps_wheels, bind, print, emit, check_call. fold (pip_run P). simpl.
  destruct (subprocess P (pip_run P) (fs w)) as [code f]. simpl.
  by rewrite <- app_assoc.
Qed.

Lemma EggInfo_run_eq (w : World) :
  let r := subprocess P (pip_run P) (fs w) in
  let seen := out w ++ [EvPrint "Installing dependencies..."; EvExec (pip_run P)] in
  if r.1 =? 0
  then EggInfo_run P w
       = (_check_sass P >> on_fs (setuptools P EggInfoRun)) {| fs := r.2; out := seen |}
  else EggInfo_run P w = ({| fs := r.2; out := seen |}, Raise (CalledProcessError r.1)).
Proof.
  cbv zeta.
  assert (EggInfo_run P w =
          match _install_deps_wheels P w with
          | (s', Ok _) => (_check_sass P >> on_fs (setuptools P EggInfoRun)) s'
          | (s', Raise e) => (s', Raise e)
          end) as -> by reflexivity.
  rewrite install_deps_wheels_spec. cbv zeta.
  destruct (subprocess P (pip_run P) (fs w)) as [code f]. simpl.
  by destruct (code =? 0).
Qed.

(** The packaging pre-hook installs the dependencies first, and stops
    there when that fails: [CalledProcessError] is raised with the exit
    status of [pip], the compiler has not been run and the setuptools step
    has not been reached (the file system is the one [pip] left). *)
Theorem EggInfo_run_deps_first (w : World) :
  let r := subprocess P (pip_run P) (fs w) in
  let seen := out w ++ [EvPrint "Installing dependencies..."; EvExec (pip_run P)] in
  if r.1 =? 0
  then EggInfo_run P w
       = (_check_sass P >> on_fs (setuptools P EggInfoRun)) {| fs := r.2; out := seen |}
  else EggInfo_run P w = ({| fs := r.2; out := seen |}, Raise (CalledProcessError r.1)).
Proof. exact (EggInfo_run_eq w). Qed.

(** In one run of the pre-hook the compiler is run at most once, and the
    subprocesses are the install of the dependencies, followed at most by
    the bootstrap install of [sass]. *)
Theorem EggInfo_run_bounds (w : World) :
  let w' := (EggInfo_run P w).1 in
  (compiles (news w w') <= 1)%nat
  /\ (execs (news w w') = [pip_run P] \/ execs (news w w') = [pip_run P; pip_build P]).
Proof.
  cbv zeta.
  assert (exists l,
            out (EggInfo_run P w).1
            = out w ++ [EvPrint "Installing dependencies..."; EvExec (pip_run P)] ++ l
            /\ (compiles l <= 1)%nat
            /\ (execs l = [] \/ execs l = [pip_build P])) as (l & Ho & Hc & He).
  { pose proof (EggInfo_run_eq w) as H. cbv zeta in H.
    destruct (subprocess P (pip_run P) (fs w)) as [code f]. simpl in H.
    destruct (code =? 0); rewrite H; clear H.
    - unfold bind.
      pose proof (check_sass_trace_shape
                    {| fs := f;
                       out := out w ++ [EvPrint "Installing dependencies...";
                                        EvExec (pip_run P)] |}) as Hshape.
      destruct (_check_sass P _) as [w2 r2].
      destruct Hshape as (l & Hl & Hc & He). simpl in Hl.
      exists l. split; [|done].
      destruct r2; simpl; [rewrite on_fs_out|]; by rewrite Hl, <- app_assoc.
    - exists []. simpl. split; [done|]. unfold compiles. simpl. split; [lia|by left]. }
  unfold news. rewrite Ho, drop_app_length, compiles_app, execs_app.
  split; [exact Hc|].
  destruct He as [->| ->]; [by left|by right].
Qed.

End AssetsMore.

Section AssetFiles.

Variable P : Platform.

Lemma open_write_ok s d a b :
  open_write P s d a = (b, Ok tt) -> write_file (cwd P) (umask P) a s d = Ok b.
Proof.
  unfold open_write, update. destruct (write_file _ _ a s d); [|done].
  by intros [= <-].
Qed.

Lemma write_pair_ok (x y css map : string) (f : FS) (o : list event) (w' : World) :
  (on_fs (open_write P x css) >> on_fs (open_write P y map) >> ret tt)
    {| fs := f; out := o |} = (w', Ok tt) ->
  read_file (cwd P) (fs w') y = Ok map
  /\ (realpath (cwd P) (fs w') x <> realpath (cwd P) (fs w') y ->
      read_file (cwd P) (fs w') x = Ok css).
Proof.
  unfold bind, on_fs, ret. simpl.
  destruct (open_write P x css f) as [f1 [[]|e1]] eqn:H1; [|done]. simpl.
  destruct (open_write P y map f1) as [f2 [[]|e2]] eqn:H2; [|done]. simpl.
  intros [= <-]. simpl.
  apply open_write_ok in H1, H2.
  destruct (write_file_ok _ _ _ _ _ _ H1) as (px & mx & _ & Hx & _).
  destruct (write_file_ok _ _ _ _ _ _ H2) as (py & my & Hf2 & Hy & _).
  split; [apply read_file_ok; by exists py, my|].
  intros Hne.
  destruct (resolve_file_grows _ _ _ _ _ _ _ (write_file_grows _ _ _ _ _ _ H2) Hx)
    as (m' & d' & Hx' & Hl).
  unfold realpath in Hne. rewrite Hx', Hy in Hne.
  rewrite Hf2, lookup_insert_ne in Hl by congruence.
  rewrite (resolve_node_lookup _ _ _ _ _ _ Hx) in Hl. injection Hl as <- <-.
  apply read_file_ok. by exists px, mx.
Qed.

(** When [SASSBuild.build] returns, the compiler has returned a style
    sheet and a source map, the map file holds the map, and the style
    sheet file holds the style sheet (the two being different files). *)
Theorem SASSBuild_build_writes (w w' : World) :
  SASSBuild_build P w = (w', Ok tt) ->
  exists f css map,
    sass_compile P
      (Path_str (Path_div (Path_div (here P) "web-ui-src/sass") "main.scss"))
      (Path_str (Path_div (_cssdir P) "style.css.map")) f = Ok (css, map)
    /\ read_file (cwd P) (fs w') (Path_str (Path_div (_cssdir P) "style.css.map")) = Ok map
    /\ (realpath (cwd P) (fs w') (Path_str (style_css P))
        <> realpath (cwd P) (fs w') (Path_str (Path_div (_cssdir P) "style.css.map")) ->
        read_file (cwd P) (fs w') (Path_str (style_css P)) = Ok css).
Proof.
  unfold SASSBuild_build.
  unfold bind at 1. unfold try_except, import_sass at 1.
  destruct (importable_sass P (fs w)) eqn:Himp; simpl.
  - unfold bind at 1. unfold bind at 1, emit at 1. simpl.
    match goal with
    | |- context [sass_compile P ?a ?b ?f] =>
        destruct (sass_compile P a b f) as [[css map]|e] eqn:Hc
    end; simpl; [|done].
    intros Hw. exists (fs w), css, map. split; [done|].
    by apply write_pair_ok in Hw.
  - unfold bind at 1, check_call at 1, import_sass.
    destruct (subprocess P _ (fs w)) as [code f1]. simpl.
    destruct (code =? 0); simpl; [|done].
    destruct (importable_sass P f1); simpl; [|done].
    unfold bind at 1. unfold bind at 1, emit at 1. simpl.
    match goal with
    | |- context [sass_compile P ?a ?b ?f] =>
        destruct (sass_compile P a b f) as [[css map]|e] eqn:Hc
    end; simpl; [|done].
    intros Hw. exists f1, css, map. split; [done|].
    by apply write_pair_ok in Hw.
Qed.

End AssetFiles.

Lemma SASSBuild_build_writes_witness :
  let w := {| fs := <[["src"; "kytos"; "web-ui"; "static"; "css"] := Dir 493]>
                      (<[["src"; "kytos"; "web-ui"; "static"] := Dir 493]>
                       (<[["src"; "kytos"; "web-ui"] := Dir 493]>
                        (<[["src"; "kytos"] := Dir 493]> Sample.tree)));
             out := [] |} in
  exists f css map,
    sass_compile Sample.system "web-ui-src/sass/main.scss"
      "kytos/web-ui/static/css/style.css.map" f = Ok (css, map)
    /\ read_file (cwd Sample.system) (fs (SASSBuild_build Sample.system w).1)
         "kytos/web-ui/static/css/style.css.map" = Ok map.
Proof.
  intros w.
  destruct (SASSBuild_build_writes Sample.system w (SASSBuild_build Sample.system w).1)
    as (f & css & map & H1 & H2 & _).
  - apply returned. vm_compute. reflexivity.
  - exists f, css, map. split; [exact H1|exact H2].
Defined.

(* ===================================================================== *)
(** * Further properties: the metadata                                    *)
(* ===================================================================== *)

Section MetadataFacts.
Import Metadata.

Lemma span_fst_closed p s : (span p (span p s).1).2 = "".
Proof.
  induction s as [|c s IH]; [reflexivity|].
  simpl. destruct (p c) eqn:Hc; [|reflexivity]. simpl. by rewrite Hc.
Qed.

Lemma span_app p a c b :
  (span p a).2 = "" -> p c = false -> span p (a +:+ String c b) = (a, String c b).
Proof.
  intros Ha Hc. induction a as [|x a IH]; simpl.
  - by rewrite Hc.
  - simpl in Ha. destruct (p x); [|done]. simpl in Ha. by rewrite IH.
Qed.

Lemma span_fst_quote_free s : quote_free (span not_quote s).1 = true.
Proof.
  induction s as [|c s IH]; [reflexivity|].
  simpl. destruct (not_quote c) eqn:Hc; [|reflexivity]. simpl. by rewrite Hc.
Qed.

Lemma span_snd_quote_free p s : quote_free s = true -> quote_free (span p s).2 = true.
Proof.
  induction s as [|c s IH]; [done|]. simpl.
  intros H. apply andb_true_iff in H as [Hc Hs].
  destruct (p c); simpl; [by apply IH|]. by rewrite Hc, Hs.
Qed.

Lemma match_here_some s key value rest :
  match_here s = Some (key, value, rest) ->
  dunder key /\ quotable value /\ quote_free s = false.
Proof.
  unfold match_here.
  destruct s as [|c0 [|c1 s1]]; try done.
  { by destruct c0 as [[] [] [] [] [] [] [] []]. }
  destruct (Ascii.eqb c0 "_") eqn:E0.
  2:{ destruct c0 as [[] [] [] [] [] [] [] []]; try done. }
  apply Ascii.eqb_eq in E0. subst c0.
  destruct (Ascii.eqb c1 "_") eqn:E1.
  2:{ destruct c1 as [[] [] [] [] [] [] [] []]; try done. }
  apply Ascii.eqb_eq in E1. subst c1.
  pose proof (span_fst_closed is_lower s1) as Hname.
  destruct (span is_lower s1) as [name s2] eqn:Hs. simpl in *.
  destruct name as [|n0 name]; [done|].
  destruct s2 as [|c2 [|c3 s3]]; try done.
  { by destruct c2 as [[] [] [] [] [] [] [] []]. }
  destruct (Ascii.eqb c2 "_") eqn:E2.
  2:{ destruct c2 as [[] [] [] [] [] [] [] []]; try done. }
  destruct (Ascii.eqb c3 "_") eqn:E3.
  2:{ apply Ascii.eqb_eq in E2. subst c2.
      destruct c3 as [[] [] [] [] [] [] [] []]; try done. }
  apply Ascii.eqb_eq in E2, E3. subst c2 c3.
  destruct (span is_space s3) as [sp1 s4] eqn:Hs4. simpl.
  destruct s4 as [|c4 s5]; [done|].
  destruct (Ascii.eqb c4 "=") eqn:E4.
  2:{ destruct c4 as [[] [] [] [] [] [] [] []]; try done. }
  apply Ascii.eqb_eq in E4. subst c4.
  destruct (span is_space s5) as [sp2 s6] eqn:Hs6. simpl.
  destruct s6 as [|c6 s7]; [done|].
  destruct (Ascii.eqb c6 "'") eqn:E6.
  2:{ destruct c6 as [[] [] [] [] [] [] [] []]; try done. }
  apply Ascii.eqb_eq in E6. subst c6.
  pose proof (span_fst_closed not_quote s7) as Hvalue.
  destruct (span not_quote s7) as [v s8] eqn:Hs8. simpl in *.
  destruct v as [|v0 v]; [done|].
  destruct s8 as [|c8 s9]; [done|].
  destruct (Ascii.eqb c8 "'") eqn:E8.
  2:{ destruct c8 as [[] [] [] [] [] [] [] []]; try done. }
  apply Ascii.eqb_eq in E8. subst c8.
  intros [= <- <- <-]. split; [|split].
  - exists (String n0 name). by repeat split.
  - by split.
  - (* the quote that opens the value is in [s] *)
    destruct (quote_free (String "_" (String "_" s1))) eqn:Q; [|done].
    exfalso. simpl in Q.
    pose proof (span_snd_quote_free is_lower s1 Q) as Q2. rewrite Hs in Q2.
    simpl in Q2.
    pose proof (span_snd_quote_free is_space s3 Q2) as Q4. rewrite Hs4 in Q4.
    simpl in Q4.
    pose proof (span_snd_quote_free is_space s5 Q4) as Q6. rewrite Hs6 in Q6.
    simpl in Q6. done.
Qed.

Lemma findall_from_cons skip c s :
  findall_from skip (String c s)
  = match skip with
    | S k => findall_from k s
    | O =>
        match match_here (String c s) with
        | Some (key, value, rest) =>
            (key, value) :: findall_from (String.length s - String.length rest) s
        | None => findall_from O s
        end
    end.
Proof. reflexivity. Qed.

Lemma findall_from_in skip s key value :
  In (key, value) (findall_from skip s) -> dunder key /\ quotable value.
Proof.
  revert skip. induction s as [|c s IH]; intros skip; [done|].
  rewrite findall_from_cons. destruct skip as [|k]; [|apply IH].
  destruct (match_here (String c s)) as [[[k0 v0] rest]|] eqn:Hm; [|apply IH].
  intros [[= <- <-]|Hin]; [|by eapply IH].
  apply match_here_some in Hm. tauto.
Qed.

Lemma findall_from_quote_free skip s :
  quote_free s = true -> findall_from skip s = [].
Proof.
  revert skip. induction s as [|c s IH]; intros skip Hq; [done|].
  rewrite findall_from_cons. destruct skip as [|k].
  - destruct (match_here (String c s)) as [[[k0 v0] rest]|] eqn:Hm.
    + apply match_here_some in Hm as (_ & _ & Hm). congruence.
    + apply IH. simpl in Hq. by apply andb_true_iff in Hq as [_ ?].
  - apply IH. simpl in Hq. by apply andb_true_iff in Hq as [_ ?].
Qed.

Lemma length_append_sep (a b : string) :
  String.length (a +:+ b) = (String.length a + String.length b)%nat.
Proof.
  induction a as [|c a IH]; [reflexivity|].
  change (S (String.length (a +:+ b)) = S (String.length a + String.length b)).
  f_equal. exact IH.
Qed.

Lemma findall_from_skip a b :
  findall_from (String.length a) (a +:+ b) = findall_from O b.
Proof. induction a as [|c a IH]; simpl; [by destruct b|done]. Qed.

Lemma append_assoc (a b c : string) : (a +:+ b) +:+ c = a +:+ (b +:+ c).
Proof.
  induction a as [|x a IH]; [reflexivity|].
  change (String x ((a +:+ b) +:+ c) = String x (a +:+ (b +:+ c))).
  f_equal. exact IH.
Qed.

Lemma span_one p a c s :
  p a = true -> p c = false ->
  span p (String a (String c s)) = (String a "", String c s).
Proof. intros Ha Hc. simpl. by rewrite Ha, Hc. Qed.

Lemma match_here_assignment key value rest :
  dunder key -> quotable value ->
  match_here (assignment (key, value) +:+ rest)
  = Some (key, value, String (ascii_of_nat 10) rest).
Proof.
  intros (name & -> & Hne & Hname) (Hv & Hvalue).
  unfold assignment. simpl fst. simpl snd.
  rewrite !append_assoc.
  change (match_here
            (String "_" (String "_"
               (name +:+ String "_" (String "_" (String " " (String "="
                  (String " " (String "'"
                     (value +:+ String "'" (String (ascii_of_nat 10) rest))))))))))
          = Some ("__" +:+ name +:+ "__", value, String (ascii_of_nat 10) rest)).
  unfold match_here.
  rewrite (span_app is_lower name "_" _ Hname eq_refl).
  destruct name as [|n0 name]; [done|].
  cbn [fst snd].
  rewrite (span_one is_space " " "=" _ eq_refl eq_refl). cbn [fst snd].
  rewrite (span_one is_space " " "'" _ eq_refl eq_refl). cbn [fst snd].
  rewrite (span_app not_quote value "'" _ Hvalue eq_refl).
  destruct value as [|v0 value]; [done|]. reflexivity.
Qed.

Lemma findall_from_assignment key value rest :
  dunder key -> quotable value ->
  findall_from O (assignment (key, value) +:+ rest)
  = (key, value) :: findall_from O rest.
Proof.
  intros Hk Hv.
  pose proof (match_here_assignment key value rest Hk Hv) as Hm.
  destruct Hk as (name & Hkey & _).
  set (pre := "_" +:+ name +:+ "__" +:+ " = '" +:+ value +:+ "'").
  assert (assignment (key, value) +:+ rest
          = String "_" (pre +:+ String (ascii_of_nat 10) rest)) as Heq.
  { unfold assignment, pre. rewrite Hkey. cbn [fst snd].
    rewrite !append_assoc. reflexivity. }
  rewrite Heq in Hm |- *. rewrite findall_from_cons, Hm.
  f_equal. rewrite length_append_sep.
  replace (String.length pre + String.length (String (ascii_of_nat 10) rest)
           - String.length (String (ascii_of_nat 10) rest))%nat
    with (String.length pre) by lia.
  rewrite findall_from_skip, findall_from_cons. reflexivity.
Qed.

Lemma findall_metadata_file pairs :
  Forall (fun kv => dunder kv.1 /\ quotable kv.2) pairs ->
  findall (metadata_file pairs) = pairs.
Proof.
  unfold findall. induction 1 as [|[k v] pairs [Hk Hv] _ IH]; [reflexivity|].
  change (metadata_file ((k, v) :: pairs))
    with (assignment (k, v) +:+ metadata_file pairs).
  by rewrite findall_from_assignment, IH.
Qed.

Lemma dict_fold_absent (pairs : list (string * string)) (m : gmap string string) key :
  key ∉ pairs.*1 ->
  fold_left (fun m kv => <[kv.1 := kv.2]> m) pairs m !! key = m !! key.
Proof.
  revert m. induction pairs as [|[k v] pairs IH]; intros m Hk; [done|].
  simpl in *. apply not_elem_of_cons in Hk as [Hne Hk].
  rewrite IH by done. by rewrite lookup_insert_ne.
Qed.

Lemma dict_last before key value after :
  key ∉ after.*1 ->
  dict (before ++ (key, value) :: after) !! key = Some value.
Proof.
  intros Hk. unfold dict. rewrite fold_left_app. simpl.
  rewrite dict_fold_absent by done. by rewrite lookup_insert_eq.
Qed.

Lemma dict_fold_lookup (pairs : list (string * string)) (m : gmap string string) key value :
  fold_left (fun m kv => <[kv.1 := kv.2]> m) pairs m !! key = Some value ->
  In (key, value) pairs \/ m !! key = Some value.
Proof.
  revert m. induction pairs as [|[k v] pairs IH]; intros m H; [by right|].
  simpl in H. apply IH in H as [H|H]; [left; by right|].
  destruct (decide (k = key)) as [->|Hne].
  - rewrite lookup_insert_eq in H. injection H as ->. left. by left.
  - rewrite lookup_insert_ne in H by done. by right.
Qed.

(** Whatever [METADATA] holds was written as [__name__ = 'value']: every
    key is two underscores, one or more lower-case letters and two
    underscores, and every value is non-empty and has no single quote.
    An assignment of the empty string is never picked up. *)
Theorem METADATA_values_well_formed META_FILE key value :
  METADATA META_FILE !! key = Some value ->
  dunder key /\ quotable value.
Proof.
  unfold METADATA, dict. intros H.
  apply dict_fold_lookup in H as [H|H]; [|by rewrite lookup_empty in H].
  by apply findall_from_in in H.
Qed.

(** Only single-quoted values are read: from a metadata file with no
    single quote in it (one written with double quotes, say) [METADATA]
    is empty, and every [METADATA.get] of [setup] gives [None]. *)
Theorem METADATA_without_quote_empty META_FILE :
  quote_free META_FILE = true -> METADATA META_FILE = ∅.
Proof.
  intros H. unfold METADATA, findall. by rewrite findall_from_quote_free.
Qed.

(** A file of well-formed assignments, a line each, is read back whole
    and in order, and for a key assigned more than once [METADATA] holds
    the value of its last assignment. *)
Theorem METADATA_last_assignment_wins before key value after :
  Forall (fun kv => dunder kv.1 /\ quotable kv.2) (before ++ (key, value) :: after) ->
  key ∉ after.*1 ->
  findall (metadata_file (before ++ (key, value) :: after))
  = before ++ (key, value) :: after
  /\ METADATA (metadata_file (before ++ (key, value) :: after)) !! key = Some value.
Proof.
  intros Hwf Hk. unfold METADATA. rewrite findall_metadata_file by done.
  split; [done|]. by apply dict_last.
Qed.

Lemma METADATA_values_well_formed_witness :
  METADATA "__version__ = '2017.1b3'" !! "__version__" = Some "2017.1b3"
  /\ dunder "__version__" /\ quotable "2017.1b3".
Proof.
  split; [vm_compute; reflexivity|].
  apply (METADATA_values_well_formed "__version__ = '2017.1b3'").
  vm_compute. reflexivity.
Defined.

Lemma METADATA_without_quote_empty_witness :
  quote_free "__version__ = 2017.1b3" = true
  /\ METADATA "__version__ = 2017.1b3" = ∅.
Proof.
  split; [reflexivity|].
  apply (METADATA_without_quote_empty "__version__ = 2017.1b3"). reflexivity.
Defined.

Lemma METADATA_last_assignment_wins_witness :
  let before := [("__version__", "2017.1b2")] in
  let after := [("__author__", "Kytos Team")] in
  let pairs := before ++ ("__version__", "2017.1b3") :: after in
  findall (metadata_file pairs) = pairs
  /\ METADATA (metadata_file pairs) !! "__version__" = Some "2017.1b3".
Proof.
  apply (METADATA_last_assignment_wins
           [("__version__", "2017.1b2")] "__version__" "2017.1b3"
           [("__author__", "Kytos Team")]).
  - assert (dunder "__version__") as Hversion
      by (exists "version"; repeat split; discriminate).
    assert (dunder "__author__") as Hauthor
      by (exists "author"; repeat split; discriminate).
    repeat (apply List.Forall_cons;
            [split; [assumption|split; [discriminate|reflexivity]]|]).
    apply List.Forall_nil.
  - intros H. simpl in H. inversion H as [|? ? ? H']. inversion H'.
Defined.
End MetadataFacts.
